(** * Tribal Knowledge Extractor: a shallow embedding and its properties

    The development follows the plugin's JavaScript sources

    - [scripts/utils/git-utils.js]      (module [GitUtils]),
    - [scripts/extract-knowledge.js]    (module [ExtractKnowledge]),
    - [scripts/author-patterns.js]      (module [AuthorPatterns]),
    - [scripts/commit-timeline.js]      (module [CommitTimeline]),

    on top of a small model of the JavaScript runtime (module [JS]).

    Modelling conventions.

    - A JavaScript string is the Rocq [string] of its UTF-8 bytes;
      [length] counts UTF-16 code units, [toLowerCase] is the case
      conversion of Unicode and the regular expression class [\s] (also
      used by [trim]) is the white space of the language, all read off the
      characters of the text.
    - Integer counters ([x++], sums of counters) are natural numbers; they
      are exact in the runtime below [2^53].
    - Every other number is an IEEE-754 binary64 value, computed with the
      operations of [SpecFloat] (round to nearest, ties to even).
    - An object is the list of its own properties in creation order;
      [Object.entries] enumerates array-index keys first, in ascending
      order, and then the other keys in creation order.  A [Map] is the list
      of its entries in insertion order.
    - [Array.prototype.sort] is stable; with a comparator it is modelled by
      a stable insertion sort.
    - The outside world (the output of shell commands, the clock, the
      working directory, the time zone used by [Date]) is an explicit
      argument; module [Dates] gives the hours of the dates [git log]
      writes. *)

From Stdlib Require Import ZArith List String Ascii Bool Lia Arith.
From Stdlib Require Import Numbers.DecimalString.
From Stdlib Require Import Floats.SpecFloat.
From Stdlib Require Import Sorting.Sorted Sorting.Permutation.
Import ListNotations.

Local Open Scope string_scope.
Local Open Scope list_scope.
Local Open Scope nat_scope.

(* ================================================================== *)
(** * Part I: the model *)
(* ================================================================== *)

(** ** The JavaScript runtime *)

Module JS.

(** *** Text

    A [string] holds the UTF-8 bytes of a JavaScript string; the text the
    scripts handle is decoded from UTF-8 by [execSync], so it is
    well-formed.  [codePoints] cuts a string into its characters: each byte
    that is no continuation byte, with the continuation bytes behind it. *)

Definition isContinuation (c : ascii) : bool :=
  let n := nat_of_ascii c in (128 <=? n) && (n <? 192).

Definition continues (s : string) : bool :=
  match s with
  | String c _ => isContinuation c
  | EmptyString => false
  end.

Fixpoint codePoints (s : string) : list string :=
  match s with
  | EmptyString => []
  | String c r =>
      match codePoints r with
      | h :: t => if continues h then String c h :: t
                  else String c EmptyString :: h :: t
      | [] => [String c EmptyString]
      end
  end.

(** The text of a list of characters. *)
Fixpoint concat (l : list string) : string :=
  match l with
  | [] => EmptyString
  | x :: r => x ++ concat r
  end.

Definition byte (n : N) : ascii := ascii_of_N n.

(** The UTF-8 bytes of the code point [n]. *)
Definition utf8 (n : N) : string :=
  (if n <? 128 then String (byte n) EmptyString
   else if n <? 2048 then
     String (byte (192 + n / 64)) (String (byte (128 + n mod 64)) EmptyString)
   else if n <? 65536 then
     String (byte (224 + n / 4096))
       (String (byte (128 + (n / 64) mod 64))
          (String (byte (128 + n mod 64)) EmptyString))
   else
     String (byte (240 + n / 262144))
       (String (byte (128 + (n / 4096) mod 64))
          (String (byte (128 + (n / 64) mod 64))
             (String (byte (128 + n mod 64)) EmptyString))))%N.

(** The code point of a character; [None] when the bytes are not the
    UTF-8 form of one. *)
Definition codeOf (ch : string) : option N :=
  let v (c : ascii) : N := N_of_ascii c in
  let n :=
    (match ch with
     | String a EmptyString => v a
     | String a (String b EmptyString) => (v a - 192) * 64 + (v b - 128)
     | String a (String b (String c EmptyString)) =>
         (v a - 224) * 4096 + (v b - 128) * 64 + (v c - 128)
     | String a (String b (String c (String d EmptyString))) =>
         (v a - 240) * 262144 + (v b - 128) * 4096 + (v c - 128) * 64 + (v d - 128)
     | _ => 0
     end)%N in
  if String.eqb (utf8 n) ch then Some n else None.

(** The number of UTF-16 code units of a character: two above the basic
    plane, whose characters have four bytes. *)
Definition units (ch : string) : nat :=
  match ch with
  | String c _ => if 240 <=? nat_of_ascii c then 2 else 1
  | EmptyString => 0
  end.

(** [s.length] *)
Definition length (s : string) : nat := list_sum (map units (codePoints s)).

(** The characters of the class [\s], which are also those [trim] and
    [parseInt] skip: the white space and the line terminators of the
    language. *)
Definition whiteSpace : list N :=
  [ 9; 10; 11; 12; 13; 32; 160; 5760;
    8192; 8193; 8194; 8195; 8196; 8197; 8198; 8199; 8200; 8201; 8202;
    8232; 8233; 8239; 8287; 12288; 65279 ]%N.

Definition isSpace (ch : string) : bool :=
  match codeOf ch with
  | Some n => existsb (N.eqb n) whiteSpace
  | None => false
  end.

(** *** Lower case

    [toLowerCase] follows the default case conversion of Unicode (the
    tables are those of version 14.0): every character with a lower-case
    mapping is replaced by it, [U+0130] by the two characters [U+0069
    U+0307], and a capital sigma by the final small sigma when a cased
    letter stands before it and none behind it, case-ignorable characters
    in between not counting. *)

(** [(first, last, step, image of first)]: the characters [first],
    [first + step], ... up to [last] map to the image of the first, moved by
    the same distance. *)
Definition lowerCaseTable : list (N * N * N * N) :=
  [
   (65, 90, 1, 97); (192, 214, 1, 224); (216, 222, 1, 248); (256, 302, 2, 257);
   (306, 310, 2, 307); (313, 327, 2, 314); (330, 374, 2, 331); (376, 376, 1, 255);
   (377, 381, 2, 378); (385, 385, 1, 595); (386, 388, 2, 387); (390, 390, 1, 596);
   (391, 391, 1, 392); (393, 394, 1, 598); (395, 395, 1, 396); (398, 398, 1, 477);
   (399, 399, 1, 601); (400, 400, 1, 603); (401, 401, 1, 402); (403, 403, 1, 608);
   (404, 404, 1, 611); (406, 406, 1, 617); (407, 407, 1, 616); (408, 408, 1, 409);
   (412, 412, 1, 623); (413, 413, 1, 626); (415, 415, 1, 629); (416, 420, 2, 417);
   (422, 422, 1, 640); (423, 423, 1, 424); (425, 425, 1, 643); (428, 428, 1, 429);
   (430, 430, 1, 648); (431, 431, 1, 432); (433, 434, 1, 650); (435, 437, 2, 436);
   (439, 439, 1, 658); (440, 440, 1, 441); (444, 444, 1, 445); (452, 452, 1, 454);
   (453, 453, 1, 454); (455, 455, 1, 457); (456, 456, 1, 457); (458, 458, 1, 460);
   (459, 475, 2, 460); (478, 494, 2, 479); (497, 497, 1, 499); (498, 500, 2, 499);
   (502, 502, 1, 405); (503, 503, 1, 447); (504, 542, 2, 505); (544, 544, 1, 414);
   (546, 562, 2, 547); (570, 570, 1, 11365); (571, 571, 1, 572); (573, 573, 1, 410);
   (574, 574, 1, 11366); (577, 577, 1, 578); (579, 579, 1, 384); (580, 580, 1, 649);
   (581, 581, 1, 652); (582, 590, 2, 583); (880, 882, 2, 881); (886, 886, 1, 887);
   (895, 895, 1, 1011); (902, 902, 1, 940); (904, 906, 1, 941); (908, 908, 1, 972);
   (910, 911, 1, 973); (913, 929, 1, 945); (931, 939, 1, 963); (975, 975, 1, 983);
   (984, 1006, 2, 985); (1012, 1012, 1, 952); (1015, 1015, 1, 1016); (1017, 1017, 1, 1010);
   (1018, 1018, 1, 1019); (1021, 1023, 1, 891); (1024, 1039, 1, 1104); (1040, 1071, 1, 1072);
   (1120, 1152, 2, 1121); (1162, 1214, 2, 1163); (1216, 1216, 1, 1231); (1217, 1229, 2, 1218);
   (1232, 1326, 2, 1233); (1329, 1366, 1, 1377); (4256, 4293, 1, 11520); (4295, 4295, 1, 11559);
   (4301, 4301, 1, 11565); (5024, 5103, 1, 43888); (5104, 5109, 1, 5112); (7312, 7354, 1, 4304);
   (7357, 7359, 1, 4349); (7680, 7828, 2, 7681); (7838, 7838, 1, 223); (7840, 7934, 2, 7841);
   (7944, 7951, 1, 7936); (7960, 7965, 1, 7952); (7976, 7983, 1, 7968); (7992, 7999, 1, 7984);
   (8008, 8013, 1, 8000); (8025, 8031, 2, 8017); (8040, 8047, 1, 8032); (8072, 8079, 1, 8064);
   (8088, 8095, 1, 8080); (8104, 8111, 1, 8096); (8120, 8121, 1, 8112); (8122, 8123, 1, 8048);
   (8124, 8124, 1, 8115); (8136, 8139, 1, 8050); (8140, 8140, 1, 8131); (8152, 8153, 1, 8144);
   (8154, 8155, 1, 8054); (8168, 8169, 1, 8160); (8170, 8171, 1, 8058); (8172, 8172, 1, 8165);
   (8184, 8185, 1, 8056); (8186, 8187, 1, 8060); (8188, 8188, 1, 8179); (8486, 8486, 1, 969);
   (8490, 8490, 1, 107); (8491, 8491, 1, 229); (8498, 8498, 1, 8526); (8544, 8559, 1, 8560);
   (8579, 8579, 1, 8580); (9398, 9423, 1, 9424); (11264, 11311, 1, 11312); (11360, 11360, 1, 11361);
   (11362, 11362, 1, 619); (11363, 11363, 1, 7549); (11364, 11364, 1, 637); (11367, 11371, 2, 11368);
   (11373, 11373, 1, 593); (11374, 11374, 1, 625); (11375, 11375, 1, 592); (11376, 11376, 1, 594);
   (11378, 11378, 1, 11379); (11381, 11381, 1, 11382); (11390, 11391, 1, 575); (11392, 11490, 2, 11393);
   (11499, 11501, 2, 11500); (11506, 11506, 1, 11507); (42560, 42604, 2, 42561); (42624, 42650, 2, 42625);
   (42786, 42798, 2, 42787); (42802, 42862, 2, 42803); (42873, 42875, 2, 42874); (42877, 42877, 1, 7545);
   (42878, 42886, 2, 42879); (42891, 42891, 1, 42892); (42893, 42893, 1, 613); (42896, 42898, 2, 42897);
   (42902, 42920, 2, 42903); (42922, 42922, 1, 614); (42923, 42923, 1, 604); (42924, 42924, 1, 609);
   (42925, 42925, 1, 620); (42926, 42926, 1, 618); (42928, 42928, 1, 670); (42929, 42929, 1, 647);
   (42930, 42930, 1, 669); (42931, 42931, 1, 43859); (42932, 42946, 2, 42933); (42948, 42948, 1, 42900);
   (42949, 42949, 1, 642); (42950, 42950, 1, 7566); (42951, 42953, 2, 42952); (42960, 42960, 1, 42961);
   (42966, 42968, 2, 42967); (42997, 42997, 1, 42998); (65313, 65338, 1, 65345); (66560, 66599, 1, 66600);
   (66736, 66771, 1, 66776); (66928, 66938, 1, 66967); (66940, 66954, 1, 66979); (66956, 66962, 1, 66995);
   (66964, 66965, 1, 67003); (68736, 68786, 1, 68800); (71840, 71871, 1, 71872); (93760, 93791, 1, 93792);
   (125184, 125217, 1, 125218) ]%N.

(** The case-ignorable characters, in ranges. *)
Definition caseIgnorableTable : list (N * N) :=
  [
   (39, 39); (46, 46); (58, 58); (94, 94); (96, 96); (168, 168);
   (173, 173); (175, 175); (180, 180); (183, 184); (688, 879); (884, 885);
   (890, 890); (900, 901); (903, 903); (1155, 1161); (1369, 1369); (1375, 1375);
   (1425, 1469); (1471, 1471); (1473, 1474); (1476, 1477); (1479, 1479); (1524, 1524);
   (1536, 1541); (1552, 1562); (1564, 1564); (1600, 1600); (1611, 1631); (1648, 1648);
   (1750, 1757); (1759, 1768); (1770, 1773); (1807, 1807); (1809, 1809); (1840, 1866);
   (1958, 1968); (2027, 2037); (2042, 2042); (2045, 2045); (2070, 2093); (2137, 2139);
   (2184, 2184); (2192, 2193); (2200, 2207); (2249, 2306); (2362, 2362); (2364, 2364);
   (2369, 2376); (2381, 2381); (2385, 2391); (2402, 2403); (2417, 2417); (2433, 2433);
   (2492, 2492); (2497, 2500); (2509, 2509); (2530, 2531); (2558, 2558); (2561, 2562);
   (2620, 2620); (2625, 2626); (2631, 2632); (2635, 2637); (2641, 2641); (2672, 2673);
   (2677, 2677); (2689, 2690); (2748, 2748); (2753, 2757); (2759, 2760); (2765, 2765);
   (2786, 2787); (2810, 2815); (2817, 2817); (2876, 2876); (2879, 2879); (2881, 2884);
   (2893, 2893); (2901, 2902); (2914, 2915); (2946, 2946); (3008, 3008); (3021, 3021);
   (3072, 3072); (3076, 3076); (3132, 3132); (3134, 3136); (3142, 3144); (3146, 3149);
   (3157, 3158); (3170, 3171); (3201, 3201); (3260, 3260); (3263, 3263); (3270, 3270);
   (3276, 3277); (3298, 3299); (3328, 3329); (3387, 3388); (3393, 3396); (3405, 3405);
   (3426, 3427); (3457, 3457); (3530, 3530); (3538, 3540); (3542, 3542); (3633, 3633);
   (3636, 3642); (3654, 3662); (3761, 3761); (3764, 3772); (3782, 3782); (3784, 3789);
   (3864, 3865); (3893, 3893); (3895, 3895); (3897, 3897); (3953, 3966); (3968, 3972);
   (3974, 3975); (3981, 3991); (3993, 4028); (4038, 4038); (4141, 4144); (4146, 4151);
   (4153, 4154); (4157, 4158); (4184, 4185); (4190, 4192); (4209, 4212); (4226, 4226);
   (4229, 4230); (4237, 4237); (4253, 4253); (4348, 4348); (4957, 4959); (5906, 5908);
   (5938, 5939); (5970, 5971); (6002, 6003); (6068, 6069); (6071, 6077); (6086, 6086);
   (6089, 6099); (6103, 6103); (6109, 6109); (6155, 6159); (6211, 6211); (6277, 6278);
   (6313, 6313); (6432, 6434); (6439, 6440); (6450, 6450); (6457, 6459); (6679, 6680);
   (6683, 6683); (6742, 6742); (6744, 6750); (6752, 6752); (6754, 6754); (6757, 6764);
   (6771, 6780); (6783, 6783); (6823, 6823); (6832, 6862); (6912, 6915); (6964, 6964);
   (6966, 6970); (6972, 6972); (6978, 6978); (7019, 7027); (7040, 7041); (7074, 7077);
   (7080, 7081); (7083, 7085); (7142, 7142); (7144, 7145); (7149, 7149); (7151, 7153);
   (7212, 7219); (7222, 7223); (7288, 7293); (7376, 7378); (7380, 7392); (7394, 7400);
   (7405, 7405); (7412, 7412); (7416, 7417); (7468, 7530); (7544, 7544); (7579, 7679);
   (8125, 8125); (8127, 8129); (8141, 8143); (8157, 8159); (8173, 8175); (8189, 8190);
   (8203, 8207); (8216, 8217); (8228, 8228); (8231, 8231); (8234, 8238); (8288, 8292);
   (8294, 8303); (8305, 8305); (8319, 8319); (8336, 8348); (8400, 8432); (11388, 11389);
   (11503, 11505); (11631, 11631); (11647, 11647); (11744, 11775); (11823, 11823); (12293, 12293);
   (12330, 12333); (12337, 12341); (12347, 12347); (12441, 12446); (12540, 12542); (40981, 40981);
   (42232, 42237); (42508, 42508); (42607, 42610); (42612, 42621); (42623, 42623); (42652, 42655);
   (42736, 42737); (42752, 42785); (42864, 42864); (42888, 42890); (42994, 42996); (43000, 43001);
   (43010, 43010); (43014, 43014); (43019, 43019); (43045, 43046); (43052, 43052); (43204, 43205);
   (43232, 43249); (43263, 43263); (43302, 43309); (43335, 43345); (43392, 43394); (43443, 43443);
   (43446, 43449); (43452, 43453); (43471, 43471); (43493, 43494); (43561, 43566); (43569, 43570);
   (43573, 43574); (43587, 43587); (43596, 43596); (43632, 43632); (43644, 43644); (43696, 43696);
   (43698, 43700); (43703, 43704); (43710, 43711); (43713, 43713); (43741, 43741); (43756, 43757);
   (43763, 43764); (43766, 43766); (43867, 43871); (43881, 43883); (44005, 44005); (44008, 44008);
   (44013, 44013); (64286, 64286); (64434, 64450); (65024, 65039); (65043, 65043); (65056, 65071);
   (65106, 65106); (65109, 65109); (65279, 65279); (65287, 65287); (65294, 65294); (65306, 65306);
   (65342, 65342); (65344, 65344); (65392, 65392); (65438, 65439); (65507, 65507); (65529, 65531);
   (66045, 66045); (66272, 66272); (66422, 66426); (67456, 67461); (67463, 67504); (67506, 67514);
   (68097, 68099); (68101, 68102); (68108, 68111); (68152, 68154); (68159, 68159); (68325, 68326);
   (68900, 68903); (69291, 69292); (69446, 69456); (69506, 69509); (69633, 69633); (69688, 69702);
   (69744, 69744); (69747, 69748); (69759, 69761); (69811, 69814); (69817, 69818); (69821, 69821);
   (69826, 69826); (69837, 69837); (69888, 69890); (69927, 69931); (69933, 69940); (70003, 70003);
   (70016, 70017); (70070, 70078); (70089, 70092); (70095, 70095); (70191, 70193); (70196, 70196);
   (70198, 70199); (70206, 70206); (70367, 70367); (70371, 70378); (70400, 70401); (70459, 70460);
   (70464, 70464); (70502, 70508); (70512, 70516); (70712, 70719); (70722, 70724); (70726, 70726);
   (70750, 70750); (70835, 70840); (70842, 70842); (70847, 70848); (70850, 70851); (71090, 71093);
   (71100, 71101); (71103, 71104); (71132, 71133); (71219, 71226); (71229, 71229); (71231, 71232);
   (71339, 71339); (71341, 71341); (71344, 71349); (71351, 71351); (71453, 71455); (71458, 71461);
   (71463, 71467); (71727, 71735); (71737, 71738); (71995, 71996); (71998, 71998); (72003, 72003);
   (72148, 72151); (72154, 72155); (72160, 72160); (72193, 72202); (72243, 72248); (72251, 72254);
   (72263, 72263); (72273, 72278); (72281, 72283); (72330, 72342); (72344, 72345); (72752, 72758);
   (72760, 72765); (72767, 72767); (72850, 72871); (72874, 72880); (72882, 72883); (72885, 72886);
   (73009, 73014); (73018, 73018); (73020, 73021); (73023, 73029); (73031, 73031); (73104, 73105);
   (73109, 73109); (73111, 73111); (73459, 73460); (78896, 78904); (92912, 92916); (92976, 92982);
   (92992, 92995); (94031, 94031); (94095, 94111); (94176, 94177); (94179, 94180); (110576, 110579);
   (110581, 110587); (110589, 110590); (113821, 113822); (113824, 113827); (118528, 118573); (118576, 118598);
   (119143, 119145); (119155, 119170); (119173, 119179); (119210, 119213); (119362, 119364); (121344, 121398);
   (121403, 121452); (121461, 121461); (121476, 121476); (121499, 121503); (121505, 121519); (122880, 122886);
   (122888, 122904); (122907, 122913); (122915, 122916); (122918, 122922); (123184, 123197); (123566, 123566);
   (123628, 123631); (125136, 125142); (125252, 125259); (127995, 127999); (917505, 917505); (917536, 917631);
   (917760, 917999) ]%N.

(** The cased characters that are not case-ignorable, in ranges. *)
Definition casedTable : list (N * N) :=
  [
   (65, 90); (97, 122); (170, 170); (181, 181); (186, 186); (192, 214);
   (216, 246); (248, 442); (444, 447); (452, 659); (661, 687); (880, 883);
   (886, 887); (891, 893); (895, 895); (902, 902); (904, 906); (908, 908);
   (910, 929); (931, 1013); (1015, 1153); (1162, 1327); (1329, 1366); (1376, 1416);
   (4256, 4293); (4295, 4295); (4301, 4301); (4304, 4346); (4349, 4351); (5024, 5109);
   (5112, 5117); (7296, 7304); (7312, 7354); (7357, 7359); (7424, 7467); (7531, 7543);
   (7545, 7578); (7680, 7957); (7960, 7965); (7968, 8005); (8008, 8013); (8016, 8023);
   (8025, 8025); (8027, 8027); (8029, 8029); (8031, 8061); (8064, 8116); (8118, 8124);
   (8126, 8126); (8130, 8132); (8134, 8140); (8144, 8147); (8150, 8155); (8160, 8172);
   (8178, 8180); (8182, 8188); (8450, 8450); (8455, 8455); (8458, 8467); (8469, 8469);
   (8473, 8477); (8484, 8484); (8486, 8486); (8488, 8488); (8490, 8493); (8495, 8500);
   (8505, 8505); (8508, 8511); (8517, 8521); (8526, 8526); (8544, 8575); (8579, 8580);
   (9398, 9449); (11264, 11387); (11390, 11492); (11499, 11502); (11506, 11507); (11520, 11557);
   (11559, 11559); (11565, 11565); (42560, 42605); (42624, 42651); (42786, 42863); (42865, 42887);
   (42891, 42894); (42896, 42954); (42960, 42961); (42963, 42963); (42965, 42969); (42997, 42998);
   (43002, 43002); (43824, 43866); (43872, 43880); (43888, 43967); (64256, 64262); (64275, 64279);
   (65313, 65338); (65345, 65370); (66560, 66639); (66736, 66771); (66776, 66811); (66928, 66938);
   (66940, 66954); (66956, 66962); (66964, 66965); (66967, 66977); (66979, 66993); (66995, 67001);
   (67003, 67004); (68736, 68786); (68800, 68850); (71840, 71903); (93760, 93823); (119808, 119892);
   (119894, 119964); (119966, 119967); (119970, 119970); (119973, 119974); (119977, 119980); (119982, 119993);
   (119995, 119995); (119997, 120003); (120005, 120069); (120071, 120074); (120077, 120084); (120086, 120092);
   (120094, 120121); (120123, 120126); (120128, 120132); (120134, 120134); (120138, 120144); (120146, 120485);
   (120488, 120512); (120514, 120538); (120540, 120570); (120572, 120596); (120598, 120628); (120630, 120654);
   (120656, 120686); (120688, 120712); (120714, 120744); (120746, 120770); (120772, 120779); (122624, 122633);
   (122635, 122654); (125184, 125251); (127280, 127305); (127312, 127337); (127344, 127369) ]%N.

Definition inRanges (n : N) (table : list (N * N)) : bool :=
  existsb (fun r => (fst r <=? n)%N && (n <=? snd r)%N) table.

Definition lowerCode (n : N) : list N :=
  if (n =? 304)%N then [105; 775]%N
  else
    match find (fun e => let '(first, last, step, _) := e in
                         (first <=? n)%N && (n <=? last)%N
                         && ((n - first) mod step =? 0)%N) lowerCaseTable with
    | Some (first, _, _, image) => [(image + (n - first))%N]
    | None => [n]
    end.

Definition toLowerChar (c : ascii) : ascii :=
  let n := nat_of_ascii c in
  if (65 <=? n) && (n <=? 90) then ascii_of_nat (n + 32) else c.

(** The lower case of one character out of context. *)
Definition lowerChar (ch : string) : string :=
  match ch with
  | EmptyString => EmptyString
  | String c rest =>
      if nat_of_ascii c <? 128 then String (toLowerChar c) rest
      else match codeOf ch with
           | Some n => concat (map utf8 (lowerCode n))
           | None => ch
           end
  end.

Definition caseIgnorable (ch : string) : bool :=
  match codeOf ch with
  | Some n => inRanges n caseIgnorableTable
  | None => false
  end.

Definition cased (ch : string) : bool :=
  match codeOf ch with
  | Some n => inRanges n casedTable
  | None => false
  end.

(** The nearest character of [l] that is not case-ignorable is cased. *)
Fixpoint nextCased (l : list string) : bool :=
  match l with
  | [] => false
  | ch :: r => if caseIgnorable ch then nextCased r else cased ch
  end.

Definition capitalSigma : string := utf8 931.
Definition smallSigma : string := utf8 963.
Definition finalSigma : string := utf8 962.

(** [behind] holds the characters already passed, the nearest first. *)
Fixpoint lowerChars (behind : list string) (l : list string) : list string :=
  match l with
  | [] => []
  | ch :: r =>
      (if String.eqb ch capitalSigma
       then if nextCased behind && negb (nextCased r) then finalSigma else smallSigma
       else lowerChar ch)
      :: lowerChars (ch :: behind) r
  end.

(** [s.toLowerCase()] *)
Definition toLowerCase (s : string) : string :=
  concat (lowerChars [] (codePoints s)).

(** The text has ASCII characters only. *)
Fixpoint asciiText (s : string) : bool :=
  match s with
  | EmptyString => true
  | String c r => (nat_of_ascii c <? 128) && asciiText r
  end.

(** [s.split(/\s+/)]: a maximal run of white space is one separator. *)
Fixpoint splitRuns (l : list string) : list string :=
  match l with
  | [] => [EmptyString]
  | ch :: r =>
      if isSpace ch then
        match r with
        | ch' :: _ => if isSpace ch' then splitRuns r else EmptyString :: splitRuns r
        | [] => EmptyString :: splitRuns r
        end
      else match splitRuns r with
           | h :: t => (ch ++ h)%string :: t
           | [] => [ch]
           end
  end.

Definition splitWs (s : string) : list string := splitRuns (codePoints s).

(** [s.replace(/\s+/g, ' ')] *)
Fixpoint collapseRuns (l : list string) : string :=
  match l with
  | [] => EmptyString
  | ch :: r =>
      if isSpace ch then
        match r with
        | ch' :: _ => if isSpace ch' then collapseRuns r else String " " (collapseRuns r)
        | [] => String " " EmptyString
        end
      else (ch ++ collapseRuns r)%string
  end.

Definition collapseWs (s : string) : string := collapseRuns (codePoints s).

Fixpoint dropSpace (l : list string) : list string :=
  match l with
  | [] => []
  | ch :: r => if isSpace ch then dropSpace r else l
  end.

Fixpoint dropSpaceEnd (l : list string) : list string :=
  match l with
  | [] => []
  | ch :: r =>
      match dropSpaceEnd r with
      | [] => if isSpace ch then [] else [ch]
      | t => ch :: t
      end
  end.

Definition trimStart (s : string) : string := concat (dropSpace (codePoints s)).

Definition trimEnd (s : string) : string := concat (dropSpaceEnd (codePoints s)).

(** [s.trim()] *)
Definition trim (s : string) : string :=
  concat (dropSpaceEnd (dropSpace (codePoints s))).

(** [s.startsWith(p)] *)
Definition startsWith (s p : string) : bool := String.prefix p s.

(** [s.split(sep)] for a one-character separator: never empty. *)
Fixpoint split (sep : ascii) (s : string) : list string :=
  match s with
  | EmptyString => [EmptyString]
  | String c r =>
      if Ascii.eqb c sep then EmptyString :: split sep r
      else match split sep r with
           | h :: t => String c h :: t
           | [] => [String c EmptyString]
           end
  end.

(** [a.join(sep)] *)
Fixpoint join (sep : string) (l : list string) : string :=
  match l with
  | [] => EmptyString
  | [x] => x
  | x :: r => x ++ sep ++ join sep r
  end.

(** [a < b] on strings: lexicographic on code units. *)
Fixpoint strLt (a b : string) : bool :=
  match a, b with
  | EmptyString, EmptyString => false
  | EmptyString, String _ _ => true
  | String _ _, EmptyString => false
  | String x a', String y b' =>
      if (nat_of_ascii x <? nat_of_ascii y) then true
      else if (nat_of_ascii y <? nat_of_ascii x) then false
      else strLt a' b'
  end.

(** *** Numbers that may be [NaN]

    Integer results of the runtime that may be [NaN] ([getHours] of an
    invalid date, [parseInt]) are [option Z], [None] being [NaN].  Every
    comparison with [NaN] is false. *)
Definition num := option Z.

Definition geNum (x : num) (n : Z) : bool :=
  match x with Some v => (n <=? v)%Z | None => false end.

Definition ltNum (x : num) (n : Z) : bool :=
  match x with Some v => (v <? n)%Z | None => false end.

(** *** Objects and Maps *)

(** Own properties in creation order / Map entries in insertion order. *)
Definition assoc (V : Type) := list (string * V).

Fixpoint get {V} (m : assoc V) (k : string) : option V :=
  match m with
  | [] => None
  | (k', v) :: r => if String.eqb k' k then Some v else get r k
  end.

(** [m.set(k, v)] and [o[k] = v]: an existing key keeps its place. *)
Fixpoint set {V} (m : assoc V) (k : string) (v : V) : assoc V :=
  match m with
  | [] => [(k, v)]
  | (k', v') :: r =>
      if String.eqb k' k then (k', v) :: r else (k', v') :: set r k v
  end.

Definition has {V} (m : assoc V) (k : string) : bool :=
  match get m k with Some _ => true | None => false end.

(** The names every plain object inherits from [Object.prototype]: the
    lookup [o[k]] of such a name finds the inherited (truthy) value when
    [o] has no own property [k]. *)
Definition objectPrototypeKeys : list string :=
  [ "constructor"; "__proto__"; "hasOwnProperty"; "isPrototypeOf";
    "propertyIsEnumerable"; "toLocaleString"; "toString"; "valueOf";
    "__defineGetter__"; "__defineSetter__"; "__lookupGetter__";
    "__lookupSetter__" ].

Definition inherited (k : string) : bool :=
  existsb (String.eqb k) objectPrototypeKeys.

Definition isDigit (c : ascii) : bool :=
  let n := nat_of_ascii c in (48 <=? n) && (n <=? 57).

Fixpoint allDigits (s : string) : bool :=
  match s with
  | EmptyString => true
  | String c r => isDigit c && allDigits r
  end.

Fixpoint digitsValue (acc : N) (s : string) : N :=
  match s with
  | EmptyString => acc
  | String c r => digitsValue (acc * 10 + N.of_nat (nat_of_ascii c - 48))%N r
  end.

(** A key is an array index when it is the canonical decimal numeral of an
    integer in [0, 2^32 - 2]. *)
Definition arrayIndex (k : string) : option N :=
  match k with
  | EmptyString => None
  | String c r =>
      if allDigits k && (negb (Ascii.eqb c "0") || String.eqb r EmptyString)
         && (String.length k <=? 10)
      then let v := digitsValue 0 k in
           if (v <? 4294967295)%N then Some v else None
      else None
  end.

(** Stable insertion of an entry into a list sorted by ascending index. *)
Fixpoint insertIndex {V} (i : N) (e : string * V) (l : list (N * (string * V)))
  : list (N * (string * V)) :=
  match l with
  | [] => [(i, e)]
  | (j, e') :: r => if (i <? j)%N then (i, e) :: l else (j, e') :: insertIndex i e r
  end.

Fixpoint indexEntries {V} (m : assoc V) : list (N * (string * V)) :=
  match m with
  | [] => []
  | (k, v) :: r =>
      match arrayIndex k with
      | Some i => insertIndex i (k, v) (indexEntries r)
      | None => indexEntries r
      end
  end.

Definition nameEntries {V} (m : assoc V) : assoc V :=
  filter (fun e => match arrayIndex (fst e) with Some _ => false | None => true end) m.

(** [Object.entries(o)] *)
Definition entries {V} (o : assoc V) : assoc V :=
  map snd (indexEntries o) ++ nameEntries o.

(** *** Sorting *)

Section Sort.
Context {A : Type}.
(** [before a b]: the comparator puts [a] strictly before [b]
    ([cmp(a, b) < 0]). *)
Variable before : A -> A -> bool.

(** Insert [x], which came earlier than every element of the sorted [l],
    behind the elements that go strictly before it. *)
Fixpoint insertSorted (x : A) (l : list A) : list A :=
  match l with
  | [] => [x]
  | y :: r => if before y x then y :: insertSorted x r else x :: l
  end.

(** [a.sort(cmp)]: stable. *)
Definition sort (l : list A) : list A :=
  fold_right insertSorted [] l.
End Sort.

(** [a.slice(0, n)] is [firstn n a]; [a.slice(n)] is [skipn n a]. *)

(** A thrown [TypeError] aborts the computation. *)
Inductive result (A : Type) := Ok (a : A) | TypeError.
Arguments Ok {A} a.
Arguments TypeError {A}.

(** [parseInt(s, 10)]: white space, a sign, then the longest run of
    digits; [NaN] when there is none. *)
Fixpoint leadingDigits (s : string) : string :=
  match s with
  | EmptyString => EmptyString
  | String c r => if isDigit c then String c (leadingDigits r) else EmptyString
  end.

Definition parseInt (s : string) : num :=
  let s1 := trimStart s in
  let '(neg, body) :=
    match s1 with
    | String c r =>
        if Ascii.eqb c "-" then (true, r)
        else if Ascii.eqb c "+" then (false, r)
        else (false, s1)
    | EmptyString => (false, s1)
    end in
  match leadingDigits body with
  | EmptyString => None
  | ds => let v := Z.of_N (digitsValue 0 ds) in Some (if neg then (- v)%Z else v)
  end.

End JS.

(** ** binary64 numbers *)

Module F64.

Definition prec : Z := 53.
Definition emax : Z := 1024.

Definition t := spec_float.

(** The binary64 value of an integer. *)
Definition ofZ (z : Z) : t := binary_normalize prec emax z 0 false.

Definition div : t -> t -> t := SFdiv prec emax.
Definition mul : t -> t -> t := SFmul prec emax.
Definition sub : t -> t -> t := SFsub prec emax.

(** [a < b]; false when either is [NaN]. *)
Definition ltb : t -> t -> bool := SFltb.

Definition zero : t := S754_zero false.

(** Decimal digits of a non-negative integer. *)
Definition digits (n : Z) : string := NilZero.string_of_int (Z.to_int n).

(** [n] with [n / 10 - x] closest to zero, the larger when two are, for
    [x = m * 2^e]. *)
Definition tenthsOf (m : positive) (e : Z) : Z :=
  if (0 <=? e)%Z then (10 * Z.pos m * 2 ^ e)%Z
  else let d := (2 ^ (- e))%Z in ((2 * 10 * Z.pos m + d) / (2 * d))%Z.

(** [x.toFixed(1)], for [|x| < 10^21]; from [10^21] on the runtime
    switches to exponent notation, which counters never reach and which is
    not modelled: the digits are written out there as well. *)
Definition toFixed1 (x : t) : string :=
  match x with
  | S754_nan => "NaN"
  | S754_infinity s => if s then "-Infinity" else "Infinity"
  | S754_zero _ => "0.0"
  | S754_finite s m e =>
      let n := tenthsOf m e in
      ((if s then "-" else "") ++ digits (n / 10) ++ "." ++ digits (n mod 10))%string
  end.

End F64.

(** ** JSON.stringify(value, null, 2) *)

Module JSON.

#[warnings="-register-all"]
Inductive value :=
| Num (z : Z)
| Str (s : string)
| Arr (l : list value)
| Obj (o : list (string * value)).

Definition hexDigit (n : nat) : ascii :=
  if n <? 10 then ascii_of_nat (48 + n) else ascii_of_nat (87 + n).

Definition escapeChar (c : ascii) : string :=
  let n := nat_of_ascii c in
  let bs : string := String (ascii_of_nat 92) EmptyString in
  if n =? 34 then bs ++ String c EmptyString
  else if n =? 92 then bs ++ bs
  else if n =? 8 then bs ++ "b"
  else if n =? 12 then bs ++ "f"
  else if n =? 10 then bs ++ "n"
  else if n =? 13 then bs ++ "r"
  else if n =? 9 then bs ++ "t"
  else if n <? 32 then
    bs ++ "u00" ++ String (hexDigit (n / 16)) (String (hexDigit (n mod 16)) EmptyString)
  else String c EmptyString.

Fixpoint escape (s : string) : string :=
  match s with
  | EmptyString => EmptyString
  | String c r => escapeChar c ++ escape r
  end.

Definition quote (s : string) : string :=
  let q : string := String (ascii_of_nat 34) EmptyString in (q ++ escape s ++ q)%string.

Definition nl : string := String (ascii_of_nat 10) EmptyString.

(** The text of [v] when its opening bracket stands at indentation
    [indent]. *)
Fixpoint stringifyAt (indent : string) (v : value) : string :=
  match v with
  | Num z => NilZero.string_of_int (Z.to_int z)
  | Str s => quote s
  | Arr [] => "[]"
  | Arr l =>
      let inner := (indent ++ "  ")%string in
      ("[" ++ nl ++ inner
           ++ JS.join ("," ++ nl ++ inner) (map (stringifyAt inner) l)
           ++ nl ++ indent ++ "]")%string
  | Obj [] => "{}"
  | Obj o =>
      let inner := (indent ++ "  ")%string in
      ("{" ++ nl ++ inner
           ++ JS.join ("," ++ nl ++ inner)
                (map (fun kv => quote (fst kv) ++ ": " ++ stringifyAt inner (snd kv)) o)
           ++ nl ++ indent ++ "}")%string
  end.

Definition stringify (v : value) : string := stringifyAt "" v.

(** [v[key]] for a property [key] of the object [v] itself. *)
Definition member (key : string) (v : value) : option value :=
  match v with
  | Obj o => JS.get o key
  | _ => None
  end.

End JSON.

(** ** Dates of [git log --date=iso]

    [new Date(text)] for a text that is not in the date-time format of the
    language is read by rules of the engine; [getHours] is therefore a
    parameter of the model.  For the one format the scripts pass to it,
    [YYYY-MM-DD HH:MM:SS +ZZZZ], this module gives the hour the engine
    answers in a process whose time zone is at a fixed distance from UTC:
    the instant is the recorded time less the recorded offset, and the
    hour is that of the instant in the zone of the process. *)

Module Dates.

Definition number (s : string) : option Z :=
  match s with
  | EmptyString => None
  | _ => if JS.allDigits s then Some (Z.of_N (JS.digitsValue 0 s)) else None
  end.

Definition isLeap (y : Z) : bool :=
  ((y mod 4 =? 0) && negb (y mod 100 =? 0) || (y mod 400 =? 0))%Z.

Definition daysIn (y m : Z) : Z :=
  (if m =? 2 then (if isLeap y then 29 else 28)
   else if (m =? 4) || (m =? 6) || (m =? 9) || (m =? 11) then 30 else 31)%Z.

Definition charAt (i : nat) (s : string) : string := String.substring i 1 s.

Definition inRange (lo x hi : Z) : bool := ((lo <=? x) && (x <=? hi))%Z.

(** The minute of the day and the offset from UTC in minutes that a
    well-formed date records. *)
Definition gitIso (date : string) : option (Z * Z) :=
  if (String.length date =? 25)
     && String.eqb (charAt 4 date) "-" && String.eqb (charAt 7 date) "-"
     && String.eqb (charAt 10 date) " " && String.eqb (charAt 13 date) ":"
     && String.eqb (charAt 16 date) ":" && String.eqb (charAt 19 date) " "
     && (String.eqb (charAt 20 date) "+" || String.eqb (charAt 20 date) "-")
  then
    match number (String.substring 0 4 date), number (String.substring 5 2 date),
          number (String.substring 8 2 date), number (String.substring 11 2 date),
          number (String.substring 14 2 date), number (String.substring 17 2 date),
          number (String.substring 21 2 date), number (String.substring 23 2 date) with
    | Some y, Some mo, Some d, Some h, Some mi, Some sec, Some oh, Some om =>
        if inRange 1970 y 9999 && inRange 1 mo 12 && inRange 1 d (daysIn y mo)
           && inRange 0 h 23 && inRange 0 mi 59 && inRange 0 sec 59
           && inRange 0 oh 14 && inRange 0 om 59
        then Some ((h * 60 + mi)%Z,
                   if String.eqb (charAt 20 date) "-" then (- (oh * 60 + om))%Z
                   else (oh * 60 + om)%Z)
        else None
    | _, _, _, _, _, _, _, _ => None
    end
  else None.

(** The hour of a recorded minute and offset in a zone [zone] minutes
    east of UTC. *)
Definition hourIn (zone : Z) (stamp : Z * Z) : Z :=
  (((fst stamp - snd stamp + zone) / 60) mod 24)%Z.

(** [new Date(date).getHours()] on well-formed dates, in a process whose
    zone is [zone] minutes east of UTC. *)
Definition getHours (zone : Z) (date : string) : JS.num :=
  option_map (hourIn zone) (gitIso date).

End Dates.

(** ** scripts/utils/git-utils.js *)

Module GitUtils.

(** [sanitizeGitInput]: [input.replace(/[`\$\\]/g, '')]. *)
Fixpoint sanitizeGitInput (input : string) : string :=
  match input with
  | EmptyString => EmptyString
  | String c r =>
      let n := nat_of_ascii c in
      if (n =? 96) || (n =? 36) || (n =? 92) then sanitizeGitInput r
      else String c (sanitizeGitInput r)
  end.

(** [obj[field] = value] for a string [value] on a plain object: the name
    [__proto__] is the accessor of [Object.prototype], whose setter ignores
    a value that is no object, so the assignment creates no property. *)
Definition assign (obj : JS.assoc string) (field value : string) : JS.assoc string :=
  if String.eqb field "__proto__" then obj else JS.set obj field value.

(** The object built by [fields.forEach((field, index) => obj[field] =
    values[index] || '')]. *)
Fixpoint zipFields (fields : list string) (index : nat) (values : list string)
                   (obj : JS.assoc string) : JS.assoc string :=
  match fields with
  | [] => obj
  | field :: rest =>
      zipFields rest (S index) values (assign obj field (nth index values ""))
  end.

(** The field names that become properties. *)
Definition ownField (field : string) : bool := negb (String.eqb field "__proto__").

(** [parseGitLog(output, fields)] *)
Definition parseGitLog (output : string) (fields : list string)
  : list (JS.assoc string) :=
  if String.eqb output "" then []
  else map (fun line => zipFields fields 0 (JS.split "|" line) [])
           (JS.split (ascii_of_nat 10) (JS.trim output)).

End GitUtils.

(** ** scripts/extract-knowledge.js *)

Module ExtractKnowledge.

Definition MAX_COMMITS : nat := 1000.

(** A double quote, for the command lines. *)
Definition dq : string := String (ascii_of_nat 34) EmptyString.

Record Commit := mkCommit {
  c_hash : string; c_author : string; c_email : string;
  c_date : string; c_subject : string }.

Record AuthorEntry := mkAuthorEntry { a_email : string; a_commits : nat }.

Record Patterns := mkPatterns {
  p_fix : nat; p_feat : nat; p_refactor : nat; p_docs : nat;
  p_test : nat; p_chore : nat; p_other : nat }.

Record TimeDistribution := mkTimeDistribution {
  t_morning : nat; t_afternoon : nat; t_evening : nat; t_night : nat }.

(** The part of [stats] that the early return [{ commits: [], total: 0 }]
    does not have. *)
Record Aggregates := mkAggregates {
  authors : JS.assoc AuthorEntry;
  patterns : Patterns;
  timeDistribution : TimeDistribution }.

Record Stats := mkStats {
  commits : list Commit;
  total : nat;
  aggregates : option Aggregates }.

Inductive Category := Fix | Feat | Refactor | Docs | Test | Chore | Other.

Inductive Period := Morning | Afternoon | Evening | Night.

(** The [if]/[else if] chain on [subject] (lines 114-120, and the same
    chain in author-patterns.js). *)
Definition classify (subject : string) : Category :=
  if JS.startsWith subject "fix:" || JS.startsWith subject "Fix:" then Fix
  else if JS.startsWith subject "feat:" || JS.startsWith subject "Feat:" then Feat
  else if JS.startsWith subject "refactor:" || JS.startsWith subject "Refactor:" then Refactor
  else if JS.startsWith subject "docs:" || JS.startsWith subject "Docs:" then Docs
  else if JS.startsWith subject "test:" || JS.startsWith subject "Test:" then Test
  else if JS.startsWith subject "chore:" || JS.startsWith subject "Chore:" then Chore
  else Other.

(** [stats.patterns.<category>++] *)
Definition bumpPattern (c : Category) (p : Patterns) : Patterns :=
  match c with
  | Fix => mkPatterns (S (p_fix p)) (p_feat p) (p_refactor p) (p_docs p) (p_test p) (p_chore p) (p_other p)
  | Feat => mkPatterns (p_fix p) (S (p_feat p)) (p_refactor p) (p_docs p) (p_test p) (p_chore p) (p_other p)
  | Refactor => mkPatterns (p_fix p) (p_feat p) (S (p_refactor p)) (p_docs p) (p_test p) (p_chore p) (p_other p)
  | Docs => mkPatterns (p_fix p) (p_feat p) (p_refactor p) (S (p_docs p)) (p_test p) (p_chore p) (p_other p)
  | Test => mkPatterns (p_fix p) (p_feat p) (p_refactor p) (p_docs p) (S (p_test p)) (p_chore p) (p_other p)
  | Chore => mkPatterns (p_fix p) (p_feat p) (p_refactor p) (p_docs p) (p_test p) (S (p_chore p)) (p_other p)
  | Other => mkPatterns (p_fix p) (p_feat p) (p_refactor p) (p_docs p) (p_test p) (p_chore p) (S (p_other p))
  end.

(** The [if]/[else if] chain on [hour] (lines 122-125, and the same chain
    in [analyzeWorkingHours]). *)
Definition period (hour : JS.num) : Period :=
  if JS.geNum hour 6 && JS.ltNum hour 12 then Morning
  else if JS.geNum hour 12 && JS.ltNum hour 17 then Afternoon
  else if JS.geNum hour 17 && JS.ltNum hour 21 then Evening
  else Night.

(** [stats.timeDistribution.<period>++] *)
Definition bumpPeriod (q : Period) (t : TimeDistribution) : TimeDistribution :=
  match q with
  | Morning => mkTimeDistribution (S (t_morning t)) (t_afternoon t) (t_evening t) (t_night t)
  | Afternoon => mkTimeDistribution (t_morning t) (S (t_afternoon t)) (t_evening t) (t_night t)
  | Evening => mkTimeDistribution (t_morning t) (t_afternoon t) (S (t_evening t)) (t_night t)
  | Night => mkTimeDistribution (t_morning t) (t_afternoon t) (t_evening t) (S (t_night t))
  end.

(** [if (!stats.authors[author]) stats.authors[author] = { email, commits: 0 };
     stats.authors[author].commits++;]

    When [author] is no own property but a name inherited from
    [Object.prototype], the lookup is truthy and the increment lands on the
    inherited object: the own properties stay as they are. *)
Definition bumpAuthor (author email : string) (o : JS.assoc AuthorEntry)
  : JS.assoc AuthorEntry :=
  match JS.get o author with
  | Some e => JS.set o author (mkAuthorEntry (a_email e) (S (a_commits e)))
  | None => if JS.inherited author then o
            else JS.set o author (mkAuthorEntry email 1)
  end.

(** [const { hash, author, email, date, subject } = commit] *)
Definition field (obj : JS.assoc string) (k : string) : string :=
  match JS.get obj k with Some v => v | None => "" end.

Definition destructure (obj : JS.assoc string) : Commit :=
  mkCommit (field obj "hash") (field obj "author") (field obj "email")
           (field obj "date") (field obj "subject").

Definition logFields : list string :=
  ["hash"; "author"; "email"; "date"; "subject"].

Definition emptyAggregates : Aggregates :=
  mkAggregates [] (mkPatterns 0 0 0 0 0 0 0) (mkTimeDistribution 0 0 0 0).

Section World.
(** [execCommand]: the output of a shell command, the empty string when
    it fails. *)
Variable execCommand : string -> string.
(** [new Date(date).getHours()], in the time zone of the process. *)
Variable getHours : string -> JS.num.

(** The body of [commitList.slice(0, MAX_COMMITS).forEach(commit => ...)]. *)
Definition foldCommit (acc : list Commit * Aggregates) (commit : JS.assoc string)
  : list Commit * Aggregates :=
  let '(cs, ag) := acc in
  let c := destructure commit in
  let hour := getHours (c_date c) in
  (cs ++ [c],
   mkAggregates (bumpAuthor (c_author c) (c_email c) (authors ag))
                (bumpPattern (classify (c_subject c)) (patterns ag))
                (bumpPeriod (period hour) (timeDistribution ag))).

(** What [getCommitStats] does with the output [commits] of [git log]. *)
Definition commitStats (commitsOut : string) : Stats :=
  if String.eqb commitsOut "" then mkStats [] 0 None
  else
    let commitList := GitUtils.parseGitLog commitsOut logFields in
    let '(cs, ag) := fold_left foldCommit (firstn MAX_COMMITS commitList)
                               ([], emptyAggregates) in
    mkStats cs (List.length commitList) (Some ag).

Definition logCommand (since : string) : string :=
  "git log --all --since=" ++ dq ++ since ++ dq ++ " --pretty=format:" ++ dq
    ++ "%H|%an|%ae|%ad|%s" ++ dq ++ " --date=iso".

Definition getCommitStats (since : string) : Stats :=
  commitStats (execCommand (logCommand since)).

(** *** getCommitPatterns *)

(** [map.set(k, (map.get(k) || 0) + 1)] *)
Definition countUp (m : JS.assoc nat) (k : string) : JS.assoc nat :=
  JS.set m k (match JS.get m k with Some n => n | None => 0 end + 1).

(** [words.forEach(word => { if (word.length > 3) ... })] *)
Definition countWords (wordMap : JS.assoc nat) (words : list string) : JS.assoc nat :=
  fold_left (fun m word => if 3 <? JS.length word then countUp m word else m)
            words wordMap.

(** [msg.toLowerCase().replace(/\s+/g, ' ').trim()] *)
Definition phraseOf (msg : string) : string :=
  JS.trim (JS.collapseWs (JS.toLowerCase msg)).

(** The body of [messageList.forEach(msg => ...)]. *)
Definition foldMessage (maps : JS.assoc nat * JS.assoc nat) (msg : string)
  : JS.assoc nat * JS.assoc nat :=
  let '(wordMap, phraseMap) := maps in
  let words := JS.splitWs (JS.toLowerCase msg) in
  let wordMap' := countWords wordMap words in
  let phrase := phraseOf msg in
  (wordMap', if 5 <? JS.length phrase then countUp phraseMap phrase else phraseMap).

Definition stopWords : list string :=
  ["this"; "that"; "with"; "from"; "when"; "were"; "been"].

(** [.sort((a, b) => b[1] - a[1])] *)
Definition byCountDesc (l : list (string * nat)) : list (string * nat) :=
  JS.sort (fun a b => snd b <? snd a) l.

Record CommitPatterns := mkCommitPatterns {
  commonWords : list (string * nat);
  commonPhrases : list (string * nat) }.

(** [messages.trim().split('\n')] *)
Definition messageList (messages : string) : list string :=
  JS.split (ascii_of_nat 10) (JS.trim messages).

(** What [getCommitPatterns] does with the output [messages]. *)
Definition commitPatterns (messages : string) : CommitPatterns :=
  if String.eqb messages "" then mkCommitPatterns [] []
  else
    let '(wordMap, phraseMap) := fold_left foldMessage (messageList messages) ([], []) in
    mkCommitPatterns
      (firstn 20 (byCountDesc
         (filter (fun e => negb (existsb (String.eqb (fst e)) stopWords)) wordMap)))
      (firstn 15 (byCountDesc (filter (fun e => 1 <? snd e) phraseMap))).

Definition messagesCommand : string :=
  "git log --all --pretty=format:" ++ dq ++ "%s" ++ dq ++ " | head -n 1000".

Definition getCommitPatterns : CommitPatterns :=
  commitPatterns (execCommand messagesCommand).

(** *** getMostChangedFiles and getBranchInsights *)

Record FileChange := mkFileChange { f_count : Z; f_file : string }.

Definition parseFileLine (line : string) : FileChange :=
  let parts := JS.splitWs (JS.trim line) in
  let count := JS.parseInt (nth 0 parts "") in
  let file := JS.join " " (skipn 1 parts) in
  mkFileChange (match count with Some c => c | None => 0%Z end) file.

Definition getMostChangedFiles (limit : nat) : list FileChange :=
  let files := execCommand
    ("git log --all --name-only --pretty=format: | sort | uniq -c | sort -rn | head -n "
       ++ NilZero.string_of_uint (Nat.to_uint limit)) in
  if String.eqb files "" then []
  else filter (fun item => 0 <? String.length (f_file item))
              (map parseFileLine (JS.split (ascii_of_nat 10) (JS.trim files))).

Record BranchInsights := mkBranchInsights {
  totalBranches : Z; mergedBranches : Z }.

(** [parseInt(str, 10) || 0] *)
Definition parseIntOr0 (s : string) : Z :=
  match JS.parseInt s with Some v => v | None => 0%Z end.

Definition getBranchInsights : BranchInsights :=
  let branches := execCommand "git branch -a | wc -l" in
  let branchesStr := if String.eqb branches "" then "0" else JS.trim branches in
  let merged := execCommand "git branch --merged | wc -l" in
  let mergedStr := if String.eqb merged "" then "0" else JS.trim merged in
  mkBranchInsights (parseIntOr0 branchesStr) (parseIntOr0 mergedStr).

(** *** generateReport *)

(** [path.basename(process.cwd())] *)
Variable repoName : string.
(** The text of the [n]-th [new Date().toISOString()] of the run. *)
Variable clock : nat -> string.

(** [((count / total) * 100).toFixed(1) + '%'] *)
Definition percentage (count total : nat) : string :=
  F64.toFixed1 (F64.mul (F64.div (F64.ofZ (Z.of_nat count)) (F64.ofZ (Z.of_nat total)))
                        (F64.ofZ 100)) ++ "%".

(** [Object.entries(stats.authors).sort(([, a], [, b]) => b.commits -
    a.commits).slice(0, 10)] *)
Definition sortedAuthors (o : JS.assoc AuthorEntry) : list (string * AuthorEntry) :=
  firstn 10 (JS.sort (fun a b => a_commits (snd b) <? a_commits (snd a)) (JS.entries o)).

Definition natJ (n : nat) : JSON.value := JSON.Num (Z.of_nat n).

Definition patternsJ (p : Patterns) : JSON.value :=
  JSON.Obj [("fix", natJ (p_fix p)); ("feat", natJ (p_feat p));
            ("refactor", natJ (p_refactor p)); ("docs", natJ (p_docs p));
            ("test", natJ (p_test p)); ("chore", natJ (p_chore p));
            ("other", natJ (p_other p))].

Definition timeJ (t : TimeDistribution) : JSON.value :=
  JSON.Obj [("morning", natJ (t_morning t)); ("afternoon", natJ (t_afternoon t));
            ("evening", natJ (t_evening t)); ("night", natJ (t_night t))].

(** The [metadata] section of [reportData]. *)
Definition metadataJ (generatedAt : string) (totalCommits : nat) : JSON.value :=
  JSON.Obj [("repository", JSON.Str repoName);
            ("generatedAt", JSON.Str generatedAt);
            ("commitsAnalyzed", natJ totalCommits)].

(** The sections of [reportData] after [metadata]. *)
Definition sectionsJ (totalCommits : nat) (ag : Aggregates) (files : list FileChange)
                     (pats : CommitPatterns) (branches : BranchInsights)
  : list (string * JSON.value) :=
  [("authors",
    JSON.Arr (map (fun e =>
      JSON.Obj [("author", JSON.Str (fst e));
                ("email", JSON.Str (a_email (snd e)));
                ("commits", natJ (a_commits (snd e)));
                ("percentage", JSON.Str (percentage (a_commits (snd e)) totalCommits))])
      (sortedAuthors (authors ag))));
   ("commitPatterns", patternsJ (patterns ag));
   ("timeDistribution", timeJ (timeDistribution ag));
   ("mostChangedFiles",
    JSON.Arr (map (fun f => JSON.Obj [("count", JSON.Num (f_count f));
                                      ("file", JSON.Str (f_file f))]) files));
   ("commonKeywords",
    JSON.Arr (map (fun e => JSON.Obj [("word", JSON.Str (fst e)); ("count", natJ (snd e))])
                  (commonWords pats)));
   ("commonPhrases",
    JSON.Arr (map (fun e => JSON.Obj [("phrase", JSON.Str (fst e)); ("count", natJ (snd e))])
                  (commonPhrases pats)));
   ("branchInsights",
    JSON.Obj [("totalBranches", JSON.Num (totalBranches branches));
              ("mergedBranches", JSON.Num (mergedBranches branches))])].

(** [reportData]; the console output before it takes the first reading
    of the clock, [generatedAt] the second. *)
Definition reportData (totalCommits : nat) (ag : Aggregates) (files : list FileChange)
                      (pats : CommitPatterns) (branches : BranchInsights) : JSON.value :=
  JSON.Obj (("metadata", metadataJ (clock 1) totalCommits)
              :: sectionsJ totalCommits ag files pats branches).

(** [generateReport]: the text written to [OUTPUT_FILE], or the
    [TypeError] of [Object.entries(stats.authors)] when [stats] is the
    early return of [getCommitStats]. *)
Definition generateReport (stats : Stats) (files : list FileChange)
                          (pats : CommitPatterns) (branches : BranchInsights)
  : JS.result string :=
  match aggregates stats with
  | None => JS.TypeError
  | Some ag => JS.Ok (JSON.stringify (reportData (total stats) ag files pats branches))
  end.

(** *** main *)

(** [args.find(arg => arg.startsWith('--since='))?.split('=')[1]
     || '6 months ago'] *)
Definition sinceOf (args : list string) : string :=
  match find (fun arg => JS.startsWith arg "--since=") args with
  | Some arg =>
      match nth 1 (JS.split "=" arg) "" with
      | EmptyString => "6 months ago"
      | v => v
      end
  | None => "6 months ago"
  end.

(** How a run of the command ends. *)
Inductive Run :=
| Exited (code : nat)
| Threw
| Wrote (file : string) (content : string).

Definition OUTPUT_FILE : string := "tribal-knowledge-report.json".

Definition main (args : list string) : Run :=
  let since := sinceOf args in
  if String.eqb (execCommand "git rev-parse --git-dir 2>/dev/null") "" then Exited 1
  else
    let stats := getCommitStats since in
    let files := getMostChangedFiles 20 in
    let pats := getCommitPatterns in
    let branches := getBranchInsights in
    match generateReport stats files pats branches with
    | JS.Ok content => Wrote OUTPUT_FILE content
    | JS.TypeError => Threw
    end.

End World.

(** The shell commands a run of [main] executes for the window [since]. *)
Definition runCommands (since : string) : list string :=
  [ "git rev-parse --git-dir 2>/dev/null";
    logCommand since;
    "git log --all --name-only --pretty=format: | sort | uniq -c | sort -rn | head -n 20";
    messagesCommand;
    "git branch -a | wc -l";
    "git branch --merged | wc -l" ].

(** An element of the [authors] array of [reportData]. *)
Definition authorRow (totalCommits : nat) (e : string * AuthorEntry) : JSON.value :=
  JSON.Obj [("author", JSON.Str (fst e));
            ("email", JSON.Str (a_email (snd e)));
            ("commits", JSON.Num (Z.of_nat (a_commits (snd e))));
            ("percentage", JSON.Str (percentage (a_commits (snd e)) totalCommits))].

(** The sum of the seven counters of [stats.patterns]. *)
Definition patternSum (p : Patterns) : nat :=
  p_fix p + p_feat p + p_refactor p + p_docs p + p_test p + p_chore p + p_other p.

Definition periodSum (t : TimeDistribution) : nat :=
  t_morning t + t_afternoon t + t_evening t + t_night t.

Definition patternCount (c : Category) (p : Patterns) : nat :=
  match c with
  | Fix => p_fix p | Feat => p_feat p | Refactor => p_refactor p
  | Docs => p_docs p | Test => p_test p | Chore => p_chore p
  | Other => p_other p
  end.

Definition periodCount (q : Period) (t : TimeDistribution) : nat :=
  match q with
  | Morning => t_morning t | Afternoon => t_afternoon t
  | Evening => t_evening t | Night => t_night t
  end.

Definition Category_eqb (a b : Category) : bool :=
  match a, b with
  | Fix, Fix | Feat, Feat | Refactor, Refactor | Docs, Docs
  | Test, Test | Chore, Chore | Other, Other => true
  | _, _ => false
  end.

Definition Period_eqb (a b : Period) : bool :=
  match a, b with
  | Morning, Morning | Afternoon, Afternoon | Evening, Evening
  | Night, Night => true
  | _, _ => false
  end.

(** *** Vocabulary for the keyword miner *)

(** [msg.toLowerCase().split(/\s+/)] *)
Definition tokensOf (msg : string) : list string := JS.splitWs (JS.toLowerCase msg).

Definition longWord (w : string) : bool := 3 <? JS.length w.

Definition longPhrase (p : string) : bool := 5 <? JS.length p.

(** Counting the kept keys of a list into a [Map], one [countUp] each. *)
Definition tally (keep : string -> bool) (keys : list string) (m : JS.assoc nat)
  : JS.assoc nat :=
  fold_left (fun m k => if keep k then countUp m k else m) keys m.

Definition valueOr0 (m : JS.assoc nat) (k : string) : nat :=
  match JS.get m k with Some n => n | None => 0 end.

(** How often [k] occurs in [keys]. *)
Definition frequency (keys : list string) (k : string) : nat :=
  count_occ string_dec keys k.

(** A ranking in descending order of its counts. *)
Definition descending {A} (count : A -> nat) (l : list A) : Prop :=
  StronglySorted (fun a b => count b <= count a) l.

(** The commits of a given category / period among [cs]. *)
Definition inCategory (c : Category) (cs : list Commit) : list Commit :=
  filter (fun x => Category_eqb (classify (c_subject x)) c) cs.

Definition inPeriod (getHours : string -> JS.num) (q : Period) (cs : list Commit)
  : list Commit :=
  filter (fun x => Period_eqb (period (getHours (c_date x))) q) cs.

End ExtractKnowledge.


(** ** scripts/commit-timeline.js *)

Module CommitTimeline.

(** The value of a date key in the result of [getCommitsByDay]. *)
Record DayInfo := mkDayInfo {
  d_commits : nat; d_authors : nat; d_subjects : list string }.

Inductive Trend := Stable | Increasing | Decreasing.

(** The string literals of the source. *)
Definition trendLabel (tr : Trend) : string :=
  match tr with
  | Stable => "stable"
  | Increasing => "increasing ğŸ“ˆ"
  | Decreasing => "decreasing ğŸ“‰"
  end.

(** [avgDaily] is the number [0] in the early return and the string of
    [toFixed(1)] otherwise. *)
Inductive AvgDaily := AvgNumber (z : Z) | AvgFixed (s : string).

(** [percentChange] is [None] when the returned object has no such
    property. *)
Record Velocity := mkVelocity {
  avgDaily : AvgDaily;
  trend : Trend;
  percentChange : option F64.t }.

(** *** Divisions on record

    A computation returns its value together with the divisors of the
    divisions it performed, in order. *)
Definition Traced (A : Type) : Type := A * list Z.

Definition ret {A} (a : A) : Traced A := (a, []).

Definition bind {A B} (m : Traced A) (k : A -> Traced B) : Traced B :=
  let '(a, l) := m in let '(b, l') := k a in (b, l ++ l').

(** [a / b] on integer-valued operands. *)
Definition divide (a b : Z) : Traced F64.t :=
  (F64.div (F64.ofZ a) (F64.ofZ b), [b]).

Notation "x <- m ;; k" := (bind m (fun x => k))
  (at level 61, m at next level, right associativity).

(** [String(entry)] for an entry [[date, info]]: the default [sort]
    compares these. *)
Definition entryString (e : string * DayInfo) : string :=
  fst e ++ ",[object Object]".

(** [Object.entries(data).sort()] *)
Definition sortedEntries (data : JS.assoc DayInfo) : list (string * DayInfo) :=
  JS.sort (fun a b => JS.strLt (entryString a) (entryString b)) (JS.entries data).

(** [l.forEach(([, info]) => acc += info.commits)] *)
Definition sumCommits (l : list (string * DayInfo)) : nat :=
  fold_left (fun acc e => acc + d_commits (snd e)) l 0.

Definition calculateVelocityTraced (data : JS.assoc DayInfo) : Traced Velocity :=
  let entries := sortedEntries data in
  if List.length entries <? 2 then ret (mkVelocity (AvgNumber 0) Stable None)
  else
    let totalCommits := sumCommits entries in
    let midPoint := Nat.div (List.length entries) 2 in
    let prevPeriodCommits := sumCommits (firstn midPoint entries) in
    let currPeriodCommits := sumCommits (skipn midPoint entries) in
    avg <- divide (Z.of_nat totalCommits) (Z.of_nat (List.length entries)) ;;
    let avgDaily := F64.toFixed1 avg in
    percentChange <-
      (if 0 <? prevPeriodCommits
       then q <- divide (Z.of_nat currPeriodCommits - Z.of_nat prevPeriodCommits)
                        (Z.of_nat prevPeriodCommits) ;;
            ret (F64.mul q (F64.ofZ 100))
       else ret F64.zero) ;;
    let trend :=
      if F64.ltb (F64.ofZ 20) percentChange then Increasing
      else if F64.ltb percentChange (F64.ofZ (-20)) then Decreasing
      else Stable in
    ret (mkVelocity (AvgFixed avgDaily) trend (Some percentChange)).

(** [calculateVelocity(data)] *)
Definition calculateVelocity (data : JS.assoc DayInfo) : Velocity :=
  fst (calculateVelocityTraced data).

(** The divisors of the divisions [calculateVelocity(data)] performs. *)
Definition divisors (data : JS.assoc DayInfo) : list Z :=
  snd (calculateVelocityTraced data).


(** The commits of all buckets, and the binary64 quotient of two
    counters. *)
Definition bucketCommits (data : JS.assoc DayInfo) : nat :=
  list_sum (map (fun e => d_commits (snd e)) data).

Definition quotient (a b : nat) : F64.t :=
  F64.div (F64.ofZ (Z.of_nat a)) (F64.ofZ (Z.of_nat b)).

(** The trend of a percentage. *)
Definition trendOf (pc : F64.t) : Trend :=
  if F64.ltb (F64.ofZ 20) pc then Increasing
  else if F64.ltb pc (F64.ofZ (-20)) then Decreasing
  else Stable.

(** [((curr - prev) / prev) * 100] *)
Definition percentOf (prev curr : nat) : F64.t :=
  F64.mul (F64.div (F64.ofZ (Z.of_nat curr - Z.of_nat prev)) (F64.ofZ (Z.of_nat prev)))
          (F64.ofZ 100).

End CommitTimeline.

(** ** scripts/author-patterns.js *)

Module AuthorPatterns.

Import ExtractKnowledge.

(** [avgMessageLength] is the number [0] until the last pass writes the
    string of [toFixed(1)]. *)
Inductive AvgLength := AvgInit | AvgString (s : string).

(** The value [getAuthorStats] keeps for an author name. *)
Record AuthorStats := mkAuthorStats {
  s_email : string;
  s_commits : nat;
  s_firstCommit : string;
  s_lastCommit : string;
  s_commitHours : list JS.num;
  s_commitDays : list nat;
  s_patterns : Patterns;
  s_avgMessageLength : AvgLength;
  s_totalMessageLength : nat }.

(** [commitDays[dayOfWeek]++]: [getDay] gives [0..6] or [NaN]; with [NaN]
    the increment makes a property named [NaN] and leaves the seven slots
    alone. *)
Fixpoint bumpAt (i : nat) (l : list nat) : list nat :=
  match l, i with
  | [], _ => []
  | x :: r, O => S x :: r
  | x :: r, S j => x :: bumpAt j r
  end.

Definition bumpDay (dayOfWeek : JS.num) (days : list nat) : list nat :=
  match dayOfWeek with
  | Some d => if (0 <=? d)%Z then bumpAt (Z.to_nat d) days else days
  | None => days
  end.

(** How a call of [displayAuthorAnalysis] ends: with [process.exit(code)]
    after the given lines on the error stream and on the output stream
    (colours left out), with the analysis of the found author displayed,
    or with an uncaught [TypeError]. *)
Inductive Outcome :=
| Exit (code : nat) (stderr : list string) (stdout : list string)
| Displayed (name : string) (target : AuthorStats)
| Uncaught.

Definition newAuthor (email date : string) : AuthorStats :=
  mkAuthorStats email 0 date date [] (repeat 0 7)
                (mkPatterns 0 0 0 0 0 0 0) AvgInit 0.

Section World.
Variable execCommand : string -> string.
Variable getHours : string -> JS.num.
Variable getDay : string -> JS.num.

(** The body of [forEach(line => ...)] once [line.split('|')] has given
    the four strings [name], [email], [date], [subject]. *)
Definition foldLine (authors : JS.assoc AuthorStats)
                    (name email date subject : string) : JS.assoc AuthorStats :=
  let hour := getHours date in
  let dayOfWeek := getDay date in
  let authors1 :=
    if JS.has authors name then authors
    else JS.set authors name (newAuthor email date) in
  match JS.get authors1 name with
  | None => authors1
  | Some a =>
      JS.set authors1 name
        (mkAuthorStats
           (s_email a)
           (S (s_commits a))
           (if JS.strLt date (s_firstCommit a) then date else s_firstCommit a)
           (if JS.strLt (s_lastCommit a) date then date else s_lastCommit a)
           (s_commitHours a ++ [hour])
           (bumpDay dayOfWeek (s_commitDays a))
           (bumpPattern (classify subject) (s_patterns a))
           (s_avgMessageLength a)
           (s_totalMessageLength a + JS.length subject))
  end.

(** A line with fewer than four fields leaves [subject] undefined, and
    [subject.length] throws. *)
Fixpoint foldLines (authors : JS.assoc AuthorStats) (lines : list string)
  : JS.result (JS.assoc AuthorStats) :=
  match lines with
  | [] => JS.Ok authors
  | line :: rest =>
      match JS.split "|" line with
      | name :: email :: date :: subject :: _ =>
          foldLines (foldLine authors name email date subject) rest
      | _ => JS.TypeError
      end
  end.

(** [author.avgMessageLength = (totalMessageLength / commits).toFixed(1)] *)
Definition setAverage (a : AuthorStats) : AuthorStats :=
  mkAuthorStats (s_email a) (s_commits a) (s_firstCommit a) (s_lastCommit a)
    (s_commitHours a) (s_commitDays a) (s_patterns a)
    (AvgString (F64.toFixed1
       (F64.div (F64.ofZ (Z.of_nat (s_totalMessageLength a)))
                (F64.ofZ (Z.of_nat (s_commits a))))))
    (s_totalMessageLength a).

Definition statsCommand (since : string) : string :=
  "git log --all --since=" ++ dq ++ since ++ dq ++ " --pretty=format:" ++ dq
    ++ "%an|%ae|%ad|%s" ++ dq ++ " --date=iso".

(** What [getAuthorStats] does with the output [logData] of [git log];
    the result is the object [Object.fromEntries(authors)]. *)
Definition authorStats (logData : string) : JS.result (JS.assoc AuthorStats) :=
  if String.eqb logData "" then JS.Ok []
  else
    match foldLines [] (JS.split (ascii_of_nat 10) (JS.trim logData)) with
    | JS.Ok authors => JS.Ok (map (fun e => (fst e, setAverage (snd e))) authors)
    | JS.TypeError => JS.TypeError
    end.

Definition getAuthorStats (since : string) : JS.result (JS.assoc AuthorStats) :=
  authorStats (execCommand (statsCommand since)).

(** [analyzeWorkingHours(commitHours)]: the four counters;
    [mostActive] is not needed here. *)
Definition analyzeWorkingHours (commitHours : list JS.num) : TimeDistribution :=
  match commitHours with
  | [] => mkTimeDistribution 0 0 0 0
  | _ => fold_left (fun periods hour => bumpPeriod (period hour) periods)
                   commitHours (mkTimeDistribution 0 0 0 0)
  end.

(** [Object.entries(allAuthors).map(([name, data]) => ({ name, ...data }))
     .sort((a, b) => b.commits - a.commits)] *)
Definition rankedAuthors (allAuthors : JS.assoc AuthorStats)
  : list (string * AuthorStats) :=
  JS.sort (fun a b => s_commits (snd b) <? s_commits (snd a))
          (JS.entries allAuthors).

(** [authors.find(a => a.name === authorName)] *)
Definition findAuthor (authors : list (string * AuthorStats)) (authorName : string)
  : option (string * AuthorStats) :=
  find (fun a => String.eqb (fst a) authorName) authors.

Definition displayAuthorAnalysis (authorName since : string) : Outcome :=
  match getAuthorStats since with
  | JS.TypeError => Uncaught
  | JS.Ok allAuthors =>
      let authors := rankedAuthors allAuthors in
      match findAuthor authors authorName with
      | None =>
          Exit 1
            [("Error: Author " ++ dq ++ authorName ++ dq ++ " not found in git history")%string]
            ((String (ascii_of_nat 10) "Available authors:")
               :: map (fun a => ("  - " ++ fst a)%string) (firstn 10 authors))
      | Some (name, target) => Displayed name target
      end
  end.

End World.

(** The author name of a log line, and the author names of the history. *)
Definition lineAuthor (line : string) : string :=
  match JS.split "|" line with
  | name :: _ => name
  | [] => ""
  end.

Definition historyAuthors (logData : string) : list string :=
  if String.eqb logData "" then []
  else map lineAuthor (JS.split (ascii_of_nat 10) (JS.trim logData)).

(** The log is empty or every line of it has the four fields of the
    format [%an|%ae|%ad|%s], as the output of [git log] has. *)
Definition fourFields (line : string) : bool :=
  4 <=? List.length (JS.split "|" line).

Definition wellFormedLog (logData : string) : bool :=
  String.eqb logData ""
  || forallb fourFields (JS.split (ascii_of_nat 10) (JS.trim logData)).

Definition commitsOr0 (m : JS.assoc AuthorStats) (name : string) : nat :=
  match JS.get m name with Some a => s_commits a | None => 0 end.

(** The lines of the validation error. *)
Definition notFoundMessage (authorName : string) : string :=
  "Error: Author " ++ dq ++ authorName ++ dq ++ " not found in git history".

Definition availableHeader : string :=
  String (ascii_of_nat 10) "Available authors:".

End AuthorPatterns.

(** ** The category rules, as a table *)

Module Rules.

Import ExtractKnowledge.

Definition toUpperChar (c : ascii) : ascii :=
  let n := nat_of_ascii c in
  if (97 <=? n) && (n <=? 122) then ascii_of_nat (n - 32) else c.

(** The token with its first letter in upper case. *)
Definition capitalize (token : string) : string :=
  match token with
  | EmptyString => EmptyString
  | String c r => String (toUpperChar c) r
  end.

(** The ordered (token, category) table of the [if]/[else if] chain. *)
Definition categoryRules : list (string * Category) :=
  [("fix", Fix); ("feat", Feat); ("refactor", Refactor); ("docs", Docs);
   ("test", Test); ("chore", Chore)].

(** The two spellings the source tests for a token. *)
Definition spelled (token subject : string) : bool :=
  JS.startsWith subject (token ++ ":")
  || JS.startsWith subject (capitalize token ++ ":").

(** A case-insensitive prefix match, as the specification words it. *)
Definition spelledAnyCase (token subject : string) : bool :=
  JS.startsWith (JS.toLowerCase subject) (token ++ ":").

(** First matching rule wins; no match is [Other]. *)
Fixpoint firstMatch (matches : string -> string -> bool)
                    (rules : list (string * Category)) (subject : string) : Category :=
  match rules with
  | [] => Other
  | (token, cat) :: rest =>
      if matches token subject then cat else firstMatch matches rest subject
  end.

(** Category assignment as the specification words it. *)
Definition classifyAnyCase (subject : string) : Category :=
  firstMatch spelledAnyCase categoryRules subject.

(** Whitespace normalization without lower-casing, as the specification
    words the phrase extraction. *)
Definition normalizeWs (msg : string) : string :=
  JS.trim (JS.collapseWs msg).

End Rules.

(** ** Sample worlds and inputs *)

Module Samples.

Import ExtractKnowledge.

(** A runtime whose zone is the one the dates were recorded in:
    [getHours] of [YYYY-MM-DD HH:MM:SS +ZZZZ] is [HH], and [NaN] when the
    text has no two digits there. *)
Definition isoHours (date : string) : JS.num :=
  match String.get 11 date, String.get 12 date with
  | Some a, Some b =>
      if JS.isDigit a && JS.isDigit b
      then Some (Z.of_nat ((nat_of_ascii a - 48) * 10 + (nat_of_ascii b - 48)))
      else None
  | _, _ => None
  end.

(** A runtime in which no date is valid. *)
Definition noDay (date : string) : JS.num := None.

Definition nl : string := String (ascii_of_nat 10) EmptyString.

(** [n] log lines, one commit each. *)
Fixpoint logLines (line : string) (n : nat) : string :=
  match n with
  | O => EmptyString
  | S k => line ++ nl ++ logLines line k
  end.

Definition fixLine : string :=
  "c0ffee|Alice|alice@example.org|2024-03-05 10:15:00 +0100|fix: typo".

(** A record whose date is no date. *)
Definition undatedLine : string :=
  "c0ffee|Alice|alice@example.org|yesterday|fix: typo".

(** A history of two commits, and the outputs of the other commands. *)
Definition smallLog : string :=
  "a1|Alice|alice@example.org|2024-03-05 10:15:00 +0100|fix: typo" ++ nl ++
  "b2|Carol|carol@example.org|2024-03-04 22:40:00 +0100|Add parser".

Definition smallWorld (cmd : string) : string :=
  if String.eqb cmd (logCommand "6 months ago") then smallLog
  else if String.eqb cmd messagesCommand then "fix: typo" ++ nl ++ "Add parser"
  else if String.eqb cmd "git rev-parse --git-dir 2>/dev/null" then ".git"
  else if String.eqb cmd "git branch -a | wc -l" then "       3" ++ nl
  else if String.eqb cmd "git branch --merged | wc -l" then "       1" ++ nl
  else "      2 src/parser.js" ++ nl ++ "      1 README.md" ++ nl.

Definition clockA (n : nat) : string := "2026-01-01T00:00:00.000Z".
Definition clockB (n : nat) : string := "2026-01-01T00:00:01.000Z".

(** Author logs in the format of [getAuthorStats]. *)
Definition authorLine (name subject : string) : string :=
  name ++ "|" ++ name ++ "@example.org|2024-03-05 10:15:00 +0100|" ++ subject.

Definition twoAuthorsLog : string :=
  authorLine "Carol" "docs: readme" ++ nl ++
  authorLine "Alice" "fix: a" ++ nl ++
  authorLine "Alice" "feat: b".

Definition elevenAuthorsLog : string :=
  JS.join nl (map (fun n => authorLine n "fix: a")
    ["Ann"; "Ben"; "Cid"; "Dan"; "Eve"; "Fay"; "Gus"; "Hal"; "Ivy"; "Jon"; "Kim"]).

(** Day buckets as [getCommitsByDay] returns them. *)
Definition day (date : string) (n : nat) : string * CommitTimeline.DayInfo :=
  (date, CommitTimeline.mkDayInfo n 1 []).

End Samples.

(** ** Vocabulary for the shell input filter *)

Module Shell.

(** The characters of a string. *)
Definition chars (s : string) : list ascii := list_ascii_of_string s.

(** The characters [sanitizeGitInput] removes: backtick, dollar sign,
    backslash. *)
Definition stripped (c : ascii) : bool :=
  let n := nat_of_ascii c in (n =? 96) || (n =? 36) || (n =? 92).

End Shell.

(** ** Keyed accumulators *)

Module Keyed.

(** [m.set(k, f(m.get(k)))]: the new value of a key from its old one. *)
Definition upsert {V} (m : JS.assoc V) (k : string) (upd : option V -> V)
  : JS.assoc V :=
  JS.set m k (upd (JS.get m k)).

(** The counter of an entry that may be missing. *)
Definition countOf {V} (count : V -> nat) (o : option V) : nat :=
  match o with Some v => count v | None => 0 end.

(** The counters of all entries together. *)
Definition total {V} (count : V -> nat) (m : JS.assoc V) : nat :=
  list_sum (map (fun e => count (snd e)) m).

(** The keys in the order of their first occurrence. *)
Fixpoint firstSeen (seen keys : list string) : list string :=
  match keys with
  | [] => []
  | k :: rest =>
      if existsb (String.eqb k) seen then firstSeen seen rest
      else k :: firstSeen (seen ++ [k]) rest
  end.

End Keyed.

(** ** scripts/commit-timeline.js: the bucketing functions *)

Module TimelineBuckets.

Import CommitTimeline.

(** The value [dayMap] keeps for a date.  A [Set] is the list of its
    elements in insertion order; an element is [None] when the line has no
    such field ([undefined]). *)
Record DayData := mkDayData {
  dd_commits : nat;
  dd_authors : list (option string);
  dd_subjects : list (option string) }.

Record WeekData := mkWeekData {
  wd_commits : nat;
  wd_authors : list (option string) }.

(** The value of a week key in the result of [getCommitsByWeek]. *)
Record WeekInfo := mkWeekInfo { w_commits : nat; w_authors : nat }.

Definition optEqb (a b : option string) : bool :=
  match a, b with
  | Some x, Some y => String.eqb x y
  | None, None => true
  | _, _ => false
  end.

(** [set.add(x)] *)
Definition setAdd (s : list (option string)) (x : option string)
  : list (option string) :=
  if existsb (optEqb x) s then s else s ++ [x].

(** The text [join] and the table make of a subject: nothing for
    [undefined]. *)
Definition subjectText (o : option string) : string :=
  match o with Some s => s | None => "" end.

(** The body of [forEach(line => ...)] in [getCommitsByDay]. *)
Definition foldDayLine (dayMap : JS.assoc DayData) (line : string)
  : JS.assoc DayData :=
  let pieces := JS.split "|" line in
  let date := nth 0 pieces "" in
  let author := nth_error pieces 1 in
  let subject := nth_error pieces 2 in
  let dayMap1 :=
    if JS.has dayMap date then dayMap
    else JS.set dayMap date (mkDayData 0 [] []) in
  match JS.get dayMap1 date with
  | None => dayMap1
  | Some dayData =>
      JS.set dayMap1 date
        (mkDayData (S (dd_commits dayData))
                   (setAdd (dd_authors dayData) author)
                   (dd_subjects dayData ++ [subject]))
  end.

(** The body of [forEach(line => ...)] in [getCommitsByWeek]. *)
Definition foldWeekLine (weekMap : JS.assoc WeekData) (line : string)
  : JS.assoc WeekData :=
  let pieces := JS.split "|" line in
  let week := nth 0 pieces "" in
  let author := nth_error pieces 1 in
  let weekMap1 :=
    if JS.has weekMap week then weekMap
    else JS.set weekMap week (mkWeekData 0 []) in
  match JS.get weekMap1 week with
  | None => weekMap1
  | Some weekData =>
      JS.set weekMap1 week
        (mkWeekData (S (wd_commits weekData)) (setAdd (wd_authors weekData) author))
  end.

(** [commits.trim().split('\n')] *)
Definition linesOf (out : string) : list string :=
  JS.split (ascii_of_nat 10) (JS.trim out).

(** [hourCounts[i]++] for a slot of the array. *)
Fixpoint bumpSlot (i : nat) (l : list nat) : list nat :=
  match l, i with
  | [], _ => []
  | x :: r, O => S x :: r
  | x :: r, S j => x :: bumpSlot j r
  end.

(** The body of [forEach(hour => ...)] in [getCommitsByHour] and
    [getCommitsByDayOfWeek], for an array of [n] slots. *)
Definition foldSlotLine (n : Z) (counts : list nat) (line : string) : list nat :=
  match JS.parseInt line with
  | Some v => if (0 <=? v)%Z && (v <? n)%Z then bumpSlot (Z.to_nat v) counts else counts
  | None => counts
  end.

(** The slot a line is counted in, if any. *)
Definition slotOf (n : Z) (line : string) : option nat :=
  match JS.parseInt line with
  | Some v => if (0 <=? v)%Z && (v <? n)%Z then Some (Z.to_nat v) else None
  | None => None
  end.

(** [result[key] = value] on a plain object makes an own property, except
    for the key [__proto__], where it sets the prototype. *)
Definition ownKey {V} (e : string * V) : bool :=
  negb (String.eqb (fst e) "__proto__").

(** The date of a log line, and the dates of a window that become keys of
    the result. *)
Definition lineDate (line : string) : string := nth 0 (JS.split "|" line) "".

Definition windowDates (commits : string) : list string :=
  if String.eqb commits "" then []
  else filter (fun d => negb (String.eqb d "__proto__")) (map lineDate (linesOf commits)).

(** The new value of a date of [dayMap], and of a week of [weekMap], for
    a line, from the old one. *)
Definition dayUpdate (line : string) (o : option DayData) : DayData :=
  let pieces := JS.split "|" line in
  let d := match o with Some d => d | None => mkDayData 0 [] [] end in
  mkDayData (S (dd_commits d))
            (setAdd (dd_authors d) (nth_error pieces 1))
            (dd_subjects d ++ [nth_error pieces 2]).

Definition weekUpdate (line : string) (o : option WeekData) : WeekData :=
  let pieces := JS.split "|" line in
  let d := match o with Some d => d | None => mkWeekData 0 [] end in
  mkWeekData (S (wd_commits d)) (setAdd (wd_authors d) (nth_error pieces 1)).

(** The commits of all weeks. *)
Definition weekCommits (data : JS.assoc WeekInfo) : nat :=
  list_sum (map (fun e => w_commits (snd e)) data).

(** Whether a line is counted in slot [h] of [n], and whether it is
    counted at all. *)
Definition inSlot (n : Z) (h : nat) (line : string) : bool :=
  match slotOf n line with Some k => k =? h | None => false end.

Definition counted (n : Z) (line : string) : bool :=
  match slotOf n line with Some _ => true | None => false end.

Section World.
Variable execCommand : string -> string.

Definition dayCommand (since : string) : string :=
  "git log --all --since=" ++ ExtractKnowledge.dq ++ since ++ ExtractKnowledge.dq
    ++ " --pretty=format:" ++ ExtractKnowledge.dq ++ "%ad|%an|%s" ++ ExtractKnowledge.dq
    ++ " --date=format:" ++ ExtractKnowledge.dq ++ "%Y-%m-%d" ++ ExtractKnowledge.dq.

(** What [getCommitsByDay] does with the output [commits]: the object
    [result], a property for each date of [dayMap] in its order. *)
Definition commitsByDay (commits : string) : JS.assoc DayInfo :=
  if String.eqb commits "" then []
  else map (fun e => (fst e,
                      mkDayInfo (dd_commits (snd e))
                                (List.length (dd_authors (snd e)))
                                (map subjectText (firstn 5 (dd_subjects (snd e))))))
           (filter ownKey (fold_left foldDayLine (linesOf commits) [])).

Definition getCommitsByDay (since : string) : JS.assoc DayInfo :=
  commitsByDay (execCommand (dayCommand since)).

Definition weekCommand (since : string) : string :=
  "git log --all --since=" ++ ExtractKnowledge.dq ++ since ++ ExtractKnowledge.dq
    ++ " --pretty=format:" ++ ExtractKnowledge.dq ++ "%ad|%an" ++ ExtractKnowledge.dq
    ++ " --date=format:" ++ ExtractKnowledge.dq ++ "%Y-W%V" ++ ExtractKnowledge.dq.

Definition commitsByWeek (commits : string) : JS.assoc WeekInfo :=
  if String.eqb commits "" then []
  else map (fun e => (fst e,
                      mkWeekInfo (wd_commits (snd e)) (List.length (wd_authors (snd e)))))
           (filter ownKey (fold_left foldWeekLine (linesOf commits) [])).

Definition getCommitsByWeek (since : string) : JS.assoc WeekInfo :=
  commitsByWeek (execCommand (weekCommand since)).

(** What [getCommitsByHour] ([n = 24]) and [getCommitsByDayOfWeek]
    ([n = 7]) do with the output [commits]. *)
Definition slotCounts (n : nat) (commits : string) : list nat :=
  if String.eqb commits "" then repeat 0 n
  else fold_left (foldSlotLine (Z.of_nat n)) (linesOf commits) (repeat 0 n).

Definition hourCommand (since : string) : string :=
  "git log --all --since=" ++ ExtractKnowledge.dq ++ since ++ ExtractKnowledge.dq
    ++ " --pretty=format:" ++ ExtractKnowledge.dq ++ "%ad" ++ ExtractKnowledge.dq
    ++ " --date=format:" ++ ExtractKnowledge.dq ++ "%H" ++ ExtractKnowledge.dq.

Definition getCommitsByHour (since : string) : list nat :=
  slotCounts 24 (execCommand (hourCommand since)).

Definition dayOfWeekCommand (since : string) : string :=
  "git log --all --since=" ++ ExtractKnowledge.dq ++ since ++ ExtractKnowledge.dq
    ++ " --pretty=format:" ++ ExtractKnowledge.dq ++ "%ad" ++ ExtractKnowledge.dq
    ++ " --date=format:" ++ ExtractKnowledge.dq ++ "%w" ++ ExtractKnowledge.dq.

Definition getCommitsByDayOfWeek (since : string) : list nat :=
  slotCounts 7 (execCommand (dayOfWeekCommand since)).

End World.




End TimelineBuckets.

(** ** scripts/file-history.js: line attribution *)

Module FileHistory.

Import ExtractKnowledge.

(** [line.slice(7)] *)
Fixpoint sliceFrom (n : nat) (s : string) : string :=
  match n, s with
  | O, _ => s
  | S k, String _ r => sliceFrom k r
  | S _, EmptyString => EmptyString
  end.

(** The body of [lines.forEach(line => ...)] in [getFileAuthors]. *)
Definition foldBlameLine (authors : JS.assoc nat) (line : string) : JS.assoc nat :=
  if JS.startsWith line "author " then countUp authors (sliceFrom 7 line)
  else authors.

(** The authors named by the [author] lines of a blame. *)
Definition blameAuthors (blame : string) : list string :=
  map (sliceFrom 7)
      (filter (fun line => JS.startsWith line "author ")
              (JS.split (ascii_of_nat 10) blame)).

Section World.
Variable execCommand : string -> string.

Definition blameCommand (filePath : string) : string :=
  "git blame --line-porcelain " ++ dq ++ GitUtils.sanitizeGitInput filePath ++ dq
    ++ " 2>/dev/null".

(** What [getFileAuthors] does with the output [blame]: the list of
    [{ author, lines }]. *)
Definition fileAuthors (blame : string) : list (string * nat) :=
  if String.eqb blame "" then []
  else JS.sort (fun a b => snd b <? snd a)
               (fold_left foldBlameLine (JS.split (ascii_of_nat 10) blame) []).

Definition getFileAuthors (filePath : string) : list (string * nat) :=
  fileAuthors (execCommand (blameCommand filePath)).

End World.

End FileHistory.

(** ** scripts/author-patterns.js: the other analyses *)

Module AuthorAnalysis.

Import ExtractKnowledge AuthorPatterns.

(** [Object.entries(periods)] for [periods = { morning, afternoon, evening,
    night }]. *)
Definition periodEntries (t : TimeDistribution) : list (Period * nat) :=
  [(Morning, t_morning t); (Afternoon, t_afternoon t);
   (Evening, t_evening t); (Night, t_night t)].

Definition periodName (q : Period) : string :=
  match q with
  | Morning => "morning" | Afternoon => "afternoon"
  | Evening => "evening" | Night => "night"
  end.

(** The place of a period in [periods]. *)
Definition periodIndex (q : Period) : nat :=
  match q with Morning => 0 | Afternoon => 1 | Evening => 2 | Night => 3 end.

(** The [mostActive] property of the result of [analyzeWorkingHours]:
    [Object.entries(periods).sort(([, a], [, b]) => b - a)[0][0]], and
    ['N/A'] for no hours. *)
Definition mostActive (commitHours : list JS.num) : string :=
  match commitHours with
  | [] => "N/A"
  | _ =>
      match JS.sort (fun a b : Period * nat => snd b <? snd a)
                    (periodEntries (analyzeWorkingHours commitHours)) with
      | (q, _) :: _ => periodName q
      | [] => ""
      end
  end.

(** The entry the author map of [getCommitStats] has for a name after
    the commits [cs]: none for a name inherited from [Object.prototype] or
    without a commit, else the email of the name's first commit and the
    number of its commits. *)
Definition authorEntryOf (cs : list Commit) (name : string) : option AuthorEntry :=
  if JS.inherited name then None
  else match find (fun c => String.eqb (c_author c) name) cs with
       | Some c => Some (mkAuthorEntry (c_email c) (frequency (map c_author cs) name))
       | None => None
       end.

(** The commits whose author name is counted. *)
Definition countedCommits (cs : list Commit) : list Commit :=
  filter (fun c => negb (JS.inherited (c_author c))) cs.

(** The new value of an author of [getAuthorStats] for a log line, from
    the old one: the fields of the line are its pieces between [|]. *)
Definition lineUpdate (getHours getDay : string -> JS.num) (line : string)
                      (o : option AuthorStats) : AuthorStats :=
  let pieces := JS.split "|" line in
  let email := nth 1 pieces "" in
  let date := nth 2 pieces "" in
  let subject := nth 3 pieces "" in
  let a := match o with Some a => a | None => newAuthor email date end in
  mkAuthorStats
    (s_email a)
    (S (s_commits a))
    (if JS.strLt date (s_firstCommit a) then date else s_firstCommit a)
    (if JS.strLt (s_lastCommit a) date then date else s_lastCommit a)
    (s_commitHours a ++ [getHours date])
    (bumpDay (getDay date) (s_commitDays a))
    (bumpPattern (classify subject) (s_patterns a))
    (s_avgMessageLength a)
    (s_totalMessageLength a + JS.length subject).

(** What holds of every author of the result of [getAuthorStats]. *)
Definition consistent (a : AuthorStats) : Prop :=
  1 <= s_commits a
  /\ List.length (s_commitHours a) = s_commits a
  /\ patternSum (s_patterns a) = s_commits a
  /\ List.length (s_commitDays a) = 7
  /\ list_sum (s_commitDays a) <= s_commits a
  /\ JS.strLt (s_lastCommit a) (s_firstCommit a) = false.

(** The lines of a log. *)
Definition logLinesOf (logData : string) : list string :=
  if String.eqb logData "" then []
  else JS.split (ascii_of_nat 10) (JS.trim logData).

(** Whether a word is kept by the stop-word filter, and the entry of a
    key with its frequency. *)
Definition notStopWord (e : string * nat) : bool :=
  negb (existsb (String.eqb (fst e)) stopWords).

Definition withFrequency (keys : list string) (k : string) : string * nat :=
  (k, frequency keys k).

Section World.
Variable execCommand : string -> string.

Definition hashesCommand (authorName : string) : string :=
  "git log --all --author=" ++ dq ++ GitUtils.sanitizeGitInput authorName ++ dq
    ++ " --pretty=format:" ++ dq ++ "%H" ++ dq ++ " | head -n 100".

Definition adjacentCommand (hash : string) : string :=
  "git log --all --pretty=format:" ++ dq ++ "%an" ++ dq ++ " " ++ hash ++ "~1.." ++ hash.

(** The body of [forEach(hash => ...)] in [getAuthorCollaboration]; the
    output of [git show] is not used. *)
Definition foldHash (authorName : string) (collaborators : JS.assoc nat) (hash : string)
  : JS.assoc nat :=
  let otherCommits := execCommand (adjacentCommand hash) in
  if String.eqb otherCommits "" then collaborators
  else fold_left (fun m author =>
                    if String.eqb author authorName then m else countUp m author)
                 (JS.split (ascii_of_nat 10) (JS.trim otherCommits))
                 collaborators.

(** The author names the adjacent-range queries return. *)
Definition adjacentAuthors (hashes : list string) : list string :=
  flat_map (fun hash =>
              let otherCommits := execCommand (adjacentCommand hash) in
              if String.eqb otherCommits "" then []
              else JS.split (ascii_of_nat 10) (JS.trim otherCommits))
           hashes.

Definition getAuthorCollaboration (authorName : string) : list (string * nat) :=
  let commits := execCommand (hashesCommand authorName) in
  if String.eqb commits "" then []
  else firstn 10
         (JS.sort (fun a b => snd b <? snd a)
            (fold_left (foldHash authorName)
                       (JS.split (ascii_of_nat 10) (JS.trim commits)) [])).

Definition authorFilesCommand (authorName : string) : string :=
  "git log --all --author=" ++ dq ++ GitUtils.sanitizeGitInput authorName ++ dq
    ++ " --name-only --pretty=format: | sort | uniq -c | sort -rn | head -n 20".

(** [getAuthorFiles(authorName)] *)
Definition getAuthorFiles (authorName : string) : list FileChange :=
  let files := execCommand (authorFilesCommand authorName) in
  if String.eqb files "" then []
  else filter (fun item => 0 <? String.length (f_file item))
         (map parseFileLine
            (filter (fun line => 0 <? String.length (JS.trim line))
                    (JS.split (ascii_of_nat 10) (JS.trim files)))).

End World.

End AuthorAnalysis.

(** ** More sample inputs *)

Module MoreSamples.

Definition nl : string := Samples.nl.

(** A window of three days, five commits. *)
Definition dayLog : string :=
  "2024-03-05|Alice|fix: a" ++ nl ++ "2024-03-05|Carol|feat: b" ++ nl ++
  "2024-03-04|Alice|docs: c" ++ nl ++ "2024-03-03|Alice|test: d" ++ nl ++
  "2024-03-05|Alice|chore: e".

Definition hourLog : string := "07" ++ nl ++ "22" ++ nl ++ "07" ++ nl ++ "xx" ++ nl ++ "24".

Definition blame : string :=
  "author Alice" ++ nl ++ "author-mail <a@x>" ++ nl ++ "author Carol" ++ nl
    ++ "summary author Bob" ++ nl ++ "author Alice" ++ nl.

(** The adjacent-range queries of two hashes. *)
Definition collabWorld (cmd : string) : string :=
  if String.eqb cmd (AuthorAnalysis.hashesCommand "Alice") then "h1" ++ nl ++ "h2"
  else if String.eqb cmd (AuthorAnalysis.adjacentCommand "h1") then "Alice" ++ nl ++ "Carol"
  else if String.eqb cmd (AuthorAnalysis.adjacentCommand "h2") then "Carol"
  else "".

End MoreSamples.

(* ================================================================== *)
(** * Part II: properties *)
(* ================================================================== *)

(** ** Facts about the runtime model *)

Module JSFacts.

Lemma get_set_same {V} (m : JS.assoc V) k v : JS.get (JS.set m k v) k = Some v.
Proof.
  induction m as [|[k' v'] m IH]; simpl.
  - now rewrite String.eqb_refl.
  - destruct (String.eqb k' k) eqn:E; simpl; rewrite E; auto.
Qed.

Lemma get_set_other {V} (m : JS.assoc V) k k' v :
  k <> k' -> JS.get (JS.set m k v) k' = JS.get m k'.
Proof.
  intro Hne. induction m as [|[k0 v0] m IH]; simpl.
  - destruct (String.eqb_spec k k'); [contradiction|reflexivity].
  - destruct (String.eqb_spec k0 k) as [->|Hk]; simpl.
    + destruct (String.eqb_spec k k'); [contradiction|reflexivity].
    + destruct (String.eqb_spec k0 k'); auto.
Qed.

Lemma codePoints_head c r :
  exists h t, JS.codePoints (String c r) = String c h :: t.
Proof.
  simpl. destruct (JS.codePoints r) as [|h t]; [now exists EmptyString, []|].
  destruct (JS.continues h); eauto.
Qed.

Lemma codePoints_single c r :
  JS.continues r = false ->
  JS.codePoints (String c r) = String c EmptyString :: JS.codePoints r.
Proof.
  intro H. destruct r as [|c' r']; [reflexivity|].
  destruct (codePoints_head c' r') as (h & t & E).
  change (JS.codePoints (String c (String c' r')))
    with (match JS.codePoints (String c' r') with
          | h :: t => if JS.continues h then String c h :: t
                      else String c EmptyString :: h :: t
          | [] => [String c EmptyString]
          end).
  rewrite E. simpl in H |- *. now rewrite H.
Qed.

Lemma ascii_starts c r :
  JS.asciiText (String c r) = true -> JS.continues (String c r) = false.
Proof.
  simpl. unfold JS.isContinuation. intro H. apply andb_true_iff in H.
  destruct H as [H _]. apply Nat.ltb_lt in H.
  destruct (Nat.leb_spec 128 (nat_of_ascii c)); [lia|reflexivity].
Qed.

(** The lower case of a character that starts with an ASCII byte. *)
Lemma lowerChars_ascii behind c h t :
  (nat_of_ascii c <? 128) = true ->
  JS.lowerChars behind (String c h :: t)
  = String (JS.toLowerChar c) h :: JS.lowerChars (String c h :: behind) t.
Proof.
  intro H. cbn [JS.lowerChars].
  assert (E : String.eqb (String c h) JS.capitalSigma = false).
  { apply String.eqb_neq. intro E. vm_compute in E. injection E as -> _.
    vm_compute in H. discriminate H. }
  rewrite E. unfold JS.lowerChar. now rewrite H.
Qed.

(** Lower-casing keeps an ASCII prefix, lower-cased. *)
Lemma lower_prefix p : JS.asciiText p = true ->
  forall b1 b2 s,
    String.prefix p s = true ->
    String.prefix (JS.concat (JS.lowerChars b1 (JS.codePoints p)))
                  (JS.concat (JS.lowerChars b2 (JS.codePoints s))) = true.
Proof.
  induction p as [|a p IH]; intros Hp b1 b2 s H.
  { cbn [JS.codePoints JS.lowerChars JS.concat].
    now destruct (JS.concat _). }
  destruct s as [|b s]; [discriminate H|].
  simpl in H. destruct (ascii_dec a b) as [<-|]; [|discriminate H].
  assert (Ha : (nat_of_ascii a <? 128) = true)
    by (simpl in Hp; now apply andb_true_iff in Hp).
  assert (Hp' : JS.asciiText p = true)
    by (simpl in Hp; now apply andb_true_iff in Hp).
  assert (Ec : JS.continues p = false)
    by (destruct p; [reflexivity|now apply ascii_starts]).
  rewrite (codePoints_single a p Ec), lowerChars_ascii by exact Ha.
  destruct p as [|a2 p].
  - destruct (codePoints_head a s) as (h & t & E). rewrite E.
    rewrite lowerChars_ascii by exact Ha. simpl.
    destruct (ascii_dec (JS.toLowerChar a) (JS.toLowerChar a)); [|congruence].
    now destruct (h ++ _)%string.
  - destruct s as [|a2' s]; [discriminate H|].
    assert (E2 : a2 = a2')
      by (simpl in H; destruct (ascii_dec a2 a2'); [assumption|discriminate H]).
    subst a2'.
    rewrite (codePoints_single a (String a2 s) (ascii_starts a2 p Hp')).
    rewrite lowerChars_ascii by exact Ha.
    cbn [JS.concat append String.prefix].
    destruct (ascii_dec (JS.toLowerChar a) (JS.toLowerChar a)); [|congruence].
    now apply IH.
Qed.

Lemma prefix_lower p s :
  JS.asciiText p = true ->
  String.prefix p s = true ->
  String.prefix (JS.toLowerCase p) (JS.toLowerCase s) = true.
Proof. intros Hp H. unfold JS.toLowerCase. now apply lower_prefix. Qed.

(** Two prefixes of one string: one is a prefix of the other. *)
Lemma prefix_comparable s : forall p q,
  String.prefix p s = true -> String.prefix q s = true ->
  String.prefix p q = true \/ String.prefix q p = true.
Proof.
  induction s as [|c s IH]; intros [|a p] [|b q] Hp Hq; simpl in *;
    try discriminate; auto.
  destruct (ascii_dec a c) as [->|]; [|discriminate].
  destruct (ascii_dec b c) as [->|]; [|discriminate].
  destruct (ascii_dec c c); [|congruence]. auto.
Qed.

Lemma keys_set {V} (m : JS.assoc V) k v :
  map fst (JS.set m k v) = if JS.has m k then map fst m else map fst m ++ [k].
Proof.
  unfold JS.has. induction m as [|[k' v'] m IH]; simpl; [reflexivity|].
  destruct (String.eqb k' k) eqn:E; simpl; [reflexivity|].
  rewrite IH. destruct (JS.get m k); reflexivity.
Qed.

Lemma get_In {V} (m : JS.assoc V) k v : JS.get m k = Some v -> In (k, v) m.
Proof.
  induction m as [|[k' v'] m IH]; simpl; [discriminate|].
  destruct (String.eqb_spec k' k) as [->|]; intro H.
  - injection H as ->. now left.
  - right. auto.
Qed.

Lemma get_None {V} (m : JS.assoc V) k : JS.get m k = None -> ~ In k (map fst m).
Proof.
  induction m as [|[k' v'] m IH]; simpl; [tauto|].
  destruct (String.eqb_spec k' k) as [->|]; [discriminate|].
  intros H [E|Hin]; [contradiction|]. now apply IH.
Qed.

Lemma In_get {V} (m : JS.assoc V) k v :
  NoDup (map fst m) -> In (k, v) m -> JS.get m k = Some v.
Proof.
  induction m as [|[k' v'] m IH]; simpl; intros Hnd Hin; [contradiction|].
  inversion Hnd; subst. destruct Hin as [E|Hin].
  - injection E as -> ->. now rewrite String.eqb_refl.
  - destruct (String.eqb_spec k' k) as [->|]; [|auto].
    exfalso. apply H1. change k with (fst (k, v)). now apply in_map.
Qed.

Lemma NoDup_snoc {A} (l : list A) x : NoDup l -> ~ In x l -> NoDup (l ++ [x]).
Proof.
  induction l as [|y l IH]; simpl; intros Hnd Hx.
  - repeat constructor. tauto.
  - inversion Hnd; subst. constructor.
    + rewrite in_app_iff. simpl. intuition.
    + apply IH; tauto.
Qed.

Lemma NoDup_set {V} (m : JS.assoc V) k v :
  NoDup (map fst m) -> NoDup (map fst (JS.set m k v)).
Proof.
  intro H. rewrite keys_set. unfold JS.has.
  destruct (JS.get m k) eqn:E; [exact H|].
  apply NoDup_snoc; [exact H|]. now apply get_None.
Qed.

Lemma In_firstn {A} (x : A) n : forall l, In x (firstn n l) -> In x l.
Proof.
  induction n as [|n IH]; intros [|y l]; simpl; try tauto.
  intros [E|H]; auto.
Qed.

Section SortFacts.
Context {A : Type}.
Variable before : A -> A -> bool.

Lemma insertSorted_perm x l : Permutation (JS.insertSorted before x l) (x :: l).
Proof.
  induction l as [|y l IH]; simpl; [reflexivity|].
  destruct (before y x); [|reflexivity].
  rewrite IH. apply perm_swap.
Qed.

Lemma sort_perm l : Permutation (JS.sort before l) l.
Proof.
  induction l as [|x l IH]; simpl; [reflexivity|].
  unfold JS.sort in *. simpl. rewrite insertSorted_perm. now constructor.
Qed.

Lemma sort_In x l : In x (JS.sort before l) <-> In x l.
Proof.
  split; apply Permutation_in; [|symmetry]; apply sort_perm.
Qed.
End SortFacts.

Lemma strLt_asym a : forall b, JS.strLt a b = true -> JS.strLt b a = false.
Proof.
  induction a as [|x a IH]; intros [|y b]; simpl; try discriminate; auto.
  destruct (Nat.ltb_spec (nat_of_ascii x) (nat_of_ascii y)) as [Hxy|Hxy];
    destruct (Nat.ltb_spec (nat_of_ascii y) (nat_of_ascii x)) as [Hyx|Hyx];
    try lia; try discriminate; auto.
Qed.

Section Ascending.
Context {A : Type}.
Variable before : A -> A -> bool.
Hypothesis before_asym : forall a b, before a b = true -> before b a = false.

Let rel (a b : A) : Prop := before b a = false.


End Ascending.

Section Descending.
Context {A : Type}.
Variable count : A -> nat.

Let before (a b : A) : bool := count b <? count a.
Let rel (a b : A) : Prop := count b <= count a.

Lemma HdRel_insertSorted y x l :
  rel y x -> HdRel rel y l -> HdRel rel y (JS.insertSorted before x l).
Proof.
  intros Hyx Hl. destruct l as [|z l]; simpl.
  - now constructor.
  - destruct (before z x); constructor; [|exact Hyx].
    now inversion Hl.
Qed.

Lemma insertSorted_desc x l :
  Sorted rel l -> Sorted rel (JS.insertSorted before x l).
Proof.
  induction l as [|y l IH]; simpl; intro H.
  - repeat constructor.
  - unfold before at 1. destruct (Nat.ltb_spec (count x) (count y)).
    + inversion H; subst. constructor; [auto|].
      apply HdRel_insertSorted; [unfold rel; lia|assumption].
    + constructor; [exact H|]. constructor. unfold rel. lia.
Qed.

Lemma sort_desc l :
  StronglySorted rel (JS.sort before l).
Proof.
  apply Sorted_StronglySorted.
  - intros a b c. unfold rel. lia.
  - induction l as [|x l IH]; simpl; [constructor|].
    unfold JS.sort in *. simpl. now apply insertSorted_desc.
Qed.

Lemma firstn_desc n : forall l,
  StronglySorted rel l -> StronglySorted rel (firstn n l).
Proof.
  induction n as [|n IH]; intros [|x l] H; simpl; try constructor.
  - inversion H; subst. auto.
  - inversion H; subst. rewrite Forall_forall in *.
    intros y Hy. apply H3. now apply In_firstn with n.
Qed.
End Descending.

Lemma insertIndex_perm {V} i (e : string * V) l :
  Permutation (JS.insertIndex i e l) ((i, e) :: l).
Proof.
  induction l as [|[j e'] l IH]; simpl; [reflexivity|].
  destruct (i <? j)%N; [reflexivity|].
  rewrite IH. apply perm_swap.
Qed.

Lemma indexEntries_perm {V} (o : JS.assoc V) :
  Permutation (map snd (JS.indexEntries o))
    (filter (fun e => match JS.arrayIndex (fst e) with Some _ => true | None => false end) o).
Proof.
  induction o as [|[k v] o IH]; simpl; [reflexivity|].
  destruct (JS.arrayIndex k); [|exact IH].
  rewrite insertIndex_perm. simpl. now constructor.
Qed.

Lemma filter_split_perm {A} (f : A -> bool) l :
  Permutation (filter f l ++ filter (fun x => negb (f x)) l) l.
Proof.
  induction l as [|x l IH]; simpl; [reflexivity|].
  destruct (f x); simpl.
  - now constructor.
  - rewrite <- Permutation_middle. now constructor.
Qed.

(** [Object.entries] enumerates every own property once. *)
Lemma entries_perm {V} (o : JS.assoc V) : Permutation (JS.entries o) o.
Proof.
  unfold JS.entries, JS.nameEntries. rewrite indexEntries_perm.
  rewrite <- (filter_split_perm
    (fun e => match JS.arrayIndex (fst e) with Some _ => true | None => false end) o) at 3.
  apply Permutation_app_head.
  erewrite filter_ext; [reflexivity|].
  intros [k v]. simpl. now destruct (JS.arrayIndex k).
Qed.

End JSFacts.

(** ** Category assignment *)

Module CategoryProps.

Import ExtractKnowledge Rules.

Lemma classify_table (subject : string) :
  classify subject = firstMatch spelled categoryRules subject.
Proof.
  unfold classify, categoryRules, firstMatch, spelled, capitalize.
  reflexivity.
Qed.

(** A subject in one of the two spellings of a token matches that token in
    any case. *)
Lemma spelled_anyCase token subject :
  In token (map fst categoryRules) ->
  spelled token subject = true -> spelledAnyCase token subject = true.
Proof.
  intros Hin H. unfold spelled, spelledAnyCase, JS.startsWith in *.
  apply orb_true_iff in H. simpl in Hin.
  destruct H as [H|H]; decompose [or] Hin; subst; try contradiction;
    apply JSFacts.prefix_lower in H; try reflexivity; exact H.
Qed.

(** A subject matches at most one token in any case. *)
Lemma anyCase_unique t1 t2 subject :
  In t1 (map fst categoryRules) -> In t2 (map fst categoryRules) ->
  spelledAnyCase t1 subject = true -> spelledAnyCase t2 subject = true ->
  t1 = t2.
Proof.
  unfold spelledAnyCase, JS.startsWith. intros H1 H2 P1 P2.
  destruct (JSFacts.prefix_comparable _ _ _ P1 P2) as [X|X]; clear P1 P2;
    simpl in H1, H2; decompose [or] H1; decompose [or] H2; subst;
    try contradiction; try reflexivity; vm_compute in X; discriminate X.
Qed.

Lemma firstMatch_unique (matches : string -> string -> bool) subject :
  forall rules token cat,
    NoDup (map fst rules) ->
    In (token, cat) rules ->
    matches token subject = true ->
    (forall t, In t (map fst rules) -> matches t subject = true -> t = token) ->
    firstMatch matches rules subject = cat.
Proof.
  induction rules as [|[t c] rules IH]; intros token cat Hnd Hin Hm Hu; [destruct Hin|].
  simpl. inversion Hnd; subst. destruct Hin as [E|Hin].
  - inversion E; subst. now rewrite Hm.
  - destruct (matches t subject) eqn:Ht.
    + assert (t = token) by (apply Hu; simpl; auto). subst.
      exfalso. apply H1. change token with (fst (token, cat)). now apply in_map.
    + apply IH with token; auto. intros t' Ht' Hm'. apply Hu; simpl; auto.
Qed.

Lemma firstMatch_found (matches : string -> string -> bool) subject :
  forall rules,
    firstMatch matches rules subject <> Other ->
    (forall t c, In (t, c) rules -> c <> Other) ->
    exists token, In (token, firstMatch matches rules subject) rules
                  /\ matches token subject = true.
Proof.
  induction rules as [|[t c] rules IH]; intros H Hc; simpl in *; [congruence|].
  destruct (matches t subject) eqn:E.
  - exists t. auto.
  - destruct IH as (token & Hin & Hm); auto.
    + intros t' c' Hin. apply (Hc t' c'). auto.
    + exists token. auto.
Qed.

Lemma classify_anyCase subject :
  classify subject <> Other -> classifyAnyCase subject = classify subject.
Proof.
  rewrite classify_table. intro H.
  destruct (firstMatch_found spelled subject categoryRules H) as (token & Hin & Hm).
  { intros t c Hc. simpl in Hc. decompose [or] Hc; try contradiction;
      match goal with E : (_, _) = (_, _) |- _ => inversion E end; discriminate. }
  assert (Ht : In token (map fst categoryRules))
    by (change token with (fst (token, firstMatch spelled categoryRules subject));
        now apply in_map).
  unfold classifyAnyCase.
  apply firstMatch_unique with token; auto.
  - simpl. repeat constructor; simpl; intuition discriminate.
  - now apply spelled_anyCase.
  - intros t Hin' Hm'. apply anyCase_unique with subject; auto.
    now apply spelled_anyCase.
Qed.

(** C3 (as amended).  Category assignment is a function of the subject
    alone, the same in [getCommitStats] and in [getAuthorStats]: the first
    rule of the ordered table whose token followed by a colon, written in
    lower case or with its first letter in upper case, is a prefix of the
    subject gives the category, and [Other] is the category when no rule
    matches.  Whenever a rule matches, the category is the one of the
    case-insensitive reading. *)
Theorem classify_first_spelled_rule :
  (forall subject, classify subject = firstMatch spelled categoryRules subject)
  /\ (forall subject,
        classify subject <> Other -> classifyAnyCase subject = classify subject)
  /\ (forall getHours cs ag commit,
        patterns (snd (foldCommit getHours (cs, ag) commit))
        = bumpPattern (classify (field commit "subject")) (patterns ag))
  /\ (forall getHours getDay authors name email date subject,
        exists a,
          JS.get (AuthorPatterns.foldLine getHours getDay authors name email date subject)
                 name = Some a
          /\ AuthorPatterns.s_patterns a
             = bumpPattern (classify subject)
                 (match JS.get authors name with
                  | Some old => AuthorPatterns.s_patterns old
                  | None => mkPatterns 0 0 0 0 0 0 0
                  end)).
Proof.
  split; [exact classify_table|].
  split; [exact classify_anyCase|].
  split; [reflexivity|].
  intros getHours getDay authors name email date subject.
  unfold AuthorPatterns.foldLine, JS.has.
  destruct (JS.get authors name) as [old|] eqn:E.
  - rewrite E. eexists. split; [apply JSFacts.get_set_same|reflexivity].
  - rewrite JSFacts.get_set_same. eexists.
    split; [apply JSFacts.get_set_same|reflexivity].
Qed.

(** The subject [Feat: b] matches the second rule. *)
Lemma classify_first_spelled_rule_witness :
  classifyAnyCase "Feat: b" = Feat.
Proof.
  rewrite (proj1 (proj2 classify_first_spelled_rule) "Feat: b").
  - reflexivity.
  - vm_compute. discriminate.
Defined.

(** The subject [FIX: a]: in the case-insensitive reading it is a fix,
    and the code counts it as other. *)
Lemma classify_counterexample :
  classifyAnyCase "FIX: a" = Fix /\ classify "FIX: a" = Other.
Proof. split; reflexivity. Qed.

End CategoryProps.

(** ** getCommitStats *)

Module CommitStatsProps.

Import ExtractKnowledge.

Lemma patternSum_bump c p : patternSum (bumpPattern c p) = S (patternSum p).
Proof. destruct c; unfold patternSum; simpl; lia. Qed.

Lemma periodSum_bump q t : periodSum (bumpPeriod q t) = S (periodSum t).
Proof. destruct q; unfold periodSum; simpl; lia. Qed.

Lemma patternCount_bump c c' p :
  patternCount c (bumpPattern c' p)
  = patternCount c p + (if Category_eqb c' c then 1 else 0).
Proof. destruct c, c'; simpl; lia. Qed.

Lemma periodCount_bump q q' t :
  periodCount q (bumpPeriod q' t)
  = periodCount q t + (if Period_eqb q' q then 1 else 0).
Proof. destruct q, q'; simpl; lia. Qed.

Section Fold.
Variable getHours : string -> JS.num.

Lemma foldCommit_eq cs ag commit :
  foldCommit getHours (cs, ag) commit
  = (cs ++ [destructure commit],
     mkAggregates
       (bumpAuthor (c_author (destructure commit)) (c_email (destructure commit))
                   (authors ag))
       (bumpPattern (classify (c_subject (destructure commit))) (patterns ag))
       (bumpPeriod (period (getHours (c_date (destructure commit))))
                   (timeDistribution ag))).
Proof. reflexivity. Qed.

Lemma fold_commits l : forall cs ag,
  let r := fold_left (foldCommit getHours) l (cs, ag) in
  fst r = cs ++ map destructure l
  /\ patternSum (patterns (snd r)) = patternSum (patterns ag) + List.length l
  /\ periodSum (timeDistribution (snd r))
     = periodSum (timeDistribution ag) + List.length l
  /\ (forall c, patternCount c (patterns (snd r))
                = patternCount c (patterns ag)
                  + List.length (inCategory c (map destructure l)))
  /\ (forall q, periodCount q (timeDistribution (snd r))
                = periodCount q (timeDistribution ag)
                  + List.length (inPeriod getHours q (map destructure l)))
  /\ authors (snd r)
     = fold_left (fun o c => bumpAuthor (c_author c) (c_email c) o)
                 (map destructure l) (authors ag).
Proof.
  induction l as [|commit l IH]; intros cs ag.
  - simpl. rewrite app_nil_r.
    repeat split; intros; simpl; lia.
  - cbn zeta. cbn [fold_left]. rewrite foldCommit_eq.
    match goal with |- context [fold_left _ l (?c, ?a)] =>
      destruct (IH c a) as (H1 & H2 & H3 & H4 & H5 & H6) end.
    cbn zeta in *.
    repeat split.
    + rewrite H1. rewrite <- app_assoc. reflexivity.
    + rewrite H2. simpl. rewrite patternSum_bump. lia.
    + rewrite H3. simpl. rewrite periodSum_bump. lia.
    + intro c. rewrite H4. cbn [patterns]. rewrite patternCount_bump.
      unfold inCategory. cbn [map filter].
      destruct (Category_eqb _ c); simpl; lia.
    + intro q. rewrite H5. cbn [timeDistribution]. rewrite periodCount_bump.
      unfold inPeriod. cbn [map filter].
      destruct (Period_eqb _ q); simpl; lia.
    + rewrite H6. reflexivity.
Qed.

(** The shape of the result for a non-empty output. *)
Lemma commitStats_nonempty out :
  out <> "" ->
  let cl := GitUtils.parseGitLog out logFields in
  let r := fold_left (foldCommit getHours) (firstn MAX_COMMITS cl) ([], emptyAggregates) in
  commitStats getHours out = mkStats (fst r) (List.length cl) (Some (snd r)).
Proof.
  intros Hne cl r. unfold commitStats.
  destruct (String.eqb_spec out ""); [contradiction|].
  fold cl. fold r. destruct r; reflexivity.
Qed.

Lemma commitStats_empty : commitStats getHours "" = mkStats [] 0 None.
Proof. reflexivity. Qed.

(** The commit of a parsed line: its first five fields, the missing ones
    empty. *)
Lemma destructure_parsed (values : list string) :
  destructure (GitUtils.zipFields logFields 0 values [])
  = mkCommit (nth 0 values "") (nth 1 values "") (nth 2 values "")
             (nth 3 values "") (nth 4 values "").
Proof. reflexivity. Qed.

End Fold.

(** C1.  A log of 2000 commits, all by one author, read in a process at
    +0100: the reported total is 2000, while the seven counters add up to
    1000 and the author has 1000 commits; the report gives 2000 as
    [commitsAnalyzed] and [50.0%] as the share of the only author. *)
Theorem category_sum_above_cap :
  let st := getCommitStats (fun _ => Samples.logLines Samples.fixLine 2000)
                           (Dates.getHours 60) "6 months ago" in
  total st = 2000
  /\ exists ag,
       aggregates st = Some ag
       /\ patternSum (patterns ag) = 1000
       /\ patternSum (patterns ag) <> total st
       /\ authors ag = [("Alice", mkAuthorEntry "alice@example.org" 1000)]
       /\ JSON.member "metadata" (reportData "repo" Samples.clockA (total st) ag []
                                              (mkCommitPatterns [] [])
                                              (mkBranchInsights 1 1))
          = Some (JSON.Obj [("repository", JSON.Str "repo");
                            ("generatedAt", JSON.Str "2026-01-01T00:00:00.000Z");
                            ("commitsAnalyzed", JSON.Num 2000)])
       /\ JSON.member "authors" (reportData "repo" Samples.clockA (total st) ag []
                                             (mkCommitPatterns [] [])
                                             (mkBranchInsights 1 1))
          = Some (JSON.Arr [JSON.Obj [("author", JSON.Str "Alice");
                                      ("email", JSON.Str "alice@example.org");
                                      ("commits", JSON.Num 1000);
                                      ("percentage", JSON.Str "50.0%")]]).
Proof.
  cbn zeta.
  assert (E : getCommitStats (fun _ => Samples.logLines Samples.fixLine 2000)
                             (Dates.getHours 60) "6 months ago"
              = mkStats (repeat (mkCommit "c0ffee" "Alice" "alice@example.org"
                                          "2024-03-05 10:15:00 +0100" "fix: typo") 1000)
                        2000
                        (Some (mkAggregates
                                 [("Alice", mkAuthorEntry "alice@example.org" 1000)]
                                 (mkPatterns 1000 0 0 0 0 0 0)
                                 (mkTimeDistribution 1000 0 0 0))))
    by (vm_compute; reflexivity).
  rewrite E. cbn [total aggregates].
  split; [reflexivity|]. eexists. split; [reflexivity|].
  cbn [patterns authors]. split; [reflexivity|].
  split; [intro H; apply (f_equal (Nat.eqb 1000)) in H; vm_compute in H; discriminate H|].
  split; [reflexivity|]. split; vm_compute; reflexivity.
Qed.

End CommitStatsProps.

(** ** Time-of-day bucketing *)

Module TimeOfDayProps.

Import ExtractKnowledge CommitStatsProps.

Lemma period_hour (h : Z) :
  (period (Some h) = Morning <-> (6 <= h < 12)%Z)
  /\ (period (Some h) = Afternoon <-> (12 <= h < 17)%Z)
  /\ (period (Some h) = Evening <-> (17 <= h < 21)%Z)
  /\ (period (Some h) = Night <-> (h < 6 \/ 21 <= h)%Z).
Proof.
  unfold period, JS.geNum, JS.ltNum.
  destruct (Z.leb_spec 6 h); destruct (Z.ltb_spec h 12);
    destruct (Z.leb_spec 12 h); destruct (Z.ltb_spec h 17);
    destruct (Z.leb_spec 17 h); destruct (Z.ltb_spec h 21);
    simpl; repeat split; intros; try discriminate; try lia; reflexivity.
Qed.

Lemma workingHours_count (hs : list JS.num) : forall t q,
  periodCount q (fold_left (fun periods hour => bumpPeriod (period hour) periods) hs t)
  = periodCount q t
    + List.length (filter (fun h => Period_eqb (period h) q) hs).
Proof.
  induction hs as [|h hs IH]; intros t q; simpl; [lia|].
  rewrite IH, periodCount_bump.
  destruct (Period_eqb (period h) q); simpl; lia.
Qed.

(** C4.  A log of 1001 commits made at 10:15 +0100, read in a process at
    +0100: the reported total is 1001 and the morning counter is 1000, the
    four counters adding up to 1000; the last record is counted in the
    total and is in no bucket.  The same with 1001 records whose date
    cannot be parsed: 1000 are in the night bucket. *)
Theorem time_of_day_above_cap :
  let dated := getCommitStats (fun _ => Samples.logLines Samples.fixLine 1001)
                   (Dates.getHours 60) "6 months ago" in
  let undated := getCommitStats (fun _ => Samples.logLines Samples.undatedLine 1001)
                   (Dates.getHours 60) "6 months ago" in
  total dated = 1001
  /\ (exists ag, aggregates dated = Some ag
                 /\ timeDistribution ag = mkTimeDistribution 1000 0 0 0
                 /\ periodSum (timeDistribution ag) = 1000
                 /\ periodSum (timeDistribution ag) <> total dated)
  /\ total undated = 1001
  /\ (exists ag, aggregates undated = Some ag
                 /\ timeDistribution ag = mkTimeDistribution 0 0 0 1000
                 /\ periodSum (timeDistribution ag) <> total undated).
Proof.
  cbn zeta.
  assert (E1 : let st := getCommitStats (fun _ => Samples.logLines Samples.fixLine 1001)
                                        (Dates.getHours 60) "6 months ago" in
               (total st, option_map timeDistribution (aggregates st))
               = (1001, Some (mkTimeDistribution 1000 0 0 0)))
    by (vm_compute; reflexivity).
  assert (E2 : let st := getCommitStats (fun _ => Samples.logLines Samples.undatedLine 1001)
                                        (Dates.getHours 60) "6 months ago" in
               (total st, option_map timeDistribution (aggregates st))
               = (1001, Some (mkTimeDistribution 0 0 0 1000)))
    by (vm_compute; reflexivity).
  cbn zeta in E1, E2.
  destruct (getCommitStats (fun _ => Samples.logLines Samples.fixLine 1001)
                   (Dates.getHours 60) "6 months ago")
    as [cs1 t1 [ag1|]]; [|discriminate E1].
  destruct (getCommitStats (fun _ => Samples.logLines Samples.undatedLine 1001)
                   (Dates.getHours 60) "6 months ago")
    as [cs2 t2 [ag2|]]; [|discriminate E2].
  cbn [total aggregates option_map] in *.
  injection E1 as -> D1. injection E2 as -> D2.
  split; [reflexivity|]. split.
  { exists ag1. rewrite D1. repeat split.
    intro H. apply (f_equal (Nat.eqb 1000)) in H. vm_compute in H. discriminate H. }
  split; [reflexivity|].
  exists ag2. rewrite D2. repeat split.
  intro H. apply (f_equal (Nat.eqb 1000)) in H. vm_compute in H. discriminate H.
Qed.

Lemma hourIn_own_zone m off :
  (0 <= m < 1440)%Z -> Dates.hourIn off (m, off) = (m / 60)%Z.
Proof.
  intro H. unfold Dates.hourIn. cbn [fst snd].
  replace (m - off + off)%Z with m by lia.
  apply Z.mod_small. split.
  - apply Z.div_pos; lia.
  - apply Z.div_lt_upper_bound; lia.
Qed.

Lemma gitIso_minute date m off :
  Dates.gitIso date = Some (m, off) -> (0 <= m < 1440)%Z.
Proof.
  unfold Dates.gitIso.
  destruct (_ && _); [|discriminate].
  destruct (Dates.number (String.substring 0 4 date)) as [y|]; [|discriminate].
  destruct (Dates.number (String.substring 5 2 date)) as [mo|]; [|discriminate].
  destruct (Dates.number (String.substring 8 2 date)) as [d|]; [|discriminate].
  destruct (Dates.number (String.substring 11 2 date)) as [h|]; [|discriminate].
  destruct (Dates.number (String.substring 14 2 date)) as [mi|]; [|discriminate].
  destruct (Dates.number (String.substring 17 2 date)) as [sec|]; [|discriminate].
  destruct (Dates.number (String.substring 21 2 date)) as [oh|]; [|discriminate].
  destruct (Dates.number (String.substring 23 2 date)) as [om|]; [|discriminate].
  destruct (_ && _) eqn:E; [|discriminate].
  intro H. injection H as <- _.
  repeat (apply andb_true_iff in E; destruct E as [E ?]).
  unfold Dates.inRange in *.
  repeat match goal with
         | H : (_ && _) = true |- _ => apply andb_true_iff in H; destruct H
         | H : (_ <=? _)%Z = true |- _ => apply Z.leb_le in H
         end.
  lia.
Qed.

(** X19.  The hour [h] of a commit goes to morning iff [6 <= h < 12], to
    afternoon iff [12 <= h < 17], to evening iff [17 <= h < 21] and to
    night otherwise, and so does [NaN], the hour of a date that cannot be
    parsed.  Each time-of-day counter of [getCommitStats] is the number of
    folded commits of its period, and the four add up to the number of
    folded commits.  The hour is that of the process: in a process [zone]
    minutes east of UTC a commit whose date records the minute [m] of the
    day at the offset [off] is counted at the hour of [m - off + zone],
    which is the recorded hour when the two zones agree. *)
Theorem time_of_day_periods :
  (forall h : Z,
      (period (Some h) = Morning <-> (6 <= h < 12)%Z)
      /\ (period (Some h) = Afternoon <-> (12 <= h < 17)%Z)
      /\ (period (Some h) = Evening <-> (17 <= h < 21)%Z)
      /\ (period (Some h) = Night <-> (h < 6 \/ 21 <= h)%Z))
  /\ period None = Night
  /\ (forall execCommand getHours since,
        let st := getCommitStats execCommand getHours since in
        let folded := firstn MAX_COMMITS
                        (map destructure
                           (GitUtils.parseGitLog (execCommand (logCommand since))
                                                 logFields)) in
        forall ag, aggregates st = Some ag ->
          commits st = folded
          /\ periodSum (timeDistribution ag) = List.length folded
          /\ forall q, periodCount q (timeDistribution ag)
                       = List.length (inPeriod getHours q folded))
  /\ (forall (getHours : string -> JS.num) (zone : Z),
        (forall date, Dates.gitIso date <> None ->
                      getHours date = Dates.getHours zone date) ->
        forall date m off, Dates.gitIso date = Some (m, off) ->
          period (getHours date) = period (Some (((m - off + zone) / 60) mod 24)%Z)
          /\ (zone = off -> period (getHours date) = period (Some (m / 60)%Z))).
Proof.
  split; [exact period_hour|].
  split; [reflexivity|].
  split.
  { intros execCommand getHours since st folded. subst st folded.
    unfold getCommitStats. set (out := execCommand _).
    destruct (String.eqb_spec out "") as [E|Hne].
    - rewrite E. simpl. intros ag H; discriminate H.
    - rewrite (commitStats_nonempty getHours out Hne).
      cbn [aggregates total commits].
      destruct (fold_commits getHours
                  (firstn MAX_COMMITS (GitUtils.parseGitLog out logFields))
                  [] emptyAggregates) as (H1 & _ & H3 & _ & H5 & _).
      cbn zeta in *.
      set (r := fold_left _ _ _) in *.
      intros ag Hag. assert (Er : ag = snd r) by congruence. subst ag.
      rewrite firstn_map. split; [rewrite H1; reflexivity|]. split.
      + rewrite H3, length_map. reflexivity.
      + intro q. rewrite H5. destruct q; reflexivity. }
  intros getHours zone Hz date m off Hd.
  assert (E : getHours date = Some (Dates.hourIn zone (m, off))).
  { rewrite Hz by congruence. unfold Dates.getHours. now rewrite Hd. }
  rewrite E. split; [reflexivity|].
  intros ->. now rewrite (hourIn_own_zone m off (gitIso_minute date m off Hd)).
Qed.

(** A commit of 23:30 at the offset +0900, read in a process at UTC, is
    an afternoon commit; read in its own zone it is a night commit. *)
Lemma time_of_day_periods_witness :
  period (Dates.getHours 0 "2024-03-05 23:30:00 +0900") = Afternoon
  /\ period (Dates.getHours 540 "2024-03-05 23:30:00 +0900") = Night.
Proof.
  destruct time_of_day_periods as (_ & _ & _ & H).
  split.
  - rewrite (proj1 (H (Dates.getHours 0) 0%Z (fun _ _ => eq_refl)
                      "2024-03-05 23:30:00 +0900" 1410%Z 540%Z eq_refl)).
    reflexivity.
  - rewrite (proj2 (H (Dates.getHours 540) 540%Z (fun _ _ => eq_refl)
                      "2024-03-05 23:30:00 +0900" 1410%Z 540%Z eq_refl) eq_refl).
    reflexivity.
Defined.

End TimeOfDayProps.

(** ** The keyword and phrase miner *)

Module PatternMiningProps.

Import ExtractKnowledge Rules.

Lemma get_countUp m k k' :
  JS.get (countUp m k) k'
  = if String.eqb k k' then Some (valueOr0 m k + 1) else JS.get m k'.
Proof.
  unfold countUp, valueOr0. destruct (String.eqb_spec k k') as [->|Hne].
  - apply JSFacts.get_set_same.
  - now apply JSFacts.get_set_other.
Qed.

Lemma frequency_filter keep keys k :
  frequency (filter keep keys) k = if keep k then frequency keys k else 0.
Proof.
  unfold frequency. induction keys as [|x keys IH]; simpl.
  - now destruct (keep k).
  - destruct (keep x) eqn:Ex; simpl; destruct (string_dec x k) as [->|];
      rewrite ?IH; try rewrite Ex; try reflexivity.
Qed.

(** The counter of [k] after a tally. *)
Lemma get_tally keep keys : forall m k,
  JS.get (tally keep keys m) k
  = match frequency (filter keep keys) k with
    | 0 => JS.get m k
    | S c => Some (valueOr0 m k + S c)
    end.
Proof.
  unfold tally, frequency.
  induction keys as [|x keys IH]; intros m k; simpl; [reflexivity|].
  destruct (keep x) eqn:Ex; [|apply IH].
  rewrite IH. simpl. unfold valueOr0 at 1. rewrite get_countUp.
  destruct (string_dec x k) as [->|Hne].
  - rewrite String.eqb_refl.
    destruct (count_occ string_dec (filter keep keys) k); f_equal; lia.
  - destruct (String.eqb_spec x k); [contradiction|].
    reflexivity.
Qed.

Lemma NoDup_tally keep keys : forall m,
  NoDup (map fst m) -> NoDup (map fst (tally keep keys m)).
Proof.
  unfold tally. induction keys as [|x keys IH]; intros m H; simpl; [exact H|].
  apply IH. destruct (keep x); [|exact H]. now apply JSFacts.NoDup_set.
Qed.

Lemma tally_app keep k1 k2 m :
  tally keep (k1 ++ k2) m = tally keep k2 (tally keep k1 m).
Proof. unfold tally. apply fold_left_app. Qed.

(** The two maps after the pass over the messages. *)
Lemma fold_messages msgs : forall wm pm,
  fold_left foldMessage msgs (wm, pm)
  = (tally longWord (flat_map tokensOf msgs) wm,
     tally longPhrase (map phraseOf msgs) pm).
Proof.
  induction msgs as [|msg msgs IH]; intros wm pm; simpl; [reflexivity|].
  rewrite IH, tally_app. reflexivity.
Qed.

(** An entry of a tally from empty maps carries the frequency of its key,
    which is kept and occurs. *)
Lemma tally_entry keep keys k n :
  In (k, n) (tally keep keys []) ->
  keep k = true /\ In k keys /\ n = frequency keys k /\ 0 < n.
Proof.
  intro H. apply JSFacts.In_get in H; [|apply NoDup_tally; constructor].
  rewrite get_tally in H. rewrite frequency_filter in H.
  destruct (keep k) eqn:Ek; [|discriminate].
  destruct (frequency keys k) as [|c] eqn:Ec; [discriminate|].
  injection H as <-. simpl. repeat split; try lia.
  unfold frequency in Ec. apply (count_occ_In string_dec). lia.
Qed.

Lemma not_stopWord w :
  negb (existsb (String.eqb w) stopWords) = true -> ~ In w stopWords.
Proof.
  intros H Hin. apply negb_true_iff in H.
  assert (existsb (String.eqb w) stopWords = true).
  { apply existsb_exists. exists w. split; [exact Hin|apply String.eqb_refl]. }
  congruence.
Qed.

Lemma tally_complete keep keys k :
  In k keys -> keep k = true -> In (k, frequency keys k) (tally keep keys []).
Proof.
  intros Hin Hk. apply JSFacts.get_In. rewrite get_tally, frequency_filter, Hk.
  apply (count_occ_In string_dec) in Hin. fold (frequency keys k) in Hin.
  destruct (frequency keys k); [lia|reflexivity].
Qed.

(** The shape of the result in terms of the two tallies. *)
Lemma commitPatterns_eq messages :
  let msgs := messageList messages in
  let words := filter (fun e => negb (existsb (String.eqb (fst e)) stopWords))
                      (tally longWord (flat_map tokensOf msgs) []) in
  let phrases := filter (fun e => 1 <? snd e)
                        (tally longPhrase (map phraseOf msgs) []) in
  messages <> "" ->
  commitPatterns messages
  = mkCommitPatterns (firstn 20 (byCountDesc words)) (firstn 15 (byCountDesc phrases)).
Proof.
  intros msgs words phrases Hne. unfold commitPatterns.
  destruct (String.eqb_spec messages ""); [contradiction|].
  fold msgs. rewrite fold_messages. reflexivity.
Qed.

(** C8 (as amended).  The word ranking holds only lower-cased
    whitespace-split tokens longer than 3 characters that are no stop
    words, each with its frequency; the phrase ranking holds only whole
    subjects, lower-cased and whitespace-normalized, longer than 5
    characters, whose frequency after that normalization is more than one.
    Both are in descending order of frequency and are the first 20 and the
    first 15 entries of the complete descending rankings. *)
Theorem mined_rankings (execCommand : string -> string) :
  let msgs := messageList (execCommand messagesCommand) in
  let tokens := flat_map tokensOf msgs in
  let phrases := map phraseOf msgs in
  let r := getCommitPatterns execCommand in
  (forall w n, In (w, n) (commonWords r) ->
     In w tokens /\ 3 < JS.length w /\ ~ In w stopWords
     /\ n = frequency tokens w)
  /\ (exists ranking,
        commonWords r = firstn 20 ranking /\ descending snd ranking
        /\ forall w, In w tokens -> 3 < JS.length w -> ~ In w stopWords ->
                     In (w, frequency tokens w) ranking)
  /\ descending snd (commonWords r)
  /\ List.length (commonWords r) <= 20
  /\ (forall p n, In (p, n) (commonPhrases r) ->
        In p phrases /\ 5 < JS.length p /\ 1 < n
        /\ n = frequency phrases p)
  /\ (exists ranking,
        commonPhrases r = firstn 15 ranking /\ descending snd ranking
        /\ forall p, In p phrases -> 5 < JS.length p ->
                     1 < frequency phrases p ->
                     In (p, frequency phrases p) ranking)
  /\ descending snd (commonPhrases r)
  /\ List.length (commonPhrases r) <= 15.
Proof.
  intros msgs tokens phrases r. subst r. unfold getCommitPatterns.
  set (messages := execCommand messagesCommand) in *.
  destruct (String.eqb_spec messages "") as [E|Hne].
  - (* the early return *)
    assert (Ht : tokens = [""]) by (subst tokens msgs; rewrite E; reflexivity).
    assert (Hp : phrases = [""]) by (subst phrases msgs; rewrite E; reflexivity).
    rewrite E. change (commitPatterns "") with (mkCommitPatterns [] []).
    cbn [commonWords commonPhrases].
    split; [intros w n []|].
    split.
    { exists []. split; [reflexivity|]. split; [constructor|].
      intros w Hin Hlen. rewrite Ht in Hin. destruct Hin as [<-|[]].
      cbv in Hlen. lia. }
    split; [constructor|]. split; [simpl; lia|].
    split; [intros q n []|].
    split.
    { exists []. split; [reflexivity|]. split; [constructor|].
      intros q Hin Hlen. rewrite Hp in Hin. destruct Hin as [<-|[]].
      cbv in Hlen. lia. }
    split; [constructor|simpl; lia].
  - rewrite (commitPatterns_eq messages Hne). cbn [commonWords commonPhrases].
    fold msgs. fold tokens. fold phrases. unfold byCountDesc.
    repeat split.
    + apply JSFacts.In_firstn, JSFacts.sort_In, filter_In in H.
      destruct H as [H _]. now apply tally_entry in H.
    + apply JSFacts.In_firstn, JSFacts.sort_In, filter_In in H.
      destruct H as [H _]. apply tally_entry in H.
      destruct H as (H & _). unfold longWord in H. now apply Nat.ltb_lt.
    + apply JSFacts.In_firstn, JSFacts.sort_In, filter_In in H.
      destruct H as [_ H]. now apply not_stopWord.
    + apply JSFacts.In_firstn, JSFacts.sort_In, filter_In in H.
      destruct H as [H _]. now apply tally_entry in H.
    + eexists. split; [reflexivity|]. split; [apply (JSFacts.sort_desc snd)|].
      intros w Hin Hlen Hstop. apply JSFacts.sort_In, filter_In. split.
      * apply tally_complete; [exact Hin|]. now apply Nat.ltb_lt.
      * cbn [fst]. apply negb_true_iff. apply not_true_is_false. intro Hex.
        apply existsb_exists in Hex. destruct Hex as (x & Hx & Heq).
        apply String.eqb_eq in Heq. subst x. contradiction.
    + apply JSFacts.firstn_desc, (JSFacts.sort_desc snd).
    + apply firstn_le_length.
    + apply JSFacts.In_firstn, JSFacts.sort_In, filter_In in H.
      destruct H as [H _]. now apply tally_entry in H.
    + apply JSFacts.In_firstn, JSFacts.sort_In, filter_In in H.
      destruct H as [H _]. apply tally_entry in H.
      destruct H as (H & _). unfold longPhrase in H. now apply Nat.ltb_lt.
    + apply JSFacts.In_firstn, JSFacts.sort_In, filter_In in H.
      destruct H as [_ H]. now apply Nat.ltb_lt.
    + apply JSFacts.In_firstn, JSFacts.sort_In, filter_In in H.
      destruct H as [H _]. now apply tally_entry in H.
    + eexists. split; [reflexivity|]. split; [apply (JSFacts.sort_desc snd)|].
      intros q Hin Hlen Hfreq. apply JSFacts.sort_In, filter_In. split.
      * apply tally_complete; [exact Hin|]. now apply Nat.ltb_lt.
      * simpl. now apply Nat.ltb_lt.
    + apply JSFacts.firstn_desc, (JSFacts.sort_desc snd).
    + apply firstn_le_length.
Qed.

(** The rankings of three subjects, and of three subjects with accented
    letters and a no-break space: [été] has three characters and is no
    keyword. *)
Lemma mined_rankings_witness :
  let out := ("Fix Typo in parser" ++ Samples.nl ++ "fix  typo in  PARSER "
              ++ Samples.nl ++ "with this that been parser")%string in
  let accented := ("École Café" ++ Samples.nl ++ "ÉCOLE" ++ JS.utf8 160 ++ "CAFÉ"
                   ++ Samples.nl ++ "été naïve")%string in
  commonWords (getCommitPatterns (fun _ => out)) = [("parser", 3); ("typo", 2)]
  /\ frequency (map phraseOf (messageList out)) "fix typo in parser" = 2
  /\ getCommitPatterns (fun _ => accented)
     = mkCommitPatterns [("école", 2); ("café", 2); ("naïve", 1)] [("école café", 2)]
  /\ frequency (flat_map tokensOf (messageList accented)) "école" = 2.
Proof.
  cbn zeta. split; [vm_compute; reflexivity|].
  set (out := ("Fix Typo in parser" ++ Samples.nl ++ "fix  typo in  PARSER "
               ++ Samples.nl ++ "with this that been parser")%string).
  set (accented := ("École Café" ++ Samples.nl ++ "ÉCOLE" ++ JS.utf8 160 ++ "CAFÉ"
                    ++ Samples.nl ++ "été naïve")%string).
  destruct (mined_rankings (fun _ => out)) as (_ & _ & _ & _ & Hp & _).
  destruct (mined_rankings (fun _ => accented)) as (Hw & _).
  split.
  { destruct (Hp "fix typo in parser" 2) as (_ & _ & _ & Hf).
    - vm_compute. left. reflexivity.
    - symmetry. exact Hf. }
  split; [vm_compute; reflexivity|].
  destruct (Hw "école" 2) as (_ & _ & _ & Hf).
  - vm_compute. left. reflexivity.
  - symmetry. exact Hf.
Defined.

(** The subject [Fix Typo] committed twice: the ranked phrase is the
    lower-cased [fix typo], which is not the whitespace-normalized form of
    any subject. *)
Lemma mined_phrases_counterexample :
  let out := ("Fix Typo" ++ Samples.nl ++ "Fix Typo")%string in
  commonPhrases (getCommitPatterns (fun _ => out)) = [("fix typo", 2)]
  /\ map normalizeWs (messageList out) = ["Fix Typo"; "Fix Typo"]
  /\ ~ In "fix typo" (map normalizeWs (messageList out)).
Proof.
  cbn zeta. split; [reflexivity|]. split; [reflexivity|].
  vm_compute. intros [H|[H|[]]]; discriminate H.
Qed.

End PatternMiningProps.

(** ** The velocity estimator *)

Module VelocityProps.

Import CommitTimeline.

Lemma sumCommits_from l : forall acc,
  fold_left (fun acc e => acc + d_commits (snd e)) l acc
  = acc + list_sum (map (fun e : string * DayInfo => d_commits (snd e)) l).
Proof.
  induction l as [|e l IH]; intro acc; simpl; [lia|].
  rewrite IH. lia.
Qed.

Lemma sumCommits_list_sum l :
  sumCommits l = list_sum (map (fun e => d_commits (snd e)) l).
Proof. unfold sumCommits. now rewrite sumCommits_from. Qed.

Lemma list_sum_perm l l' : Permutation l l' -> list_sum l = list_sum l'.
Proof. induction 1; simpl; lia. Qed.

(** The sorted entries are all the buckets. *)
Lemma sortedEntries_perm data : Permutation (sortedEntries data) data.
Proof.
  unfold sortedEntries. rewrite JSFacts.sort_perm. apply JSFacts.entries_perm.
Qed.


Lemma sortedEntries_length data : List.length (sortedEntries data) = List.length data.
Proof. apply Permutation_length, sortedEntries_perm. Qed.

Lemma sortedEntries_commits data : sumCommits (sortedEntries data) = bucketCommits data.
Proof.
  rewrite sumCommits_list_sum. unfold bucketCommits.
  apply list_sum_perm, Permutation_map, sortedEntries_perm.
Qed.

(** The two halves make up the list. *)
Lemma halves_commits (l : list (string * DayInfo)) n :
  sumCommits (firstn n l) + sumCommits (skipn n l) = sumCommits l.
Proof.
  rewrite !sumCommits_list_sum. rewrite <- (firstn_skipn n l) at 3.
  rewrite map_app, list_sum_app. reflexivity.
Qed.

(** The result for two buckets or more. *)
Lemma velocity_eq data :
  let entries := sortedEntries data in
  let mid := Nat.div (List.length entries) 2 in
  let prev := sumCommits (firstn mid entries) in
  let curr := sumCommits (skipn mid entries) in
  let pc := if 0 <? prev then percentOf prev curr else F64.zero in
  2 <= List.length entries ->
  calculateVelocityTraced data
  = (mkVelocity (AvgFixed (F64.toFixed1 (quotient (sumCommits entries) (List.length entries))))
                (trendOf pc) (Some pc),
     Z.of_nat (List.length entries)
       :: (if 0 <? prev then [Z.of_nat prev] else [])).
Proof.
  intros entries mid prev curr pc Hlen. unfold calculateVelocityTraced.
  fold entries. destruct (Nat.ltb_spec (List.length entries) 2); [lia|].
  fold mid. fold prev. fold curr. subst pc.
  unfold bind, divide, ret, trendOf, percentOf, quotient.
  destruct (0 <? prev); reflexivity.
Qed.

(** The result for fewer than two buckets. *)
Lemma velocity_short data :
  List.length (sortedEntries data) < 2 ->
  calculateVelocityTraced data = (mkVelocity (AvgNumber 0) Stable None, []).
Proof.
  intro H. unfold calculateVelocityTraced.
  destruct (Nat.ltb_spec (List.length (sortedEntries data)) 2); [reflexivity|lia].
Qed.






(** [tenthsOf] is the nearest number of tenths, the larger at a tie. *)
Lemma tenthsOf_nearest (m : positive) (e : Z) :
  let n := F64.tenthsOf m e in
  ((0 <= e)%Z -> n = (10 * Z.pos m * 2 ^ e)%Z)
  /\ ((e < 0)%Z ->
      let d := (2 ^ (- e))%Z in
      (2 * d * n - d <= 20 * Z.pos m < 2 * d * n + d)%Z).
Proof.
  unfold F64.tenthsOf. split; intro He.
  - destruct (Z.leb_spec 0 e); [reflexivity|lia].
  - destruct (Z.leb_spec 0 e); [lia|]. cbn zeta.
    assert (Hd : (0 < 2 ^ (- e))%Z) by (apply Z.pow_pos_nonneg; lia).
    set (d := (2 ^ (- e))%Z) in *.
    pose proof (Z.div_mod (2 * 10 * Z.pos m + d) (2 * d) ltac:(lia)) as Hdm.
    pose proof (Z.mod_pos_bound (2 * 10 * Z.pos m + d) (2 * d) ltac:(lia)) as Hb.
    set (q := ((2 * 10 * Z.pos m + d) / (2 * d))%Z) in *.
    set (r := ((2 * 10 * Z.pos m + d) mod (2 * d))%Z) in *.
    nia.
Qed.

(** C6 (as amended).  With two buckets or more, [avgDaily] is the binary64
    quotient of the commits of all buckets by the number of buckets,
    written with one decimal ([toFixed(1)]: the nearest number of tenths);
    with fewer than two buckets it is the number 0. *)
Theorem average_daily_commits (data : JS.assoc DayInfo) :
  let v := calculateVelocity data in
  (2 <= List.length data ->
   avgDaily v
   = AvgFixed (F64.toFixed1 (quotient (bucketCommits data) (List.length data))))
  /\ (List.length data < 2 -> avgDaily v = AvgNumber 0)
  /\ (forall s m e, (e < 0)%Z ->
        exists n, F64.toFixed1 (S754_finite s m e)
                  = ((if s then "-" else "") ++ F64.digits (n / 10) ++ "."
                       ++ F64.digits (n mod 10))%string
                  /\ (2 * 2 ^ (- e) * n - 2 ^ (- e) <= 20 * Z.pos m
                      < 2 * 2 ^ (- e) * n + 2 ^ (- e))%Z).
Proof.
  cbn zeta. unfold calculateVelocity. split; [|split].
  - intro H. rewrite velocity_eq by (rewrite sortedEntries_length; exact H).
    cbn [fst avgDaily]. now rewrite sortedEntries_commits, sortedEntries_length.
  - intro H. rewrite velocity_short by (rewrite sortedEntries_length; exact H).
    reflexivity.
  - intros s m e He. exists (F64.tenthsOf m e). split; [reflexivity|].
    exact (proj2 (tenthsOf_nearest m e) He).
Qed.

(** Two days with 10 and 15 commits: 12.5 a day. *)
Lemma average_daily_commits_witness :
  avgDaily (calculateVelocity [Samples.day "2024-01-02" 15; Samples.day "2024-01-01" 10])
  = AvgFixed "12.5".
Proof.
  rewrite (proj1 (average_daily_commits
                    [Samples.day "2024-01-02" 15; Samples.day "2024-01-01" 10])).
  - vm_compute. reflexivity.
  - vm_compute. lia.
Defined.

(** A single bucket of 5 commits: the quotient is 5 and [avgDaily] is 0. *)
Lemma average_daily_counterexample :
  let data := [Samples.day "2024-01-01" 5] in
  avgDaily (calculateVelocity data) = AvgNumber 0
  /\ bucketCommits data = 5 /\ List.length data = 1
  /\ quotient (bucketCommits data) (List.length data) = F64.ofZ 5
  /\ F64.toFixed1 (F64.ofZ 5) = "5.0".
Proof. cbn zeta. repeat split; vm_compute; reflexivity. Qed.

Lemma divisors_nonzero data : Forall (fun d => d <> 0%Z) (divisors data).
Proof.
  unfold divisors.
  destruct (Nat.ltb_spec (List.length (sortedEntries data)) 2) as [Hs|Hl].
  - rewrite velocity_short by exact Hs. constructor.
  - rewrite velocity_eq by exact Hl. cbn [snd].
    constructor; [lia|].
    destruct (Nat.ltb_spec 0 (sumCommits
      (firstn (Nat.div (List.length (sortedEntries data)) 2) (sortedEntries data))));
      repeat constructor. lia.
Qed.

(** C7 (as amended).  With fewer than two buckets the result is the trend
    [stable] and [avgDaily] 0, it has no [percentChange] property, and no
    division is performed; for every list of buckets, no division has the
    divisor 0. *)
Theorem velocity_short_list (data : JS.assoc DayInfo) :
  let v := calculateVelocity data in
  (List.length data < 2 ->
   trend v = Stable /\ percentChange v = None /\ avgDaily v = AvgNumber 0
   /\ divisors data = [])
  /\ Forall (fun d => d <> 0%Z) (divisors data).
Proof.
  cbn zeta. split; [|apply divisors_nonzero].
  intro H. unfold calculateVelocity, divisors.
  rewrite velocity_short by (rewrite sortedEntries_length; exact H).
  repeat split.
Qed.

(** A single bucket. *)
Lemma velocity_short_list_witness :
  trend (calculateVelocity [Samples.day "2024-01-01" 5]) = Stable
  /\ divisors [Samples.day "2024-01-01" 5] = [].
Proof.
  destruct (proj1 (velocity_short_list [Samples.day "2024-01-01" 5]))
    as (Ht & _ & _ & Hd).
  - vm_compute. lia.
  - split; [exact Ht|exact Hd].
Defined.

(** The empty list and a single bucket: the result has no
    [percentChange], which is not the number 0. *)
Lemma velocity_short_counterexample :
  percentChange (calculateVelocity []) = None
  /\ percentChange (calculateVelocity []) <> Some F64.zero
  /\ percentChange (calculateVelocity [Samples.day "2024-01-01" 5]) = None
  /\ percentChange (calculateVelocity [Samples.day "2024-01-01" 5]) <> Some F64.zero.
Proof. repeat split; try reflexivity; vm_compute; discriminate. Qed.

End VelocityProps.

(** ** Per-author analysis *)

Module AuthorProps.

Import ExtractKnowledge AuthorPatterns.

Section World.
Variable getHours : string -> JS.num.
Variable getDay : string -> JS.num.

Lemma foldLine_get authors name email date subject name' :
  option_map s_commits
    (JS.get (foldLine getHours getDay authors name email date subject) name')
  = if String.eqb name name' then Some (S (commitsOr0 authors name))
    else option_map s_commits (JS.get authors name').
Proof.
  unfold foldLine, JS.has, commitsOr0.
  destruct (JS.get authors name) as [old|] eqn:E.
  - rewrite E. destruct (String.eqb_spec name name') as [<-|Hne].
    + now rewrite JSFacts.get_set_same.
    + now rewrite JSFacts.get_set_other.
  - rewrite JSFacts.get_set_same.
    destruct (String.eqb_spec name name') as [<-|Hne].
    + now rewrite JSFacts.get_set_same.
    + now rewrite !JSFacts.get_set_other.
Qed.

Lemma foldLine_NoDup authors name email date subject :
  NoDup (map fst authors) ->
  NoDup (map fst (foldLine getHours getDay authors name email date subject)).
Proof.
  intro H. unfold foldLine.
  match goal with |- context [JS.get ?a name] => set (a1 := a) end.
  assert (H1 : NoDup (map fst a1))
    by (subst a1; destruct (JS.has authors name); [exact H|now apply JSFacts.NoDup_set]).
  destruct (JS.get a1 name); [now apply JSFacts.NoDup_set|exact H1].
Qed.

Lemma lineAuthor_split line name rest :
  JS.split "|" line = name :: rest -> lineAuthor line = name.
Proof. unfold lineAuthor. now intros ->. Qed.

(** The commit counter of a name after the pass over the lines. *)
Lemma foldLines_get lines : forall authors res,
  foldLines getHours getDay authors lines = JS.Ok res ->
  (NoDup (map fst authors) -> NoDup (map fst res))
  /\ forall name,
       option_map s_commits (JS.get res name)
       = match frequency (map lineAuthor lines) name with
         | 0 => option_map s_commits (JS.get authors name)
         | S c => Some (commitsOr0 authors name + S c)
         end.
Proof.
  induction lines as [|line lines IH]; intros authors res H.
  - injection H as <-. split; [auto|reflexivity].
  - cbn [foldLines] in H.
    destruct (JS.split "|" line) as [|name [|email [|date [|subject rest]]]] eqn:Es;
      try discriminate H.
    apply IH in H. destruct H as [Hnd Hget]. split.
    + intro Ha. apply Hnd. now apply foldLine_NoDup.
    + intro name'. rewrite Hget. cbn [map]. unfold frequency. cbn [count_occ].
      rewrite (lineAuthor_split _ _ _ Es).
      pose proof (foldLine_get authors name email date subject name') as Hf.
      unfold commitsOr0 at 1.
      destruct (string_dec name name') as [<-|Hne].
      * rewrite String.eqb_refl in Hf.
        destruct (JS.get (foldLine getHours getDay authors name email date subject) name);
          [|discriminate Hf].
        simpl in Hf. injection Hf as Hf.
        destruct (count_occ string_dec (map lineAuthor lines) name);
          simpl; rewrite Hf; f_equal; lia.
      * destruct (String.eqb_spec name name'); [contradiction|].
        destruct (count_occ string_dec (map lineAuthor lines) name') eqn:Ec.
        -- exact Hf.
        -- f_equal. f_equal. unfold commitsOr0.
           destruct (JS.get (foldLine getHours getDay authors name email date subject) name');
             destruct (JS.get authors name'); simpl in Hf; congruence.
Qed.

Lemma get_map_setAverage (m : JS.assoc AuthorStats) name :
  option_map s_commits (JS.get (map (fun e => (fst e, setAverage (snd e))) m) name)
  = option_map s_commits (JS.get m name).
Proof.
  induction m as [|[k a] m IH]; simpl; [reflexivity|].
  destruct (String.eqb k name); [reflexivity|exact IH].
Qed.

(** The known authors are the names of the history, each with the
    number of its log lines as commit count. *)
Lemma authorStats_known logData allAuthors :
  authorStats getHours getDay logData = JS.Ok allAuthors ->
  NoDup (map fst allAuthors)
  /\ (forall name a, In (name, a) allAuthors ->
        s_commits a = frequency (historyAuthors logData) name
        /\ In name (historyAuthors logData))
  /\ (forall name, In name (historyAuthors logData) -> In name (map fst allAuthors)).
Proof.
  unfold authorStats, historyAuthors.
  destruct (String.eqb logData "").
  - intro H. injection H as <-. repeat split; try constructor; intros; contradiction.
  - set (lines := JS.split _ _).
    destruct (foldLines getHours getDay [] lines) as [res|] eqn:E; [|discriminate].
    intro H. injection H as <-.
    destruct (foldLines_get lines [] res E) as [Hnd Hget].
    assert (Hkeys : NoDup (map fst (map (fun e => (fst e, setAverage (snd e))) res))).
    { rewrite map_map. cbn [fst]. apply Hnd. constructor. }
    split; [exact Hkeys|]. split.
    + intros name a Hin. apply JSFacts.In_get in Hin; [|exact Hkeys].
      pose proof (get_map_setAverage res name) as Hm. rewrite Hin in Hm.
      rewrite Hget in Hm. simpl in Hm.
      destruct (frequency (map lineAuthor lines) name) as [|c] eqn:Ec; [discriminate Hm|].
      injection Hm as Hm. split; [unfold commitsOr0 in Hm; simpl in Hm; lia|].
      apply (count_occ_In string_dec). unfold frequency in Ec. lia.
    + intros name Hin. apply (count_occ_In string_dec) in Hin.
      pose proof (get_map_setAverage res name) as Hm. rewrite Hget in Hm.
      fold (frequency (map lineAuthor lines) name) in Hin.
      destruct (frequency (map lineAuthor lines) name); [lia|].
      destruct (JS.get (map (fun e => (fst e, setAverage (snd e))) res) name) as [a|] eqn:Eg;
        [|discriminate Hm].
      apply JSFacts.get_In in Eg. change name with (fst (name, a)). now apply in_map.
Qed.

(** On a well-formed log the pass over the lines does not throw. *)
Lemma foldLines_total lines : forall authors,
  forallb fourFields lines = true ->
  exists res, foldLines getHours getDay authors lines = JS.Ok res.
Proof.
  induction lines as [|line lines IH]; intros authors H; simpl in *.
  - now exists authors.
  - apply andb_true_iff in H. destruct H as [Hf Hr].
    unfold fourFields in Hf. apply Nat.leb_le in Hf.
    destruct (JS.split "|" line) as [|name [|email [|date [|subject rest]]]];
      simpl in Hf; try lia.
    now apply IH.
Qed.

Lemma authorStats_total logData :
  wellFormedLog logData = true ->
  exists allAuthors, authorStats getHours getDay logData = JS.Ok allAuthors.
Proof.
  unfold wellFormedLog, authorStats. intro H.
  destruct (String.eqb logData ""); [now exists []|]. simpl in H.
  destruct (foldLines_total _ [] H) as [res ->]. eexists. reflexivity.
Qed.

Lemma find_absent {A} (f : A -> bool) l :
  (forall x, In x l -> f x = false) -> find f l = None.
Proof.
  induction l as [|x l IH]; intro H; simpl; [reflexivity|].
  rewrite (H x) by (now left). apply IH. intros y Hy. apply H. now right.
Qed.

End World.

(** C9 (as amended).  On a well-formed log, when the requested name is
    not an author of the history, [getAuthorStats] returns and
    [displayAuthorAnalysis] writes the error line, the header and one line
    for each of the first ten known authors in descending order of commit
    count, and exits with status 1; no analysis is displayed.  The ranking
    holds every author of the history, with the number of its commits. *)
Theorem unknown_author_rejected
    (execCommand : string -> string) (getHours getDay : string -> JS.num)
    (authorName since : string) :
  let logData := execCommand (statsCommand since) in
  wellFormedLog logData = true ->
  ~ In authorName (historyAuthors logData) ->
  exists allAuthors,
    getAuthorStats execCommand getHours getDay since = JS.Ok allAuthors
    /\ let ranked := rankedAuthors allAuthors in
       displayAuthorAnalysis execCommand getHours getDay authorName since
       = Exit 1 [notFoundMessage authorName]
                (availableHeader
                   :: map (fun a => ("  - " ++ fst a)%string) (firstn 10 ranked))
       /\ Permutation ranked allAuthors
       /\ descending (fun a => s_commits (snd a)) ranked
       /\ descending (fun a => s_commits (snd a)) (firstn 10 ranked)
       /\ List.length (firstn 10 ranked) = Nat.min 10 (List.length allAuthors)
       /\ (forall name a, In (name, a) ranked ->
             In name (historyAuthors logData)
             /\ s_commits a = frequency (historyAuthors logData) name)
       /\ (forall name, In name (historyAuthors logData) ->
             exists a, In (name, a) ranked).
Proof.
  intros logData Hwf Hunknown.
  destruct (authorStats_total getHours getDay logData Hwf) as [allAuthors Hok].
  exists allAuthors. split; [exact Hok|]. intro ranked.
  destruct (authorStats_known getHours getDay logData allAuthors Hok)
    as (Hnd & Hknown & Hall).
  assert (Hperm : Permutation ranked allAuthors).
  { unfold ranked, rankedAuthors. rewrite JSFacts.sort_perm. apply JSFacts.entries_perm. }
  assert (Hdesc : descending (fun a => s_commits (snd a)) ranked)
    by apply (JSFacts.sort_desc (fun a : string * AuthorStats => s_commits (snd a))).
  split.
  { unfold displayAuthorAnalysis, getAuthorStats. fold logData. rewrite Hok.
    fold ranked. unfold findAuthor. rewrite find_absent; [reflexivity|].
    intros [name a] Hin. simpl. apply String.eqb_neq. intros ->.
    apply Hunknown. apply (Hknown authorName a).
    now apply (Permutation_in _ Hperm). }
  split; [exact Hperm|]. split; [exact Hdesc|].
  split; [now apply JSFacts.firstn_desc|].
  split; [rewrite length_firstn; now rewrite (Permutation_length Hperm)|].
  split.
  - intros name a Hin.
    destruct (Hknown name a) as [Hc Hh]; [now apply (Permutation_in _ Hperm)|].
    split; assumption.
  - intros name Hin. apply Hall in Hin. apply in_map_iff in Hin.
    destruct Hin as ([n a] & E & Hin). simpl in E. subst n.
    exists a. now apply (Permutation_in _ (Permutation_sym Hperm)).
Qed.

(** The request for [Bob] in a history of Alice (two commits) and Carol
    (one). *)
Lemma unknown_author_rejected_witness :
  displayAuthorAnalysis (fun _ => Samples.twoAuthorsLog) Samples.isoHours Samples.noDay
                        "Bob" "6 months ago"
  = Exit 1 [notFoundMessage "Bob"] [availableHeader; "  - Alice"; "  - Carol"].
Proof.
  destruct (unknown_author_rejected (fun _ => Samples.twoAuthorsLog)
              Samples.isoHours Samples.noDay "Bob" "6 months ago")
    as (allAuthors & Hok & Hexit & _).
  - vm_compute. reflexivity.
  - vm_compute. intuition discriminate.
  - rewrite Hexit. vm_compute in Hok. injection Hok as <-. vm_compute. reflexivity.
Defined.

(** A history of eleven authors: Kim is a known author and is not
    listed. *)
Lemma unknown_author_counterexample :
  exists stdout,
    displayAuthorAnalysis (fun _ => Samples.elevenAuthorsLog) Samples.isoHours
                          Samples.noDay "Bob" "6 months ago"
    = Exit 1 [notFoundMessage "Bob"] stdout
    /\ In "Kim" (historyAuthors Samples.elevenAuthorsLog)
    /\ List.length stdout = 11
    /\ ~ In "  - Kim" stdout.
Proof.
  eexists. split; [vm_compute; reflexivity|].
  split; [vm_compute; tauto|]. split; [reflexivity|].
  simpl. intuition discriminate.
Qed.

End AuthorProps.

(** ** The shell input filter and the log parser *)

Module GitUtilsProps.

Import Shell.

Lemma sanitize_chars input :
  chars (GitUtils.sanitizeGitInput input)
  = filter (fun c => negb (stripped c)) (chars input).
Proof.
  unfold chars, stripped. induction input as [|c r IH]; simpl; [reflexivity|].
  destruct ((nat_of_ascii c =? 96) || (nat_of_ascii c =? 36) || (nat_of_ascii c =? 92));
    simpl; now rewrite IH.
Qed.

Lemma chars_inj a b : chars a = chars b -> a = b.
Proof.
  unfold chars. intro H.
  rewrite <- (string_of_list_ascii_of_string a), <- (string_of_list_ascii_of_string b).
  now rewrite H.
Qed.

Lemma chars_length a : List.length (chars a) = String.length a.
Proof. unfold chars. induction a; simpl; auto. Qed.

Lemma filter_id {A} (f : A -> bool) l :
  (forall x, In x l -> f x = true) -> filter f l = l.
Proof.
  induction l as [|x l IH]; intro H; simpl; [reflexivity|].
  rewrite (H x) by (now left). f_equal. apply IH. intros y Hy. apply H. now right.
Qed.

Lemma filter_filter {A} (f : A -> bool) l : filter f (filter f l) = filter f l.
Proof.
  apply filter_id. intros x Hx. now apply filter_In in Hx.
Qed.

Lemma filter_length_le {A} (f : A -> bool) l : List.length (filter f l) <= List.length l.
Proof. induction l as [|x l IH]; simpl; [lia|]. destruct (f x); simpl; lia. Qed.

(** X1.  [sanitizeGitInput] keeps exactly the characters that are no
    backtick, dollar sign or backslash, in their order: its result holds
    none of the three, it is never longer than the input, sanitizing twice
    is sanitizing once, and an input free of the three (whatever else it
    holds, quotes and semicolons included) is returned as it is. *)
Theorem sanitize_strips_exactly (input : string) :
  let output := GitUtils.sanitizeGitInput input in
  chars output = filter (fun c => negb (stripped c)) (chars input)
  /\ (forall c, In c (chars output) -> stripped c = false)
  /\ String.length output <= String.length input
  /\ GitUtils.sanitizeGitInput output = output
  /\ ((forall c, In c (chars input) -> stripped c = false) -> output = input).
Proof.
  cbn zeta. split; [apply sanitize_chars|].
  split.
  { intros c Hc. rewrite sanitize_chars in Hc. apply filter_In in Hc.
    now apply negb_true_iff. }
  split.
  { rewrite <- !chars_length, sanitize_chars. apply filter_length_le. }
  split.
  { apply chars_inj. rewrite !sanitize_chars. apply filter_filter. }
  intro H. apply chars_inj. rewrite sanitize_chars. apply filter_id.
  intros c Hc. apply negb_true_iff. now apply H.
Qed.

(** An author name with a semicolon passes unchanged; a command
    substitution loses its dollar sign. *)
Lemma sanitize_strips_exactly_witness :
  GitUtils.sanitizeGitInput "Ann; ls" = "Ann; ls"
  /\ GitUtils.sanitizeGitInput "$(ls)" = "(ls)".
Proof.
  split.
  - apply (proj2 (proj2 (proj2 (proj2 (sanitize_strips_exactly "Ann; ls"))))).
    simpl. intros c H. decompose [or] H; subst; try reflexivity. contradiction.
  - reflexivity.
Defined.

(** A key that is not among the fields keeps its value. *)
Lemma zipFields_other fields : forall index values obj k,
  ~ In k fields ->
  JS.get (GitUtils.zipFields fields index values obj) k = JS.get obj k.
Proof.
  induction fields as [|f rest IH]; intros index values obj k Hk; simpl; [reflexivity|].
  rewrite IH by (intro; apply Hk; now right).
  unfold GitUtils.assign. destruct (String.eqb f "__proto__"); [reflexivity|].
  apply JSFacts.get_set_other. intros ->. apply Hk. now left.
Qed.

Lemma zipFields_get fields : forall index values obj j field,
  NoDup fields -> nth_error fields j = Some field -> field <> "__proto__" ->
  JS.get (GitUtils.zipFields fields index values obj) field
  = Some (nth (index + j) values "").
Proof.
  induction fields as [|f rest IH]; intros index values obj j field Hnd Hj Hp.
  - destruct j; discriminate.
  - inversion Hnd; subst. destruct j as [|j]; simpl in *.
    + injection Hj as ->. rewrite zipFields_other by assumption.
      rewrite Nat.add_0_r. unfold GitUtils.assign.
      destruct (String.eqb_spec field "__proto__"); [contradiction|].
      apply JSFacts.get_set_same.
    + rewrite (IH (S index) values _ j field) by assumption. f_equal. f_equal. lia.
Qed.

Lemma has_false_iff {V} (m : JS.assoc V) k : ~ In k (map fst m) -> JS.has m k = false.
Proof.
  unfold JS.has. intro H. destruct (JS.get m k) eqn:E; [|reflexivity].
  exfalso. apply H. apply JSFacts.get_In in E. change k with (fst (k, v)).
  now apply in_map.
Qed.

Lemma zipFields_keys fields : forall index values obj,
  NoDup (map fst obj ++ fields) ->
  map fst (GitUtils.zipFields fields index values obj)
  = map fst obj ++ filter GitUtils.ownField fields.
Proof.
  induction fields as [|f rest IH]; intros index values obj Hnd; simpl.
  - now rewrite app_nil_r.
  - assert (Hf : ~ In f (map fst obj)).
    { apply NoDup_remove_2 in Hnd. intro H. apply Hnd. apply in_or_app. now left. }
    unfold GitUtils.assign, GitUtils.ownField.
    destruct (String.eqb f "__proto__"); simpl.
    + apply IH. now apply NoDup_remove_1 in Hnd.
    + rewrite IH.
      * rewrite JSFacts.keys_set, has_false_iff by exact Hf.
        now rewrite <- app_assoc.
      * rewrite JSFacts.keys_set, has_false_iff by exact Hf.
        rewrite <- app_assoc. exact Hnd.
Qed.

Lemma zipFields_proto fields : forall index values obj,
  JS.get obj "__proto__" = None ->
  JS.get (GitUtils.zipFields fields index values obj) "__proto__" = None.
Proof.
  induction fields as [|f rest IH]; intros index values obj H; simpl; [exact H|].
  apply IH. unfold GitUtils.assign.
  destruct (String.eqb_spec f "__proto__") as [E|E]; [exact H|].
  now rewrite JSFacts.get_set_other.
Qed.

(** X2.  For distinct field names and a non-empty output, [parseGitLog]
    returns one record for each line of the trimmed output, at least one;
    a record has exactly the declared fields, in their order, and the value
    of the [j]-th field is the [j]-th piece of the line between [|]
    characters, the empty string when the line has no such piece; pieces
    beyond the declared fields are dropped.  A field named [__proto__]
    makes no property of the record: its piece is passed over, and the
    fields after it keep their own pieces. *)
Theorem parseGitLog_records (output : string) (fields : list string) :
  let lines := JS.split (ascii_of_nat 10) (JS.trim output) in
  let records := GitUtils.parseGitLog output fields in
  NoDup fields -> output <> "" ->
  List.length records = List.length lines
  /\ 1 <= List.length records
  /\ forall i line, nth_error lines i = Some line ->
       exists obj,
         nth_error records i = Some obj
         /\ map fst obj = filter GitUtils.ownField fields
         /\ (forall j field, nth_error fields j = Some field ->
               field <> "__proto__" ->
               JS.get obj field = Some (nth j (JS.split "|" line) ""))
         /\ JS.get obj "__proto__" = None.
Proof.
  intros lines records Hnd Hne. subst records. unfold GitUtils.parseGitLog.
  destruct (String.eqb_spec output ""); [contradiction|]. fold lines.
  split; [apply length_map|]. split.
  { rewrite length_map. subst lines. destruct (JS.trim output) as [|c r]; simpl; [lia|].
    destruct (Ascii.eqb c (ascii_of_nat 10)); [simpl; lia|].
    destruct (JS.split (ascii_of_nat 10) r); simpl; lia. }
  intros i line Hi. eexists. split.
  { rewrite nth_error_map, Hi. reflexivity. }
  split; [now rewrite zipFields_keys|]. split.
  - intros j field Hj Hp.
    now rewrite (zipFields_get fields 0 _ [] j field Hnd Hj Hp).
  - now apply zipFields_proto.
Qed.

(** A line with three pieces parsed for five fields, and a line parsed
    for the fields [__proto__] and [a]. *)
Lemma parseGitLog_records_witness :
  GitUtils.parseGitLog "a1|Ann|ann@x" ExtractKnowledge.logFields
  = [[("hash", "a1"); ("author", "Ann"); ("email", "ann@x"); ("date", "");
      ("subject", "")]]
  /\ map (map fst) (GitUtils.parseGitLog "x|y" ["__proto__"; "a"]) = [["a"]]
  /\ GitUtils.parseGitLog "x|y" ["__proto__"; "a"] = [[("a", "y")]].
Proof.
  split; [reflexivity|]. split; [|reflexivity].
  destruct (parseGitLog_records "x|y" ["__proto__"; "a"]) as (_ & _ & H).
  - repeat constructor; simpl; intuition discriminate.
  - discriminate.
  - destruct (H 0 "x|y" eq_refl) as (obj & Ho & Hk & _).
    assert (E : map (map fst) (GitUtils.parseGitLog "x|y" ["__proto__"; "a"])
                = [map fst obj])
      by (vm_compute in Ho; injection Ho as <-; reflexivity).
    rewrite E, Hk. reflexivity.
Defined.

End GitUtilsProps.

(** ** The command line and the outcome of extract-knowledge *)

Module MainProps.

Import ExtractKnowledge Shell.

Lemma split_pieces sep s :
  forall piece, In piece (JS.split sep s) -> ~ In sep (chars piece).
Proof.
  unfold chars. induction s as [|c r IH]; simpl; intros piece H.
  - destruct H as [<-|[]]. simpl. tauto.
  - destruct (Ascii.eqb_spec c sep) as [->|Hne].
    + destruct H as [<-|H]; [simpl; tauto|now apply IH].
    + destruct (JS.split sep r) as [|h t] eqn:E.
      * destruct H as [<-|[]]. simpl. intros [E'|[]]. congruence.
      * destruct H as [<-|H].
        -- simpl. intros [E'|H']; [congruence|].
           apply (IH h); [now left|exact H'].
        -- apply IH. now right.
Qed.

(** X3.  The time window of the command line is never empty and never
    holds an equals sign: it is the text between the first and the second
    [=] of the first argument that starts with [--since=], and
    [6 months ago] when there is no such argument or that text is empty. *)
Theorem since_option (args : list string) :
  sinceOf args <> ""
  /\ ~ In "="%char (chars (sinceOf args))
  /\ ((forall arg, In arg args -> JS.startsWith arg "--since=" = false) ->
      sinceOf args = "6 months ago")
  /\ (forall arg, find (fun a => JS.startsWith a "--since=") args = Some arg ->
        nth 1 (JS.split "=" arg) "" <> "" ->
        sinceOf args = nth 1 (JS.split "=" arg) "")
  /\ (forall arg, find (fun a => JS.startsWith a "--since=") args = Some arg ->
        nth 1 (JS.split "=" arg) "" = "" ->
        sinceOf args = "6 months ago").
Proof.
  unfold sinceOf.
  destruct (find (fun arg => JS.startsWith arg "--since=") args) as [arg|] eqn:E.
  - assert (Hp : ~ In "="%char (chars (nth 1 (JS.split "=" arg) ""))).
    { destruct (nth_in_or_default 1 (JS.split "=" arg) "") as [H|H].
      - now apply (split_pieces "="%char arg).
      - rewrite H. simpl. tauto. }
    destruct (nth 1 (JS.split "=" arg) "") as [|c r] eqn:En.
    + split; [discriminate|]. split; [simpl; intuition discriminate|].
      split; [reflexivity|]. split.
      * intros a Ha Hn. injection Ha as <-. congruence.
      * reflexivity.
    + split; [discriminate|]. split; [exact Hp|]. split.
      * intro H. apply find_some in E. destruct E as [Hin Hs].
        rewrite (H arg Hin) in Hs. discriminate.
      * split.
        -- intros a Ha _. injection Ha as <-. now rewrite En.
        -- intros a Ha Hn. injection Ha as <-. rewrite En in Hn. discriminate Hn.
  - split; [discriminate|]. split; [simpl; intuition discriminate|].
    split; [reflexivity|]. split; intros a Ha; discriminate.
Qed.

(** A window with an equals sign in it is cut at the sign; an empty window
    gives the default, also when a later argument names one. *)
Lemma since_option_witness :
  sinceOf ["--weekly"; "--since=2024-01-01=x"] = "2024-01-01"
  /\ sinceOf ["--since="; "--since=1 week ago"] = "6 months ago".
Proof.
  split.
  - rewrite (proj1 (proj2 (proj2 (proj2 (since_option ["--weekly"; "--since=2024-01-01=x"]))))
               "--since=2024-01-01=x"); [reflexivity|reflexivity|].
    vm_compute. discriminate.
  - apply (proj2 (proj2 (proj2 (proj2 (since_option ["--since="; "--since=1 week ago"]))))
             "--since="); reflexivity.
Defined.

(** X4.  A run of extract-knowledge ends in one of three ways: outside a
    repository it exits with status 1 and writes nothing; in a repository
    whose log for the window is empty it ends with the [TypeError] of
    [Object.entries(stats.authors)] and writes nothing; otherwise it writes
    the report to [tribal-knowledge-report.json]. *)
Theorem main_outcomes
    (execCommand : string -> string) (getHours : string -> JS.num)
    (repoName : string) (clock : nat -> string) (args : list string) :
  let inRepo := negb (String.eqb (execCommand "git rev-parse --git-dir 2>/dev/null") "") in
  let log := execCommand (logCommand (sinceOf args)) in
  let run := main execCommand getHours repoName clock args in
  (inRepo = false -> run = Exited 1)
  /\ (inRepo = true -> log = "" -> run = Threw)
  /\ (inRepo = true -> log <> "" ->
      exists content, run = Wrote "tribal-knowledge-report.json" content).
Proof.
  cbn zeta. unfold main.
  destruct (String.eqb (execCommand "git rev-parse --git-dir 2>/dev/null") "");
    simpl; (split; [|split]); try discriminate; try reflexivity.
  - intros _ H. unfold generateReport, getCommitStats. rewrite H. reflexivity.
  - intros _ H. unfold generateReport, getCommitStats.
    rewrite (CommitStatsProps.commitStats_nonempty getHours _ H).
    cbn [aggregates]. eexists. reflexivity.
Qed.

(** The two-commit world with an empty log for the window. *)
Lemma main_outcomes_witness :
  main (fun cmd => if String.eqb cmd "git rev-parse --git-dir 2>/dev/null"
                   then ".git" else "")
       Samples.isoHours "repo" Samples.clockA []
  = Threw.
Proof.
  apply (proj1 (proj2 (main_outcomes
           (fun cmd => if String.eqb cmd "git rev-parse --git-dir 2>/dev/null"
                       then ".git" else "")
           Samples.isoHours "repo" Samples.clockA []))); reflexivity.
Defined.

End MainProps.

(** ** Facts about keyed accumulators *)

Module KeyedFacts.

Import ExtractKnowledge Keyed.

Lemma set_set {V} (m : JS.assoc V) k a b : JS.set (JS.set m k a) k b = JS.set m k b.
Proof.
  induction m as [|[k' v'] m IH]; simpl.
  - now rewrite String.eqb_refl.
  - destruct (String.eqb k' k) eqn:E; simpl; rewrite E; [reflexivity|now rewrite IH].
Qed.

Lemma get_upsert {V} (m : JS.assoc V) k upd k' :
  JS.get (upsert m k upd) k'
  = if String.eqb k k' then Some (upd (JS.get m k)) else JS.get m k'.
Proof.
  unfold upsert. destruct (String.eqb_spec k k') as [<-|Hne].
  - apply JSFacts.get_set_same.
  - now apply JSFacts.get_set_other.
Qed.

Lemma total_set {V} (count : V -> nat) (m : JS.assoc V) k v :
  total count (JS.set m k v) + countOf count (JS.get m k) = total count m + count v.
Proof.
  unfold total. induction m as [|[k' v'] m IH]; simpl; [lia|].
  destruct (String.eqb k' k); simpl; lia.
Qed.

Lemma In_set {V} (m : JS.assoc V) k v x :
  In x (JS.set m k v) -> x = (k, v) \/ In x m.
Proof.
  induction m as [|[k' v'] m IH]; simpl.
  - intros [<-|[]]. now left.
  - destruct (String.eqb_spec k' k) as [->|Hne]; simpl.
    + intros [<-|H]; auto.
    + intros [<-|H]; auto. destruct (IH H); auto.
Qed.

Lemma keys_set_in {V} (m : JS.assoc V) k v k' :
  In k' (map fst (JS.set m k v)) <-> k' = k \/ In k' (map fst m).
Proof.
  rewrite JSFacts.keys_set. unfold JS.has.
  destruct (JS.get m k) eqn:E.
  - split; [auto|]. intros [->|H]; [|exact H].
    apply JSFacts.get_In in E. change k with (fst (k, v0)). now apply in_map.
  - rewrite in_app_iff. simpl. intuition.
Qed.

Lemma fold_left_ext {A B} (f g : A -> B -> A) :
  (forall a b, f a b = g a b) -> forall l a, fold_left f l a = fold_left g l a.
Proof.
  intros H l. induction l as [|b l IH]; intro a; simpl; [reflexivity|].
  now rewrite H, IH.
Qed.

Lemma NoDup_keys_filter {V} (f : string * V -> bool) (m : JS.assoc V) :
  NoDup (map fst m) -> NoDup (map fst (filter f m)).
Proof.
  induction m as [|e m IH]; simpl; intro H; [constructor|].
  inversion H; subst. destruct (f e); simpl; [|auto].
  constructor; [|auto]. intro Hin. apply H2.
  apply in_map_iff in Hin. destruct Hin as (x & Ex & Hx).
  apply filter_In in Hx. rewrite <- Ex. apply in_map. tauto.
Qed.

(** Leaving one key out takes its counter off the total. *)
Lemma total_without {V} (count : V -> nat) (m : JS.assoc V) k :
  NoDup (map fst m) ->
  total count (filter (fun e => negb (String.eqb (fst e) k)) m)
    + countOf count (JS.get m k)
  = total count m.
Proof.
  unfold total. induction m as [|[k' v'] m IH]; simpl; intro H; [reflexivity|].
  inversion H; subst. specialize (IH H3).
  destruct (String.eqb_spec k' k) as [->|Hne]; simpl.
  - assert (Hg : JS.get m k = None).
    { destruct (JS.get m k) eqn:E; [|reflexivity]. exfalso. apply H2.
      apply JSFacts.get_In in E. change k with (fst (k, v)). now apply in_map. }
    rewrite Hg in IH. simpl in IH. lia.
  - lia.
Qed.

Lemma length_without (keys : list string) k :
  List.length (filter (fun d => negb (String.eqb d k)) keys) + frequency keys k
  = List.length keys.
Proof.
  unfold frequency. induction keys as [|x keys IH]; simpl; [reflexivity|].
  destruct (String.eqb_spec x k) as [->|Hne]; simpl.
  - destruct (string_dec k k); [lia|congruence].
  - destruct (string_dec x k); [contradiction|lia].
Qed.

Section Fold.
Context {X V : Type}.
Variable key : X -> string.
Variable upd : X -> option V -> V.
Variable count : V -> nat.
Hypothesis count_upd : forall x o, count (upd x o) = S (countOf count o).

Lemma fold_total xs : forall m,
  total count (fold_left (fun m x => upsert m (key x) (upd x)) xs m)
  = total count m + List.length xs.
Proof.
  induction xs as [|x xs IH]; intro m; simpl; [lia|].
  rewrite IH. unfold upsert.
  pose proof (total_set count m (key x) (upd x (JS.get m (key x)))) as H.
  rewrite count_upd in H. lia.
Qed.

Lemma fold_count xs : forall m k,
  countOf count (JS.get (fold_left (fun m x => upsert m (key x) (upd x)) xs m) k)
  = countOf count (JS.get m k) + frequency (map key xs) k.
Proof.
  unfold frequency. induction xs as [|x xs IH]; intros m k; simpl; [lia|].
  rewrite IH, get_upsert.
  destruct (string_dec (key x) k) as [<-|Hne].
  - rewrite String.eqb_refl. simpl. rewrite count_upd. lia.
  - destruct (String.eqb_spec (key x) k); [contradiction|lia].
Qed.

Lemma fold_NoDup xs : forall m,
  NoDup (map fst m) ->
  NoDup (map fst (fold_left (fun m x => upsert m (key x) (upd x)) xs m)).
Proof.
  induction xs as [|x xs IH]; intros m H; simpl; [exact H|].
  apply IH. now apply JSFacts.NoDup_set.
Qed.

Lemma fold_keys xs : forall m k,
  In k (map fst (fold_left (fun m x => upsert m (key x) (upd x)) xs m))
  <-> In k (map fst m) \/ In k (map key xs).
Proof.
  induction xs as [|x xs IH]; intros m k; simpl; [tauto|].
  rewrite IH. unfold upsert. rewrite keys_set_in. intuition.
Qed.

Lemma fold_invariant (P : V -> Prop) :
  (forall x o, (forall v, o = Some v -> P v) -> P (upd x o)) ->
  forall xs m,
    (forall k v, In (k, v) m -> P v) ->
    forall k v,
      In (k, v) (fold_left (fun m x => upsert m (key x) (upd x)) xs m) -> P v.
Proof.
  intros Hupd xs. induction xs as [|x xs IH]; intros m Hm k v; simpl; [apply Hm|].
  apply IH. intros k' v' Hin. unfold upsert in Hin. apply In_set in Hin.
  destruct Hin as [E|Hin]; [|now apply (Hm k')].
  injection E as -> ->. apply Hupd. intros v0 E0.
  apply JSFacts.get_In in E0. now apply (Hm (key x)).
Qed.

(** The accumulator of a pass from the empty map, with one key left out. *)
Lemma buckets_without xs k0 :
  let keys := filter (fun d => negb (String.eqb d k0)) (map key xs) in
  let buckets := filter (fun e : string * V => negb (String.eqb (fst e) k0))
                        (fold_left (fun m x => upsert m (key x) (upd x)) xs []) in
  NoDup (map fst buckets)
  /\ (forall k, In k (map fst buckets) <-> In k keys)
  /\ (forall k v, In (k, v) buckets -> count v = frequency keys k)
  /\ total count buckets = List.length keys.
Proof.
  intros keys buckets.
  set (acc := fold_left (fun m x => upsert m (key x) (upd x)) xs []) in *.
  assert (Hnd : NoDup (map fst acc)) by (apply fold_NoDup; constructor).
  split; [now apply NoDup_keys_filter|]. split; [|split].
  - intro k. subst keys buckets. rewrite filter_In. split.
    + intro H. apply in_map_iff in H. destruct H as ([k' v] & E & H).
      simpl in E. subst k'. apply filter_In in H. destruct H as [H Hk]. split; [|exact Hk].
      assert (Hin : In k (map fst acc)) by (change k with (fst (k, v)); now apply in_map).
      apply fold_keys in Hin. destruct Hin as [[]|Hin]. exact Hin.
    + intros [H Hk].
      assert (Hin : In k (map fst acc)) by (apply fold_keys; now right).
      apply in_map_iff in Hin. destruct Hin as ([k' v] & E & Hin). simpl in E. subst k'.
      change k with (fst (k, v)). apply in_map. apply filter_In. split; assumption.
  - intros k v H. subst buckets. apply filter_In in H. destruct H as [H Hk].
    simpl in Hk. apply JSFacts.In_get in H; [|exact Hnd].
    pose proof (fold_count xs [] k) as Hc. fold acc in Hc. rewrite H in Hc.
    simpl in Hc. subst keys.
    rewrite (PatternMiningProps.frequency_filter
               (fun d => negb (String.eqb d k0)) (map key xs) k).
    now rewrite Hk.
  - subst buckets keys.
    pose proof (total_without count acc k0 Hnd) as Ht.
    pose proof (fold_total xs []) as Hf. fold acc in Hf.
    pose proof (fold_count xs [] k0) as Hc. fold acc in Hc. simpl in Hc.
    pose proof (length_without (map key xs) k0) as Hl.
    rewrite length_map in Hl. unfold total at 2 in Hf. simpl in Hf. lia.
Qed.

End Fold.

End KeyedFacts.

(** ** The bucketing functions of the timeline *)

Module TimelineProps.

Import CommitTimeline TimelineBuckets ExtractKnowledge Keyed.

Lemma foldDayLine_upsert m line :
  foldDayLine m line = upsert m (lineDate line) (dayUpdate line).
Proof.
  unfold foldDayLine, upsert, dayUpdate, lineDate, JS.has.
  destruct (JS.get m (nth 0 (JS.split "|" line) "")) as [d|] eqn:E.
  - rewrite E. reflexivity.
  - rewrite JSFacts.get_set_same. now rewrite KeyedFacts.set_set.
Qed.

Lemma foldWeekLine_upsert m line :
  foldWeekLine m line = upsert m (lineDate line) (weekUpdate line).
Proof.
  unfold foldWeekLine, upsert, weekUpdate, lineDate, JS.has.
  destruct (JS.get m (nth 0 (JS.split "|" line) "")) as [d|] eqn:E.
  - rewrite E. reflexivity.
  - rewrite JSFacts.get_set_same. now rewrite KeyedFacts.set_set.
Qed.

Lemma setAdd_length s x :
  1 <= List.length (setAdd s x) <= S (List.length s)
  /\ List.length s <= List.length (setAdd s x).
Proof.
  unfold setAdd. destruct (existsb (optEqb x) s) eqn:E.
  - destruct s; [discriminate|]. simpl. lia.
  - rewrite length_app. simpl. lia.
Qed.

(** What every entry of [dayMap] satisfies. *)
Lemma dayData_invariant lines : forall k d,
  In (k, d) (fold_left foldDayLine lines []) ->
  List.length (dd_subjects d) = dd_commits d
  /\ 1 <= List.length (dd_authors d) <= dd_commits d.
Proof.
  rewrite (KeyedFacts.fold_left_ext foldDayLine _ foldDayLine_upsert).
  apply (KeyedFacts.fold_invariant lineDate dayUpdate
           (fun d => List.length (dd_subjects d) = dd_commits d
                     /\ 1 <= List.length (dd_authors d) <= dd_commits d)).
  - intros line o Ho. unfold dayUpdate.
    destruct o as [d|]; cbv zeta; cbn [dd_subjects dd_commits dd_authors].
    + destruct (Ho d eq_refl) as (Hs & Ha).
      pose proof (setAdd_length (dd_authors d) (nth_error (JS.split "|" line) 1)).
      rewrite length_app. cbn [List.length]. lia.
    + unfold setAdd. cbn. lia.
  - intros k v [].
Qed.

Lemma weekData_invariant lines : forall k d,
  In (k, d) (fold_left foldWeekLine lines []) ->
  1 <= List.length (wd_authors d) <= wd_commits d.
Proof.
  rewrite (KeyedFacts.fold_left_ext foldWeekLine _ foldWeekLine_upsert).
  apply (KeyedFacts.fold_invariant lineDate weekUpdate
           (fun d => 1 <= List.length (wd_authors d) <= wd_commits d)).
  - intros line o Ho. unfold weekUpdate.
    destruct o as [d|]; cbv zeta; cbn [wd_commits wd_authors].
    + pose proof (Ho d eq_refl).
      pose proof (setAdd_length (wd_authors d) (nth_error (JS.split "|" line) 1)).
      lia.
    + unfold setAdd. cbn. lia.
  - intros k v [].
Qed.

Lemma dayUpdate_count line o :
  dd_commits (dayUpdate line o) = S (countOf dd_commits o).
Proof. destruct o; reflexivity. Qed.

Lemma weekUpdate_count line o :
  wd_commits (weekUpdate line o) = S (countOf wd_commits o).
Proof. destruct o; reflexivity. Qed.

(** The buckets of a window. *)
Lemma commitsByDay_facts (commits : string) :
  let result := commitsByDay commits in
  let dates := windowDates commits in
  NoDup (map fst result)
  /\ (forall date, In date (map fst result) <-> In date dates)
  /\ (forall date info, In (date, info) result ->
        d_commits info = frequency dates date
        /\ 1 <= d_authors info <= d_commits info
        /\ List.length (d_subjects info) = Nat.min 5 (d_commits info))
  /\ bucketCommits result = List.length dates.
Proof.
  cbn zeta. unfold commitsByDay, windowDates.
  destruct (String.eqb commits "").
  { simpl. split; [constructor|]. split; [tauto|]. split; [intros ? ? []|reflexivity]. }
  set (lines := linesOf commits).
  destruct (KeyedFacts.buckets_without lineDate dayUpdate dd_commits dayUpdate_count
              lines "__proto__") as (Hnd & Hkeys & Hcount & Htotal).
  cbn zeta in Hnd, Hkeys, Hcount, Htotal.
  rewrite <- (KeyedFacts.fold_left_ext foldDayLine _ foldDayLine_upsert) in Hnd, Hkeys, Hcount, Htotal.
  change (fun e : string * DayData => negb (String.eqb (fst e) "__proto__"))
    with (@ownKey DayData) in *.
  set (kept := filter ownKey (fold_left foldDayLine lines [])) in *.
  split; [now rewrite map_map|]. split; [|split].
  - intro date. rewrite map_map. apply Hkeys.
  - intros date info Hin. apply in_map_iff in Hin.
    destruct Hin as ([k d] & E & Hin). injection E as <- <-. cbn [fst snd].
    cbn [d_commits d_authors d_subjects].
    assert (Hd : In (k, d) (fold_left foldDayLine lines []))
      by (subst kept; apply filter_In in Hin; tauto).
    destruct (dayData_invariant lines k d Hd) as (Hs & Ha).
    split; [exact (Hcount k d Hin)|]. split; [exact Ha|].
    change (List.length (map subjectText (firstn 5 (dd_subjects d)))
            = Nat.min 5 (dd_commits d)).
    rewrite length_map, length_firstn, Hs. reflexivity.
  - unfold bucketCommits. rewrite map_map. exact Htotal.
Qed.

(** X5.  [getCommitsByDay] makes one bucket for each distinct date of the
    log lines (a date spelled [__proto__] apart, which makes no property of
    the result): the bucket's [commits] is the number of lines of that
    date, at least 1; its [authors] is between 1 and [commits]; it keeps
    [min(5, commits)] subjects; and the commits of all buckets add up to
    the number of lines. *)
Theorem commits_by_day_buckets (execCommand : string -> string) (since : string) :
  let result := getCommitsByDay execCommand since in
  let dates := windowDates (execCommand (dayCommand since)) in
  NoDup (map fst result)
  /\ (forall date, In date (map fst result) <-> In date dates)
  /\ (forall date info, In (date, info) result ->
        d_commits info = frequency dates date
        /\ 1 <= frequency dates date
        /\ 1 <= d_authors info <= d_commits info
        /\ List.length (d_subjects info) = Nat.min 5 (d_commits info))
  /\ bucketCommits result = List.length dates.
Proof.
  cbn zeta. unfold getCommitsByDay.
  destruct (commitsByDay_facts (execCommand (dayCommand since)))
    as (Hnd & Hkeys & Hinfo & Htotal).
  cbn zeta in *. repeat split; try assumption; try apply Hkeys;
    try (now apply (Hinfo date info)).
  destruct (Hinfo date info H) as (Hc & Ha & _). lia.
Qed.

(** A window of three days and five commits. *)
Lemma commits_by_day_buckets_witness :
  bucketCommits (getCommitsByDay (fun _ => MoreSamples.dayLog) "7 days ago") = 5
  /\ map fst (getCommitsByDay (fun _ => MoreSamples.dayLog) "7 days ago")
     = ["2024-03-05"; "2024-03-04"; "2024-03-03"].
Proof.
  split; [|reflexivity].
  rewrite (proj2 (proj2 (proj2 (commits_by_day_buckets
                                  (fun _ => MoreSamples.dayLog) "7 days ago")))).
  reflexivity.
Defined.

(** X6.  [getCommitsByWeek] makes one bucket for each distinct week of the
    log lines: its [commits] is the number of lines of that week, at least
    1, its [authors] is between 1 and [commits], and the commits of all
    buckets add up to the number of lines. *)
Theorem commits_by_week_buckets (execCommand : string -> string) (since : string) :
  let result := getCommitsByWeek execCommand since in
  let weeks := windowDates (execCommand (weekCommand since)) in
  NoDup (map fst result)
  /\ (forall week, In week (map fst result) <-> In week weeks)
  /\ (forall week info, In (week, info) result ->
        w_commits info = frequency weeks week
        /\ 1 <= w_authors info <= w_commits info)
  /\ weekCommits result = List.length weeks.
Proof.
  cbn zeta. unfold getCommitsByWeek, commitsByWeek, windowDates.
  set (commits := execCommand (weekCommand since)).
  destruct (String.eqb commits "").
  { simpl. split; [constructor|]. split; [tauto|]. split; [intros ? ? []|reflexivity]. }
  set (lines := linesOf commits).
  destruct (KeyedFacts.buckets_without lineDate weekUpdate wd_commits weekUpdate_count
              lines "__proto__") as (Hnd & Hkeys & Hcount & Htotal).
  cbn zeta in Hnd, Hkeys, Hcount, Htotal.
  rewrite <- (KeyedFacts.fold_left_ext foldWeekLine _ foldWeekLine_upsert) in Hnd, Hkeys, Hcount, Htotal.
  change (fun e : string * WeekData => negb (String.eqb (fst e) "__proto__"))
    with (@ownKey WeekData) in *.
  set (kept := filter ownKey (fold_left foldWeekLine lines [])) in *.
  split; [now rewrite map_map|]. split; [|split].
  - intro week. rewrite map_map. apply Hkeys.
  - intros week info Hin. apply in_map_iff in Hin.
    destruct Hin as ([k d] & E & Hin). injection E as <- <-. cbn [fst snd].
    cbn [w_commits w_authors].
    assert (Hd : In (k, d) (fold_left foldWeekLine lines []))
      by (subst kept; apply filter_In in Hin; tauto).
    pose proof (weekData_invariant lines k d Hd) as Ha.
    split; [exact (Hcount k d Hin)|exact Ha].
  - unfold weekCommits. rewrite map_map. exact Htotal.
Qed.

(** Two weeks, three commits. *)
Lemma commits_by_week_buckets_witness :
  let log := ("2024-W10|Alice" ++ MoreSamples.nl ++ "2024-W10|Carol" ++ MoreSamples.nl
              ++ "2024-W09|Alice")%string in
  weekCommits (getCommitsByWeek (fun _ => log) "3 months ago") = 3
  /\ In ("2024-W10", mkWeekInfo 2 2) (getCommitsByWeek (fun _ => log) "3 months ago").
Proof.
  cbn zeta. split.
  - rewrite (proj2 (proj2 (proj2 (commits_by_week_buckets
      (fun _ => ("2024-W10|Alice" ++ MoreSamples.nl ++ "2024-W10|Carol" ++ MoreSamples.nl
                 ++ "2024-W09|Alice")%string) "3 months ago")))).
    reflexivity.
  - vm_compute. tauto.
Defined.

(** *** The hour and weekday arrays *)

Lemma bumpSlot_length i : forall l, List.length (bumpSlot i l) = List.length l.
Proof. induction i; intros [|x l]; simpl; auto. Qed.

Lemma bumpSlot_nth i : forall l h,
  nth h (bumpSlot i l) 0
  = nth h l 0 + (if (i =? h) && (i <? List.length l) then 1 else 0).
Proof.
  induction i as [|i IH]; intros [|x l] [|h]; simpl;
    rewrite ?andb_false_r; try lia.
  rewrite IH. reflexivity.
Qed.

Lemma bumpSlot_sum i : forall l,
  list_sum (bumpSlot i l) = list_sum l + (if i <? List.length l then 1 else 0).
Proof.
  induction i as [|i IH]; intros [|x l]; simpl; try lia.
  rewrite IH. change (S i <? S (List.length l)) with (i <? List.length l). lia.
Qed.

Lemma slotOf_bound n line k : slotOf (Z.of_nat n) line = Some k -> k < n.
Proof.
  unfold slotOf. destruct (JS.parseInt line) as [v|]; [|discriminate].
  destruct (Z.leb_spec 0 v); destruct (Z.ltb_spec v (Z.of_nat n)); simpl;
    try discriminate. intro Hk. injection Hk as <-. lia.
Qed.

Lemma foldSlotLine_slotOf n counts line :
  foldSlotLine n counts line
  = match slotOf n line with Some k => bumpSlot k counts | None => counts end.
Proof.
  unfold foldSlotLine, slotOf. destruct (JS.parseInt line); [|reflexivity].
  now destruct ((0 <=? z)%Z && (z <? n)%Z).
Qed.

Lemma fold_slots n lines : forall counts,
  List.length counts = n ->
  let r := fold_left (foldSlotLine (Z.of_nat n)) lines counts in
  List.length r = n
  /\ (forall h, nth h r 0
                = nth h counts 0 + List.length (filter (inSlot (Z.of_nat n) h) lines))
  /\ list_sum r
     = list_sum counts + List.length (filter (counted (Z.of_nat n)) lines).
Proof.
  induction lines as [|line lines IH]; intros counts Hlen; cbn zeta.
  - simpl. repeat split; auto; intros; lia.
  - cbn [fold_left]. rewrite foldSlotLine_slotOf.
    destruct (slotOf (Z.of_nat n) line) as [k|] eqn:Ek.
    + assert (Hin : forall h, inSlot (Z.of_nat n) h line = (k =? h))
        by (intro; unfold inSlot; now rewrite Ek).
      assert (Hc : counted (Z.of_nat n) line = true)
        by (unfold counted; now rewrite Ek).
      apply slotOf_bound in Ek.
      destruct (IH (bumpSlot k counts)) as (H1 & H2 & H3);
        [now rewrite bumpSlot_length|]. cbn zeta in *.
      split; [exact H1|]. split.
      * intro h. rewrite H2, bumpSlot_nth. rewrite Hlen. cbn [filter]. rewrite Hin.
        destruct (Nat.ltb_spec k n); [|lia].
        destruct (k =? h); simpl; lia.
      * rewrite H3, bumpSlot_sum, Hlen. cbn [filter]. rewrite Hc.
        destruct (Nat.ltb_spec k n); [|lia]. simpl. lia.
    + assert (Hin : forall h, inSlot (Z.of_nat n) h line = false)
        by (intro; unfold inSlot; now rewrite Ek).
      assert (Hc : counted (Z.of_nat n) line = false)
        by (unfold counted; now rewrite Ek).
      destruct (IH counts Hlen) as (H1 & H2 & H3). cbn zeta in *.
      split; [exact H1|]. split.
      * intro h. cbn [filter]. rewrite Hin. apply H2.
      * cbn [filter]. rewrite Hc. exact H3.
Qed.

Lemma list_sum_repeat0 n : list_sum (repeat 0 n) = 0.
Proof. induction n; simpl; auto. Qed.

Lemma slotCounts_facts n commits :
  let slots := slotCounts n commits in
  let lines := linesOf commits in
  List.length slots = n
  /\ (forall h, nth h slots 0 = List.length (filter (inSlot (Z.of_nat n) h) lines))
  /\ list_sum slots = List.length (filter (counted (Z.of_nat n)) lines)
  /\ list_sum slots <= List.length lines.
Proof.
  cbn zeta. unfold slotCounts.
  destruct (String.eqb_spec commits "") as [->|Hne].
  - rewrite repeat_length, list_sum_repeat0.
    split; [reflexivity|]. split; [|split; [reflexivity|simpl; lia]].
    intro h. rewrite nth_repeat. reflexivity.
  - destruct (fold_slots n (linesOf commits) (repeat 0 n) (repeat_length 0 n))
      as (H1 & H2 & H3). cbn zeta in *.
    rewrite list_sum_repeat0 in H3.
    split; [exact H1|]. split.
    + intro h. rewrite H2, nth_repeat. reflexivity.
    + split; [exact H3|]. rewrite H3. apply GitUtilsProps.filter_length_le.
Qed.

(** X7.  [getCommitsByHour] always returns 24 counters and
    [getCommitsByDayOfWeek] 7, also for an empty or malformed output; the
    counter of a slot is the number of output lines whose leading integer
    is that slot, and a line that is no integer or is out of range is
    counted nowhere, so the counters add up to the number of lines in
    range. *)
Theorem hour_and_weekday_slots (execCommand : string -> string) (since : string) :
  let hours := getCommitsByHour execCommand since in
  let hourLines := linesOf (execCommand (hourCommand since)) in
  let days := getCommitsByDayOfWeek execCommand since in
  let dayLines := linesOf (execCommand (dayOfWeekCommand since)) in
  (List.length hours = 24
   /\ (forall h, nth h hours 0 = List.length (filter (inSlot 24 h) hourLines))
   /\ list_sum hours = List.length (filter (counted 24) hourLines)
   /\ list_sum hours <= List.length hourLines)
  /\ (List.length days = 7
      /\ (forall d, nth d days 0 = List.length (filter (inSlot 7 d) dayLines))
      /\ list_sum days = List.length (filter (counted 7) dayLines)
      /\ list_sum days <= List.length dayLines).
Proof.
  cbn zeta. unfold getCommitsByHour, getCommitsByDayOfWeek. split.
  - exact (slotCounts_facts 24 (execCommand (hourCommand since))).
  - exact (slotCounts_facts 7 (execCommand (dayOfWeekCommand since))).
Qed.

(** Five lines: two at 7, one at 22, one that is no number, one out of
    range. *)
Lemma hour_and_weekday_slots_witness :
  nth 7 (getCommitsByHour (fun _ => MoreSamples.hourLog) "30 days ago") 0 = 2
  /\ list_sum (getCommitsByHour (fun _ => MoreSamples.hourLog) "30 days ago") = 3
  /\ List.length (getCommitsByDayOfWeek (fun _ => "") "30 days ago") = 7.
Proof.
  destruct (hour_and_weekday_slots (fun _ => MoreSamples.hourLog) "30 days ago")
    as ((_ & Hn & Hs & _) & _).
  destruct (hour_and_weekday_slots (fun _ => "") "30 days ago")
    as (_ & (Hl & _)).
  rewrite (Hn 7), Hs. split; [vm_compute; reflexivity|]. split; [vm_compute; reflexivity|exact Hl].
Defined.

(** *** Velocity of the day buckets *)

Lemma sumCommits_positive (l : list (string * DayInfo)) :
  l <> [] -> (forall e, In e l -> 1 <= d_commits (snd e)) ->
  1 <= sumCommits l.
Proof.
  rewrite VelocityProps.sumCommits_list_sum.
  destruct l as [|e l]; [congruence|]. intros _ H. simpl.
  specialize (H e (or_introl eq_refl)). lia.
Qed.

(** X8.  When the window has commits on two days or more, the velocity of
    the day buckets of [getCommitsByDay] splits all commits of the window:
    the two half sums add up to the number of log lines, the previous half
    has at least one commit, so [percentChange] is always the quotient
    formula (the fallback 0 is never taken), and [avgDaily] is the number
    of lines over the number of days. *)
Theorem velocity_of_day_buckets (execCommand : string -> string) (since : string) :
  let data := getCommitsByDay execCommand since in
  let dates := windowDates (execCommand (dayCommand since)) in
  let entries := sortedEntries data in
  let mid := Nat.div (List.length entries) 2 in
  let prev := sumCommits (firstn mid entries) in
  let curr := sumCommits (skipn mid entries) in
  2 <= List.length data ->
  prev + curr = List.length dates
  /\ 1 <= prev
  /\ percentChange (calculateVelocity data) = Some (percentOf prev curr)
  /\ divisors data = [Z.of_nat (List.length data); Z.of_nat prev]
  /\ avgDaily (calculateVelocity data)
     = AvgFixed (F64.toFixed1 (quotient (List.length dates) (List.length data))).
Proof.
  intros data dates entries mid prev curr Hlen.
  destruct (commitsByDay_facts (execCommand (dayCommand since)))
    as (_ & _ & Hinfo & Htotal).
  cbn zeta in Hinfo, Htotal. fold (getCommitsByDay execCommand since) in Hinfo, Htotal.
  fold data in Hinfo, Htotal. fold dates in Htotal.
  assert (Hle : List.length entries = List.length data)
    by apply VelocityProps.sortedEntries_length.
  assert (Hsum : prev + curr = List.length dates).
  { subst prev curr. rewrite VelocityProps.halves_commits.
    subst entries. now rewrite VelocityProps.sortedEntries_commits. }
  assert (Hprev : 1 <= prev).
  { subst prev. apply sumCommits_positive.
    - intro E. apply (f_equal (@List.length _)) in E. rewrite length_firstn in E.
      simpl in E. subst mid.
      assert (1 <= Nat.div (List.length entries) 2)
        by (apply Nat.div_le_lower_bound; lia).
      lia.
    - intros [k info] Hin. apply JSFacts.In_firstn in Hin.
      apply (Permutation_in _ (VelocityProps.sortedEntries_perm data)) in Hin.
      destruct (Hinfo k info Hin) as (_ & Ha & _). simpl. lia. }
  split; [exact Hsum|]. split; [exact Hprev|].
  unfold calculateVelocity, divisors.
  rewrite VelocityProps.velocity_eq by (fold entries; lia).
  fold entries. fold mid. fold prev. fold curr.
  destruct (Nat.ltb_spec 0 prev); [|lia].
  cbn [fst snd percentChange avgDaily]. rewrite Hle.
  split; [reflexivity|]. split; [reflexivity|].
  subst entries. rewrite VelocityProps.sortedEntries_commits, Htotal. reflexivity.
Qed.

(** Three days: one commit, then one, then three. *)
Lemma velocity_of_day_buckets_witness :
  let v := calculateVelocity (getCommitsByDay (fun _ => MoreSamples.dayLog) "7 days ago") in
  avgDaily v = AvgFixed "1.7" /\ trend v = Increasing.
Proof.
  cbn zeta.
  destruct (velocity_of_day_buckets (fun _ => MoreSamples.dayLog) "7 days ago")
    as (_ & _ & _ & _ & Havg).
  - vm_compute. lia.
  - rewrite Havg. split; vm_compute; reflexivity.
Defined.

End TimelineProps.

(** ** Rankings *)

Module RankingFacts.

Import ExtractKnowledge.

Section Desc.
Context {A : Type}.
Variable count : A -> nat.

Lemma descending_app l1 : forall l2,
  descending count (l1 ++ l2) ->
  forall x y, In x l1 -> In y l2 -> count y <= count x.
Proof.
  unfold descending. induction l1 as [|a l1 IH]; intros l2 H x y Hx Hy; [destruct Hx|].
  simpl in H. inversion H; subst. destruct Hx as [<-|Hx].
  - rewrite Forall_forall in H3. apply H3. apply in_or_app. now right.
  - now apply (IH l2).
Qed.

(** What the first [n] of a descending ranking leave out is no larger. *)
Lemma top_of_ranking n l x y :
  In x (firstn n (JS.sort (fun a b => count b <? count a) l)) ->
  In y l ->
  ~ In y (firstn n (JS.sort (fun a b => count b <? count a) l)) ->
  count y <= count x.
Proof.
  set (ranked := JS.sort (fun a b => count b <? count a) l).
  intros Hx Hy Hny.
  assert (Hr : In y ranked) by (now apply JSFacts.sort_In).
  rewrite <- (firstn_skipn n ranked) in Hr. apply in_app_or in Hr.
  destruct Hr as [Hr|Hr]; [contradiction|].
  apply (descending_app (firstn n ranked) (skipn n ranked)); auto.
  rewrite firstn_skipn. apply (JSFacts.sort_desc count).
Qed.

Lemma insertSorted_stable c x : forall l,
  filter (fun e => count e =? c) (JS.insertSorted (fun a b => count b <? count a) x l)
  = filter (fun e => count e =? c) (x :: l).
Proof.
  induction l as [|y l IH]; simpl; [reflexivity|].
  destruct (Nat.ltb_spec (count x) (count y)) as [Hlt|Hge]; [|reflexivity].
  simpl. rewrite IH. simpl.
  destruct (Nat.eqb_spec (count y) c); destruct (Nat.eqb_spec (count x) c);
    try reflexivity. lia.
Qed.

(** The sort keeps the order of the entries of equal count. *)
Lemma sort_stable c l :
  filter (fun e => count e =? c) (JS.sort (fun a b => count b <? count a) l)
  = filter (fun e => count e =? c) l.
Proof.
  induction l as [|x l IH]; [reflexivity|].
  unfold JS.sort in *. simpl fold_right. rewrite insertSorted_stable.
  simpl. now rewrite IH.
Qed.

End Desc.



End RankingFacts.

(** ** The hotspots of the timeline and the authors of the report *)

Module TopTenProps.

Import ExtractKnowledge CommitTimeline TimelineBuckets.



(** X10.  The report that [generateReport] writes has an [authors] array
    of [min(10, authors)] rows, one for each listed author with its name,
    email, commits and share of the total; the rows are in descending
    order of commits, each listed author is an entry of the author map, no
    author left out has more commits than one listed, and authors of equal
    commits keep the order of [Object.entries]. *)
Theorem report_authors_top_ten
    (repoName : string) (clock : nat -> string) (cs : list Commit)
    (totalCommits : nat) (ag : Aggregates) (files : list FileChange)
    (pats : CommitPatterns) (branches : BranchInsights) :
  let report := reportData repoName clock totalCommits ag files pats branches in
  generateReport repoName clock (mkStats cs totalCommits (Some ag)) files pats branches
  = JS.Ok (JSON.stringify report)
  /\ exists listed,
       JSON.member "authors" report
       = Some (JSON.Arr (map (authorRow totalCommits) listed))
       /\ List.length listed = Nat.min 10 (List.length (authors ag))
       /\ descending (fun e => a_commits (snd e)) listed
       /\ (forall e, In e listed -> In e (authors ag))
       /\ (forall e e', In e listed -> In e' (authors ag) -> ~ In e' listed ->
             a_commits (snd e') <= a_commits (snd e))
       /\ (exists ranking,
             listed = firstn 10 ranking
             /\ forall c, filter (fun e => a_commits (snd e) =? c) ranking
                          = filter (fun e => a_commits (snd e) =? c)
                                   (JS.entries (authors ag))).
Proof.
  cbn zeta. split; [reflexivity|].
  exists (sortedAuthors (authors ag)). split; [reflexivity|].
  unfold sortedAuthors.
  set (o := authors ag).
  set (count := fun e : string * AuthorEntry => a_commits (snd e)).
  split.
  { rewrite length_firstn.
    rewrite (Permutation_length (JSFacts.sort_perm _ _)).
    now rewrite (Permutation_length (JSFacts.entries_perm o)). }
  split; [apply JSFacts.firstn_desc, (JSFacts.sort_desc count)|].
  split.
  { intros e He. apply JSFacts.In_firstn, JSFacts.sort_In in He.
    now apply (Permutation_in _ (JSFacts.entries_perm o)). }
  split.
  { intros e e' He He' Hn. apply (RankingFacts.top_of_ranking count 10 (JS.entries o)).
    - exact He.
    - now apply (Permutation_in _ (Permutation_sym (JSFacts.entries_perm o))).
    - exact Hn. }
  eexists. split; [reflexivity|]. intro c. apply (RankingFacts.sort_stable count).
Qed.

(** Three authors of one commit each, one of them named by a number: the
    rows of the report start with that author. *)
Lemma report_authors_top_ten_witness :
  let ag := mkAggregates [("Carol", mkAuthorEntry "c@x" 1); ("Alice", mkAuthorEntry "a@x" 1);
                          ("7", mkAuthorEntry "s@x" 1)]
                         (mkPatterns 0 0 0 0 0 0 3) (mkTimeDistribution 0 0 0 3) in
  exists rows,
    JSON.member "authors" (reportData "repo" Samples.clockA 3 ag []
                                      (mkCommitPatterns [] []) (mkBranchInsights 1 1))
    = Some (JSON.Arr rows)
    /\ List.length rows = 3
    /\ nth 0 rows (JSON.Num 0)
       = JSON.Obj [("author", JSON.Str "7"); ("email", JSON.Str "s@x");
                   ("commits", JSON.Num 1); ("percentage", JSON.Str "33.3%")].
Proof.
  cbn zeta.
  destruct (report_authors_top_ten "repo" Samples.clockA [] 3
              (mkAggregates [("Carol", mkAuthorEntry "c@x" 1);
                             ("Alice", mkAuthorEntry "a@x" 1);
                             ("7", mkAuthorEntry "s@x" 1)]
                            (mkPatterns 0 0 0 0 0 0 3) (mkTimeDistribution 0 0 0 3))
              [] (mkCommitPatterns [] []) (mkBranchInsights 1 1))
    as (_ & listed & Hm & Hl & _).
  cbn zeta in Hm. eexists. split; [exact Hm|]. split.
  - rewrite length_map, Hl. reflexivity.
  - assert (E : Some (JSON.Arr (map (authorRow 3) listed))
                = Some (JSON.Arr (map (authorRow 3)
                                      [("7", mkAuthorEntry "s@x" 1);
                                       ("Carol", mkAuthorEntry "c@x" 1);
                                       ("Alice", mkAuthorEntry "a@x" 1)])))
      by (rewrite <- Hm; vm_compute; reflexivity).
    injection E as E. rewrite E. vm_compute. reflexivity.
Defined.

End TopTenProps.

(** ** The author statistics *)

Module AuthorStatsProps.

Import ExtractKnowledge AuthorPatterns AuthorAnalysis Keyed.

Section World.
Variable getHours : string -> JS.num.
Variable getDay : string -> JS.num.

Lemma foldLine_upsert authors line name email date subject rest :
  JS.split "|" line = name :: email :: date :: subject :: rest ->
  foldLine getHours getDay authors name email date subject
  = upsert authors (lineAuthor line) (lineUpdate getHours getDay line).
Proof.
  intro E. unfold foldLine, upsert, lineUpdate, lineAuthor, JS.has. rewrite E.
  cbn [nth]. destruct (JS.get authors name) as [a|] eqn:Ea.
  - rewrite Ea. reflexivity.
  - rewrite JSFacts.get_set_same. now rewrite KeyedFacts.set_set.
Qed.

(** A pass that does not throw is the keyed pass over the lines. *)
Lemma foldLines_fold lines : forall authors res,
  foldLines getHours getDay authors lines = JS.Ok res ->
  res = fold_left (fun m line => upsert m (lineAuthor line)
                                        (lineUpdate getHours getDay line))
                  lines authors.
Proof.
  induction lines as [|line lines IH]; intros authors res H; simpl in *.
  - now injection H as <-.
  - destruct (JS.split "|" line) as [|name [|email [|date [|subject rest]]]] eqn:E;
      try discriminate H.
    rewrite <- (foldLine_upsert authors line name email date subject rest E).
    now apply IH.
Qed.

Lemma lineUpdate_count line o :
  s_commits (lineUpdate getHours getDay line o) = S (countOf s_commits o).
Proof. destruct o; reflexivity. Qed.

Lemma bumpAt_length i : forall l, List.length (bumpAt i l) = List.length l.
Proof. induction i; intros [|x l]; simpl; auto. Qed.

Lemma bumpAt_sum i : forall l, list_sum (bumpAt i l) <= S (list_sum l).
Proof.
  induction i as [|i IH]; intros [|x l]; simpl; try lia.
  specialize (IH l). lia.
Qed.

Lemma bumpDay_facts d l :
  List.length (bumpDay d l) = List.length l
  /\ list_sum (bumpDay d l) <= S (list_sum l).
Proof.
  unfold bumpDay. destruct d as [v|]; [|lia].
  destruct (0 <=? v)%Z; [|lia].
  split; [apply bumpAt_length|apply bumpAt_sum].
Qed.

Lemma strLt_irrefl a : JS.strLt a a = false.
Proof.
  destruct (JS.strLt a a) eqn:E; [|reflexivity].
  now rewrite (JSFacts.strLt_asym a a E) in E.
Qed.

Lemma lineUpdate_consistent line o :
  (forall a, o = Some a -> consistent a) ->
  consistent (lineUpdate getHours getDay line o).
Proof.
  intro Ho. unfold lineUpdate. cbv zeta.
  set (date := nth 2 (JS.split "|" line) "").
  set (email := nth 1 (JS.split "|" line) "").
  assert (Ha : forall a, consistent a \/ a = newAuthor email date ->
    consistent
      (mkAuthorStats (s_email a) (S (s_commits a))
         (if JS.strLt date (s_firstCommit a) then date else s_firstCommit a)
         (if JS.strLt (s_lastCommit a) date then date else s_lastCommit a)
         (s_commitHours a ++ [getHours date])
         (bumpDay (getDay date) (s_commitDays a))
         (bumpPattern (classify (nth 3 (JS.split "|" line) "")) (s_patterns a))
         (s_avgMessageLength a)
         (s_totalMessageLength a + JS.length (nth 3 (JS.split "|" line) "")))).
  { intros a Hc. unfold consistent.
    cbn [s_commits s_commitHours s_patterns s_commitDays s_lastCommit s_firstCommit].
    destruct (bumpDay_facts (getDay date) (s_commitDays a)) as (Hl & Hs).
    rewrite length_app, CommitStatsProps.patternSum_bump, Hl. cbn [List.length].
    assert (Hrest : List.length (s_commitHours a) = s_commits a
                    /\ patternSum (s_patterns a) = s_commits a
                    /\ List.length (s_commitDays a) = 7
                    /\ list_sum (s_commitDays a) <= s_commits a
                    /\ JS.strLt (s_lastCommit a) (s_firstCommit a) = false).
    { destruct Hc as [Hc| ->]; [unfold consistent in Hc; tauto|].
      cbn. rewrite strLt_irrefl. repeat split; lia. }
    destruct Hrest as (H1 & H2 & H3 & H4 & H5).
    repeat split; try lia.
    destruct (JS.strLt date (s_firstCommit a)) eqn:E1;
      destruct (JS.strLt (s_lastCommit a) date) eqn:E2;
      auto using strLt_irrefl. }
  destruct o as [a|]; apply Ha; [left; now apply Ho|now right].
Qed.

Lemma consistent_setAverage a : consistent a -> consistent (setAverage a).
Proof. unfold consistent, setAverage. cbn. tauto. Qed.

(** The authors of a log that is parsed without a throw. *)
Lemma authorStats_invariants logData allAuthors :
  authorStats getHours getDay logData = JS.Ok allAuthors ->
  (forall name a, In (name, a) allAuthors ->
     consistent a
     /\ s_avgMessageLength a
        = AvgString (F64.toFixed1
                       (F64.div (F64.ofZ (Z.of_nat (s_totalMessageLength a)))
                                (F64.ofZ (Z.of_nat (s_commits a))))))
  /\ total s_commits allAuthors = List.length (logLinesOf logData).
Proof.
  unfold authorStats, logLinesOf. destruct (String.eqb logData "").
  - intro H. injection H as <-. split; [intros ? ? []|reflexivity].
  - set (lines := JS.split _ _).
    destruct (foldLines getHours getDay [] lines) as [res|] eqn:E; [|discriminate].
    intro H. injection H as <-. apply foldLines_fold in E. split.
    + intros name a Hin. apply in_map_iff in Hin.
      destruct Hin as ([k b] & Eq & Hin). injection Eq as <- <-. cbn [fst snd].
      split; [|reflexivity].
      apply consistent_setAverage. subst res.
      apply (KeyedFacts.fold_invariant lineAuthor (lineUpdate getHours getDay)
               consistent lineUpdate_consistent lines [] (fun _ _ H => match H with end)
               k b Hin).
    + unfold total. rewrite map_map. cbn [snd setAverage s_commits].
      change (total s_commits res = List.length lines). subst res.
      now rewrite (KeyedFacts.fold_total lineAuthor (lineUpdate getHours getDay)
                     s_commits lineUpdate_count lines []).
Qed.

Lemma find_present {A} (f : A -> bool) l x :
  In x l -> f x = true -> exists y, find f l = Some y.
Proof.
  induction l as [|z l IH]; intros Hin Hf; [destruct Hin|]. simpl.
  destruct (f z) eqn:E; [now exists z|].
  destruct Hin as [->|Hin]; [congruence|auto].
Qed.

End World.

(** X11.  On a well-formed log [getAuthorStats] returns, and for every
    author of its result the counters agree: [commits] is at least 1 and
    is the number of recorded commit hours and the sum of the seven pattern
    counters; the weekday array has seven slots whose sum is at most
    [commits]; [firstCommit] is not after [lastCommit] in the string order;
    [avgMessageLength] is the text [toFixed(1)] gives for the total
    message length over [commits].  The commits of all authors add up to
    the number of log lines. *)
Theorem author_stats_consistent
    (execCommand : string -> string) (getHours getDay : string -> JS.num)
    (since : string) :
  let logData := execCommand (statsCommand since) in
  wellFormedLog logData = true ->
  exists allAuthors,
    getAuthorStats execCommand getHours getDay since = JS.Ok allAuthors
    /\ (forall name a, In (name, a) allAuthors ->
          consistent a
          /\ s_avgMessageLength a
             = AvgString (F64.toFixed1
                            (F64.div (F64.ofZ (Z.of_nat (s_totalMessageLength a)))
                                     (F64.ofZ (Z.of_nat (s_commits a))))))
    /\ total s_commits allAuthors = List.length (logLinesOf logData).
Proof.
  intros logData Hwf.
  destruct (AuthorProps.authorStats_total getHours getDay logData Hwf)
    as [allAuthors Hok].
  exists allAuthors. split; [exact Hok|].
  exact (authorStats_invariants getHours getDay logData allAuthors Hok).
Qed.

(** Carol with one commit and Alice with two. *)
Lemma author_stats_consistent_witness :
  exists allAuthors,
    getAuthorStats (fun _ => Samples.twoAuthorsLog) Samples.isoHours Samples.noDay
                   "6 months ago" = JS.Ok allAuthors
    /\ total s_commits allAuthors = 3.
Proof.
  destruct (author_stats_consistent (fun _ => Samples.twoAuthorsLog)
              Samples.isoHours Samples.noDay "6 months ago")
    as (allAuthors & Hok & _ & Ht).
  - vm_compute. reflexivity.
  - exists allAuthors. split; [exact Hok|]. rewrite Ht. reflexivity.
Defined.

(** X12.  On a well-formed log, a request for a name that is an author of
    the history displays the analysis of that author: the statistics shown
    are those of the name, with the number of its log lines as commit
    count. *)
Theorem known_author_displayed
    (execCommand : string -> string) (getHours getDay : string -> JS.num)
    (authorName since : string) :
  let logData := execCommand (statsCommand since) in
  wellFormedLog logData = true ->
  In authorName (historyAuthors logData) ->
  exists target,
    displayAuthorAnalysis execCommand getHours getDay authorName since
    = Displayed authorName target
    /\ s_commits target = frequency (historyAuthors logData) authorName
    /\ consistent target.
Proof.
  intros logData Hwf Hknown.
  destruct (AuthorProps.authorStats_total getHours getDay logData Hwf)
    as [allAuthors Hok].
  destruct (AuthorProps.authorStats_known getHours getDay logData allAuthors Hok)
    as (Hnd & Hentries & Hall).
  destruct (authorStats_invariants getHours getDay logData allAuthors Hok) as (Hcons & _).
  assert (Hperm : Permutation (rankedAuthors allAuthors) allAuthors).
  { unfold rankedAuthors. rewrite JSFacts.sort_perm. apply JSFacts.entries_perm. }
  apply Hall in Hknown. apply in_map_iff in Hknown.
  destruct Hknown as ([n a] & En & Hin). simpl in En. subst n.
  destruct (find_present (fun e : string * AuthorStats => String.eqb (fst e) authorName)
              (rankedAuthors allAuthors) (authorName, a)) as [[n target] Hfind].
  { now apply (Permutation_in _ (Permutation_sym Hperm)). }
  { apply String.eqb_refl. }
  exists target.
  pose proof (find_some _ _ Hfind) as [Hin' Hname]. simpl in Hname.
  apply String.eqb_eq in Hname. subst n.
  apply (Permutation_in _ Hperm) in Hin'.
  split.
  - unfold displayAuthorAnalysis, getAuthorStats. fold logData. rewrite Hok.
    unfold findAuthor. rewrite Hfind. reflexivity.
  - split; [apply (Hentries authorName target Hin')|apply (Hcons authorName target Hin')].
Qed.

(** The request for Alice, who has two commits. *)
Lemma known_author_displayed_witness :
  exists target,
    displayAuthorAnalysis (fun _ => Samples.twoAuthorsLog) Samples.isoHours Samples.noDay
                          "Alice" "6 months ago"
    = Displayed "Alice" target
    /\ s_commits target = 2.
Proof.
  destruct (known_author_displayed (fun _ => Samples.twoAuthorsLog)
              Samples.isoHours Samples.noDay "Alice" "6 months ago")
    as (target & Hd & Hc & _).
  - vm_compute. reflexivity.
  - vm_compute. tauto.
  - exists target. split; [exact Hd|]. rewrite Hc. reflexivity.
Defined.

End AuthorStatsProps.

(** ** Tallies: file authors, collaborators and the keyword ranking *)

Module TallyProps.

Import ExtractKnowledge Keyed FileHistory AuthorAnalysis.

Lemma has_existsb {V} (m : JS.assoc V) k :
  JS.has m k = existsb (String.eqb k) (map fst m).
Proof.
  unfold JS.has. induction m as [|[k' v] m IH]; simpl; [reflexivity|].
  rewrite (String.eqb_sym k k'). destruct (String.eqb k' k); [reflexivity|exact IH].
Qed.

(** The keys of a tally are the kept keys in the order they are first
    seen. *)
Lemma tally_keys keep keys : forall m,
  map fst (tally keep keys m)
  = map fst m ++ firstSeen (map fst m) (filter keep keys).
Proof.
  unfold tally. induction keys as [|k keys IH]; intro m; simpl.
  - now rewrite app_nil_r.
  - destruct (keep k); [|apply IH]. rewrite IH. unfold countUp.
    rewrite JSFacts.keys_set, has_existsb. simpl.
    destruct (existsb (String.eqb k) (map fst m)); [reflexivity|].
    now rewrite <- app_assoc.
Qed.

Lemma entries_of_keys (f : string -> nat) (l : list (string * nat)) :
  (forall k n, In (k, n) l -> n = f k) ->
  l = map (fun k => (k, f k)) (map fst l).
Proof.
  induction l as [|[k n] l IH]; intro H; simpl; [reflexivity|].
  rewrite <- IH by (intros k' n' Hin; apply H; now right).
  now rewrite <- (H k n (or_introl eq_refl)).
Qed.

(** A tally from the empty map: each kept key once, in first-seen order,
    with its frequency. *)
Lemma tally_entries keep keys :
  tally keep keys []
  = map (withFrequency (filter keep keys)) (firstSeen [] (filter keep keys)).
Proof.
  pose proof (tally_keys keep keys []) as Hk. simpl in Hk. rewrite <- Hk.
  apply (entries_of_keys (frequency (filter keep keys))).
  intros k n Hin. destruct (PatternMiningProps.tally_entry keep keys k n Hin)
    as (Hkeep & _ & Hn & _).
  now rewrite PatternMiningProps.frequency_filter, Hkeep.
Qed.

Lemma tally_total keep keys :
  total (fun n => n) (tally keep keys []) = List.length (filter keep keys).
Proof.
  assert (E : forall l m,
    tally keep l m
    = fold_left (fun m k => upsert m k (fun o => countOf (fun n => n) o + 1))
                (filter keep l) m).
  { unfold tally. induction l as [|k l IH]; intro m; simpl; [reflexivity|].
    destruct (keep k); simpl; rewrite IH; reflexivity. }
  rewrite E.
  rewrite (KeyedFacts.fold_total (fun k => k)
             (fun (_ : string) o => countOf (fun n => n) o + 1) (fun n => n)).
  - reflexivity.
  - intros x o. lia.
Qed.

(** *** getFileAuthors *)

Lemma blame_fold lines : forall m,
  fold_left foldBlameLine lines m
  = tally (fun _ => true)
          (map (sliceFrom 7) (filter (fun line => JS.startsWith line "author ") lines)) m.
Proof.
  unfold tally. induction lines as [|line lines IH]; intro m; simpl; [reflexivity|].
  rewrite IH. unfold foldBlameLine.
  destruct (JS.startsWith line "author "); reflexivity.
Qed.

(** X13.  [getFileAuthors] lists each author named by an [author] line of
    the blame once, with the number of such lines as line count, at least
    1, in descending order of line count, authors of equal count in the
    order they first appear; the line counts add up to the number of
    [author] lines, and an empty blame gives the empty list. *)
Theorem file_authors_count_lines (execCommand : string -> string) (filePath : string) :
  let names := blameAuthors (execCommand (blameCommand filePath)) in
  let authors := getFileAuthors execCommand filePath in
  NoDup (map fst authors)
  /\ (forall a n, In (a, n) authors -> n = frequency names a /\ 1 <= n)
  /\ (forall a, In a names -> In (a, frequency names a) authors)
  /\ descending snd authors
  /\ (forall c, filter (fun e => snd e =? c) authors
                = filter (fun e => snd e =? c)
                         (map (withFrequency names) (firstSeen [] names)))
  /\ list_sum (map snd authors) = List.length names.
Proof.
  cbn zeta. unfold getFileAuthors, fileAuthors, blameAuthors.
  set (blame := execCommand (blameCommand filePath)).
  destruct (String.eqb_spec blame "") as [->|Hne].
  { simpl. split; [constructor|]. split; [intros ? ? []|]. split; [intros ? []|].
    split; [constructor|]. split; [reflexivity|reflexivity]. }
  rewrite blame_fold.
  set (names := map (sliceFrom 7) _).
  set (counts := tally (fun _ => true) names []).
  assert (Hperm : Permutation (JS.sort (fun a b => snd b <? snd a) counts) counts)
    by apply JSFacts.sort_perm.
  assert (Hf : filter (fun _ : string => true) names = names)
    by (apply GitUtilsProps.filter_id; reflexivity).
  split.
  { apply (Permutation_NoDup (Permutation_map fst (Permutation_sym Hperm))).
    apply PatternMiningProps.NoDup_tally. constructor. }
  split.
  { intros a n Hin. apply (Permutation_in _ Hperm) in Hin.
    destruct (PatternMiningProps.tally_entry (fun _ => true) names a n Hin)
      as (_ & _ & Hn & Hpos).
    split; [exact Hn|lia]. }
  split.
  { intros a Hin. apply (Permutation_in _ (Permutation_sym Hperm)).
    now apply (PatternMiningProps.tally_complete (fun _ => true) names a). }
  split; [apply (JSFacts.sort_desc snd)|].
  split.
  { intro c. rewrite (RankingFacts.sort_stable snd). subst counts.
    now rewrite tally_entries, Hf. }
  rewrite (VelocityProps.list_sum_perm _ _ (Permutation_map snd Hperm)).
  pose proof (tally_total (fun _ => true) names) as Ht. unfold total in Ht.
  now rewrite Hf in Ht.
Qed.

(** A blame of three attributed lines. *)
Lemma file_authors_count_lines_witness :
  getFileAuthors (fun _ => MoreSamples.blame) "src/index.js"
  = [("Alice", 2); ("Carol", 1)]
  /\ In ("Alice", 2) (getFileAuthors (fun _ => MoreSamples.blame) "src/index.js").
Proof.
  split; [reflexivity|].
  apply (proj1 (proj2 (proj2 (file_authors_count_lines
                                (fun _ => MoreSamples.blame) "src/index.js")))
           "Alice").
  vm_compute. tauto.
Defined.

(** *** getAuthorCollaboration *)

Section Collaboration.
Variable execCommand : string -> string.

Lemma hash_fold authorName hashes : forall m,
  fold_left (foldHash execCommand authorName) hashes m
  = tally (fun a => negb (String.eqb a authorName))
          (adjacentAuthors execCommand hashes) m.
Proof.
  induction hashes as [|hash hashes IH]; intro m; [reflexivity|].
  cbn [fold_left adjacentAuthors flat_map]. rewrite IH.
  rewrite PatternMiningProps.tally_app. f_equal.
  unfold foldHash. cbv zeta.
  destruct (String.eqb (execCommand (adjacentCommand hash)) ""); [reflexivity|].
  unfold tally. apply KeyedFacts.fold_left_ext. intros a b.
  now destruct (String.eqb b authorName).
Qed.

Lemma NoDup_firstn {A} n : forall l : list A, NoDup l -> NoDup (firstn n l).
Proof.
  induction n as [|n IH]; intros [|x l] H; simpl; try constructor.
  - inversion H; subst. intro Hin. apply H2. now apply JSFacts.In_firstn in Hin.
  - inversion H; subst. auto.
Qed.

End Collaboration.

(** X14.  [getAuthorCollaboration] never lists the focal author: it lists
    at most ten other names, each once, with the number of times the
    adjacent-range queries of the focal author's commits returned that
    name, at least 1, in descending order of that number; no other name
    the queries returned has a larger number than one listed. *)
Theorem collaborators_exclude_focal_author
    (execCommand : string -> string) (authorName : string) :
  let hashes := logLinesOf (execCommand (hashesCommand authorName)) in
  let seen := adjacentAuthors execCommand hashes in
  let listed := getAuthorCollaboration execCommand authorName in
  ~ In authorName (map fst listed)
  /\ List.length listed <= 10
  /\ NoDup (map fst listed)
  /\ descending snd listed
  /\ (forall a n, In (a, n) listed ->
        n = frequency seen a /\ 1 <= n /\ In a seen)
  /\ (forall a n b, In (a, n) listed -> In b seen -> b <> authorName ->
        ~ In b (map fst listed) -> frequency seen b <= n).
Proof.
  cbn zeta. unfold getAuthorCollaboration, logLinesOf.
  set (commits := execCommand (hashesCommand authorName)).
  destruct (String.eqb commits "").
  { simpl. split; [tauto|]. split; [lia|]. split; [constructor|].
    split; [constructor|]. split; [intros ? ? []|intros ? ? ? []]. }
  set (hashes := JS.split (ascii_of_nat 10) (JS.trim commits)).
  rewrite hash_fold.
  set (seen := adjacentAuthors execCommand hashes).
  set (keep := fun a => negb (String.eqb a authorName)).
  set (counts := tally keep seen []).
  set (ranked := JS.sort (fun a b : string * nat => snd b <? snd a) counts).
  assert (Hperm : Permutation ranked counts) by apply JSFacts.sort_perm.
  assert (Hentry : forall a n, In (a, n) (firstn 10 ranked) ->
            keep a = true /\ In a seen /\ n = frequency seen a /\ 0 < n).
  { intros a n Hin. apply JSFacts.In_firstn in Hin.
    apply (Permutation_in _ Hperm) in Hin.
    exact (PatternMiningProps.tally_entry keep seen a n Hin). }
  split.
  { intro Hin. apply in_map_iff in Hin. destruct Hin as ([a n] & E & Hin).
    simpl in E. subst a. destruct (Hentry _ _ Hin) as (Hk & _).
    unfold keep in Hk. now rewrite String.eqb_refl in Hk. }
  split; [apply firstn_le_length|].
  split.
  { rewrite <- firstn_map. apply NoDup_firstn.
    apply (Permutation_NoDup (Permutation_map fst (Permutation_sym Hperm))).
    apply PatternMiningProps.NoDup_tally. constructor. }
  split; [apply JSFacts.firstn_desc, (JSFacts.sort_desc snd)|].
  split.
  { intros a n Hin. destruct (Hentry a n Hin) as (_ & Hs & Hn & Hp).
    repeat split; [exact Hn|lia|exact Hs]. }
  intros a n b Hin Hb Hne Hnot.
  assert (Hc : In (b, frequency seen b) counts).
  { apply (PatternMiningProps.tally_complete keep seen b Hb).
    unfold keep. apply negb_true_iff. now apply String.eqb_neq. }
  apply (RankingFacts.top_of_ranking snd 10 counts (a, n) (b, frequency seen b)).
  - exact Hin.
  - exact Hc.
  - intro H. apply Hnot. change b with (fst (b, frequency seen b)). now apply in_map.
Qed.

(** Two commits of Alice next to Alice and Carol, and to Carol. *)
Lemma collaborators_exclude_focal_author_witness :
  getAuthorCollaboration MoreSamples.collabWorld "Alice" = [("Carol", 2)]
  /\ ~ In "Alice" (map fst (getAuthorCollaboration MoreSamples.collabWorld "Alice")).
Proof.
  split; [reflexivity|].
  exact (proj1 (collaborators_exclude_focal_author MoreSamples.collabWorld "Alice")).
Defined.

(** *** The keyword ranking *)

(** X15.  The keyword ranking of [getCommitPatterns] breaks ties by first
    occurrence: it is the first 20 of the sorted list of the long words
    that are no stop words, each with its frequency, and the sort leaves
    the words of any one frequency in the order in which they first occur
    in the subjects; the phrase ranking is the first 15 of such a ranking
    of the repeated phrases. *)
Theorem keyword_ties_first_seen (execCommand : string -> string) :
  let msgs := messageList (execCommand messagesCommand) in
  let words := filter longWord (flat_map tokensOf msgs) in
  let phrases := filter longPhrase (map phraseOf msgs) in
  let wordEntries :=
    filter notStopWord (map (withFrequency words) (firstSeen [] words)) in
  let phraseEntries :=
    filter (fun e => 1 <? snd e) (map (withFrequency phrases) (firstSeen [] phrases)) in
  let r := getCommitPatterns execCommand in
  commonWords r = firstn 20 (byCountDesc wordEntries)
  /\ (forall c, filter (fun e => snd e =? c) (byCountDesc wordEntries)
                = filter (fun e => snd e =? c) wordEntries)
  /\ commonPhrases r = firstn 15 (byCountDesc phraseEntries)
  /\ (forall c, filter (fun e => snd e =? c) (byCountDesc phraseEntries)
                = filter (fun e => snd e =? c) phraseEntries).
Proof.
  cbn zeta. unfold getCommitPatterns.
  set (messages := execCommand messagesCommand).
  assert (Hs : forall l c, filter (fun e : string * nat => snd e =? c) (byCountDesc l)
                           = filter (fun e => snd e =? c) l)
    by (intros l c; apply (RankingFacts.sort_stable snd)).
  destruct (String.eqb_spec messages "") as [E|Hne].
  - rewrite E. change (commitPatterns "") with (mkCommitPatterns [] []).
    split; [reflexivity|]. split; [apply Hs|]. split; [reflexivity|apply Hs].
  - rewrite (PatternMiningProps.commitPatterns_eq messages Hne).
    cbn [commonWords commonPhrases]. rewrite !tally_entries.
    split; [reflexivity|]. split; [apply Hs|]. split; [reflexivity|apply Hs].
Qed.

(** Words of frequency one stay in the order of the subjects. *)
Lemma keyword_ties_first_seen_witness :
  commonWords (getCommitPatterns
                 (fun _ => ("Zèbre alpha" ++ Samples.nl ++ "milieu ALPHA")%string))
  = [("alpha", 2); ("zèbre", 1); ("milieu", 1)].
Proof.
  rewrite (proj1 (keyword_ties_first_seen
                    (fun _ => ("Zèbre alpha" ++ Samples.nl ++ "milieu ALPHA")%string))).
  vm_compute. reflexivity.
Defined.

End TallyProps.

(** ** The author map of getCommitStats *)

Module AuthorMapProps.

Import ExtractKnowledge AuthorAnalysis Keyed.

Lemma entry_eta e n : n = a_commits e -> mkAuthorEntry (a_email e) n = e.
Proof. intros ->. now destruct e. Qed.

Lemma get_bumpAuthor author email o name :
  JS.get (bumpAuthor author email o) name
  = if String.eqb author name
    then match JS.get o name with
         | Some e => Some (mkAuthorEntry (a_email e) (S (a_commits e)))
         | None => if JS.inherited name then None else Some (mkAuthorEntry email 1)
         end
    else JS.get o name.
Proof.
  unfold bumpAuthor. destruct (String.eqb_spec author name) as [->|Hne].
  - destruct (JS.get o name) as [e|] eqn:E.
    + apply JSFacts.get_set_same.
    + destruct (JS.inherited name); [exact E|apply JSFacts.get_set_same].
  - destruct (JS.get o author) as [e|].
    + now apply JSFacts.get_set_other.
    + destruct (JS.inherited author); [reflexivity|now apply JSFacts.get_set_other].
Qed.

(** The entry of a name after a pass over commits. *)
Lemma authors_get cs : forall o name,
  JS.get (fold_left (fun o c => bumpAuthor (c_author c) (c_email c) o) cs o) name
  = match JS.get o name with
    | Some e => Some (mkAuthorEntry (a_email e)
                                    (a_commits e + frequency (map c_author cs) name))
    | None => authorEntryOf cs name
    end.
Proof.
  unfold authorEntryOf, frequency.
  induction cs as [|c cs IH]; intros o name.
  - simpl. destruct (JS.get o name) as [e|].
    + f_equal. symmetry. apply entry_eta. lia.
    + now destruct (JS.inherited name).
  - cbn [fold_left map count_occ find]. rewrite IH, get_bumpAuthor.
    destruct (string_dec (c_author c) name) as [E|Hne].
    + rewrite E, String.eqb_refl.
      destruct (JS.get o name) as [e|].
      * cbn [a_email a_commits]. f_equal. f_equal. lia.
      * destruct (JS.inherited name); reflexivity.
    + destruct (String.eqb_spec (c_author c) name); [contradiction|].
      reflexivity.
Qed.

Lemma NoDup_bumpAuthor author email o :
  NoDup (map fst o) -> NoDup (map fst (bumpAuthor author email o)).
Proof.
  intro H. unfold bumpAuthor. destruct (JS.get o author).
  - now apply JSFacts.NoDup_set.
  - destruct (JS.inherited author); [exact H|now apply JSFacts.NoDup_set].
Qed.

Lemma authors_NoDup cs : forall o,
  NoDup (map fst o) ->
  NoDup (map fst (fold_left (fun o c => bumpAuthor (c_author c) (c_email c) o) cs o)).
Proof.
  induction cs as [|c cs IH]; intros o H; simpl; [exact H|].
  apply IH. now apply NoDup_bumpAuthor.
Qed.

(** The commits of all entries, for a map without inherited names. *)
Lemma authors_total cs : forall o,
  (forall k, In k (map fst o) -> JS.inherited k = false) ->
  (forall k, In k (map fst (fold_left (fun o c => bumpAuthor (c_author c) (c_email c) o)
                                      cs o)) ->
             JS.inherited k = false)
  /\ total a_commits (fold_left (fun o c => bumpAuthor (c_author c) (c_email c) o) cs o)
     = total a_commits o + List.length (countedCommits cs).
Proof.
  unfold countedCommits.
  induction cs as [|c cs IH]; intros o Ho; cbn [fold_left filter].
  - split; [exact Ho|simpl; lia].
  - assert (Hstep :
      (forall k, In k (map fst (bumpAuthor (c_author c) (c_email c) o)) ->
                 JS.inherited k = false)
      /\ total a_commits (bumpAuthor (c_author c) (c_email c) o)
         = total a_commits o
           + (if negb (JS.inherited (c_author c)) then 1 else 0)).
    { unfold bumpAuthor. destruct (JS.get o (c_author c)) as [e|] eqn:E.
      - assert (Hi : JS.inherited (c_author c) = false).
        { apply Ho. apply JSFacts.get_In in E.
          change (c_author c) with (fst (c_author c, e)). now apply in_map. }
        split.
        + intros k Hk. apply KeyedFacts.keys_set_in in Hk.
          destruct Hk as [->|Hk]; auto.
        + pose proof (KeyedFacts.total_set a_commits o (c_author c)
                        (mkAuthorEntry (a_email e) (S (a_commits e)))) as Ht.
          rewrite E in Ht. simpl in Ht. rewrite Hi. simpl. lia.
      - destruct (JS.inherited (c_author c)) eqn:Ei.
        + split; [exact Ho|simpl; lia].
        + split.
          * intros k Hk. apply KeyedFacts.keys_set_in in Hk.
            destruct Hk as [->|Hk]; auto.
          * pose proof (KeyedFacts.total_set a_commits o (c_author c)
                          (mkAuthorEntry (c_email c) 1)) as Ht.
            rewrite E in Ht. simpl in Ht. simpl. lia. }
    destruct Hstep as (Hk & Ht).
    destruct (IH _ Hk) as (Hk' & Ht'). split; [exact Hk'|].
    rewrite Ht', Ht. destruct (negb (JS.inherited (c_author c))); simpl; lia.
Qed.

(** X16.  The author map of [getCommitStats] has one entry for each author
    name of the folded commits that is not a name every object inherits
    ([constructor], [toString], ...): the entry carries the email of the
    name's first folded commit, whatever emails its later commits have, and
    the number of its folded commits.  Commits under an inherited name are
    in no entry, so the entries add up to the folded commits without
    them. *)
Theorem commit_stats_author_map
    (execCommand : string -> string) (getHours : string -> JS.num) (since : string) :
  let out := execCommand (logCommand since) in
  let folded := firstn MAX_COMMITS (map destructure (GitUtils.parseGitLog out logFields)) in
  out <> "" ->
  exists ag,
    aggregates (getCommitStats execCommand getHours since) = Some ag
    /\ NoDup (map fst (authors ag))
    /\ (forall name, JS.get (authors ag) name = authorEntryOf folded name)
    /\ total a_commits (authors ag) = List.length (countedCommits folded)
    /\ total a_commits (authors ag) <= List.length folded.
Proof.
  intros out folded Hne. unfold getCommitStats. fold out.
  rewrite (CommitStatsProps.commitStats_nonempty getHours out Hne). cbn [aggregates].
  eexists. split; [reflexivity|].
  destruct (CommitStatsProps.fold_commits getHours
              (firstn MAX_COMMITS (GitUtils.parseGitLog out logFields))
              [] emptyAggregates) as (_ & _ & _ & _ & _ & Ha).
  cbn zeta in Ha. rewrite Ha. rewrite <- firstn_map. fold folded.
  change (authors emptyAggregates) with (@nil (string * AuthorEntry)).
  destruct (authors_total folded []) as (_ & Ht); [intros k []|].
  split; [apply authors_NoDup; constructor|].
  split; [intro name; now rewrite authors_get|].
  split; [exact Ht|]. rewrite Ht. apply GitUtilsProps.filter_length_le.
Qed.

(** Two commits of one name under two emails, and one of the name
    [constructor]. *)
Lemma commit_stats_author_map_witness :
  let log := ("a1|Ann|ann@old|d|fix: a" ++ Samples.nl ++ "b2|constructor|c@x|d|x"
              ++ Samples.nl ++ "c3|Ann|ann@new|d|feat: b")%string in
  exists ag,
    aggregates (getCommitStats (fun _ => log) Samples.isoHours "6 months ago") = Some ag
    /\ authors ag = [("Ann", mkAuthorEntry "ann@old" 2)].
Proof.
  cbn zeta.
  destruct (commit_stats_author_map
              (fun _ => ("a1|Ann|ann@old|d|fix: a" ++ Samples.nl ++ "b2|constructor|c@x|d|x"
                         ++ Samples.nl ++ "c3|Ann|ann@new|d|feat: b")%string)
              Samples.isoHours "6 months ago") as (ag & Hag & _).
  - vm_compute. discriminate.
  - exists ag. split; [exact Hag|].
    vm_compute in Hag. injection Hag as <-. reflexivity.
Defined.

End AuthorMapProps.

(** ** The cap on the folded commits *)

Module CapProps.

Import ExtractKnowledge AuthorAnalysis.

(** C10.  For a non-empty log, [total] is the number of parsed commits,
    while [commits], the author map, the category counters and the
    time-of-day counters are those of the first [MAX_COMMITS = 1000] parsed
    commits only: the entry of a name carries the email of its first folded
    commit and the number of its folded commits, each counter is the number
    of folded commits of its category or period, and a log that has the
    same first 1000 records gives the same [commits] and aggregates,
    whatever records follow. *)
Theorem max_commits_cap
    (execCommand : string -> string) (getHours : string -> JS.num) (since : string) :
  let out := execCommand (logCommand since) in
  out <> "" ->
  let cl := map destructure (GitUtils.parseGitLog out logFields) in
  let folded := firstn MAX_COMMITS cl in
  let st := getCommitStats execCommand getHours since in
  MAX_COMMITS = 1000
  /\ total st = List.length cl
  /\ commits st = folded
  /\ List.length (commits st) = Nat.min 1000 (total st)
  /\ (exists ag,
        aggregates st = Some ag
        /\ NoDup (map fst (authors ag))
        /\ (forall name, JS.get (authors ag) name = authorEntryOf folded name)
        /\ (forall c, patternCount c (patterns ag)
                      = List.length (inCategory c folded))
        /\ (forall q, periodCount q (timeDistribution ag)
                      = List.length (inPeriod getHours q folded))
        /\ patternSum (patterns ag) = List.length folded
        /\ periodSum (timeDistribution ag) = List.length folded)
  /\ (forall out',
        out' <> "" ->
        firstn MAX_COMMITS (GitUtils.parseGitLog out' logFields)
        = firstn MAX_COMMITS (GitUtils.parseGitLog out logFields) ->
        commits (commitStats getHours out') = commits st
        /\ aggregates (commitStats getHours out') = aggregates st).
Proof.
  intros out Hne cl folded st. subst st. unfold getCommitStats. fold out.
  rewrite (CommitStatsProps.commitStats_nonempty getHours out Hne).
  cbn [aggregates total commits].
  destruct (CommitStatsProps.fold_commits getHours
              (firstn MAX_COMMITS (GitUtils.parseGitLog out logFields))
              [] emptyAggregates) as (H1 & H2 & H3 & H4 & H5 & H6).
  cbn zeta in *.
  set (r := fold_left (foldCommit getHours)
                      (firstn MAX_COMMITS (GitUtils.parseGitLog out logFields))
                      ([], emptyAggregates)) in *.
  assert (Ef : map destructure (firstn MAX_COMMITS (GitUtils.parseGitLog out logFields))
               = folded) by (subst folded cl; symmetry; apply firstn_map).
  rewrite Ef in *.
  split; [reflexivity|]. split; [subst cl; symmetry; apply length_map|].
  split; [rewrite H1; reflexivity|].
  split.
  { rewrite H1. cbn [app]. subst folded. rewrite length_firstn.
    subst cl. rewrite length_map. reflexivity. }
  split.
  { exists (snd r). split; [reflexivity|].
    rewrite H6. change (authors emptyAggregates) with (@nil (string * AuthorEntry)).
    split; [apply AuthorMapProps.authors_NoDup; constructor|].
    split; [intro name; now rewrite AuthorMapProps.authors_get|].
    split; [intro c; rewrite H4; destruct c; reflexivity|].
    split; [intro q; rewrite H5; destruct q; reflexivity|].
    split; [rewrite H2|rewrite H3]; rewrite <- Ef, length_map; reflexivity. }
  intros out' Hne' Hsame.
  rewrite (CommitStatsProps.commitStats_nonempty getHours out' Hne').
  cbn [aggregates commits]. rewrite Hsame. fold r. split; reflexivity.
Qed.

(** A log of 1001 commits by one author: the total is 1001 and 1000
    commits are kept and counted. *)
Lemma max_commits_cap_witness :
  let st := getCommitStats (fun _ => Samples.logLines Samples.fixLine 1001)
                           (Dates.getHours 60) "6 months ago" in
  total st = 1001
  /\ List.length (commits st) = 1000
  /\ exists ag, aggregates st = Some ag
                /\ JS.get (authors ag) "Alice"
                   = Some (mkAuthorEntry "alice@example.org" 1000)
                /\ patternCount Fix (patterns ag) = 1000.
Proof.
  cbn zeta.
  destruct (max_commits_cap (fun _ => Samples.logLines Samples.fixLine 1001)
                            (Dates.getHours 60) "6 months ago")
    as (_ & Ht & _ & Hl & (ag & Hag & _ & Ha & Hc & _) & _).
  { intro H. apply (f_equal (fun s => String.eqb s "")) in H.
    vm_compute in H. discriminate H. }
  cbn zeta in Ht, Hl, Ha, Hc.
  assert (E : List.length
                (map destructure
                   (GitUtils.parseGitLog (Samples.logLines Samples.fixLine 1001)
                                         logFields)) = 1001)
    by (vm_compute; reflexivity).
  split; [rewrite Ht; exact E|].
  split; [rewrite Hl, Ht, E; reflexivity|].
  exists ag. split; [exact Hag|]. split.
  - rewrite Ha. vm_compute. reflexivity.
  - rewrite (Hc Fix). vm_compute. reflexivity.
Defined.

End CapProps.

(** ** The report artifact *)

Module ReportProps.

Import ExtractKnowledge.

Lemma commitStats_ext (g1 g2 : string -> JS.num) out :
  (forall date, g1 date = g2 date) -> commitStats g1 out = commitStats g2 out.
Proof.
  intro H. unfold commitStats. destruct (String.eqb out ""); [reflexivity|].
  rewrite (KeyedFacts.fold_left_ext (foldCommit g1) (foldCommit g2)); [reflexivity|].
  intros [cs ag] commit. unfold foldCommit. now rewrite H.
Qed.

(** A run reads the world through [runCommands] and [getHours] only. *)
Lemma main_ext (e1 e2 : string -> string) (g1 g2 : string -> JS.num)
               repoName clock args :
  (forall cmd, In cmd (runCommands (sinceOf args)) -> e1 cmd = e2 cmd) ->
  (forall date, g1 date = g2 date) ->
  main e1 g1 repoName clock args = main e2 g2 repoName clock args.
Proof.
  intros He Hg.
  unfold main, getCommitStats, getMostChangedFiles, getCommitPatterns, getBranchInsights.
  change (NilZero.string_of_uint (Nat.to_uint 20)) with "20".
  rewrite (He "git rev-parse --git-dir 2>/dev/null") by (simpl; tauto).
  rewrite (He (logCommand (sinceOf args))) by (simpl; tauto).
  rewrite (He ("git log --all --name-only --pretty=format: | sort | uniq -c | sort -rn | head -n "
               ++ "20")%string) by (simpl; tauto).
  rewrite (He messagesCommand) by (simpl; tauto).
  rewrite (He "git branch -a | wc -l") by (simpl; tauto).
  rewrite (He "git branch --merged | wc -l") by (simpl; tauto).
  rewrite (commitStats_ext g1 g2 _ Hg). reflexivity.
Qed.

(** C2 (as amended).  Two runs in worlds that agree on the outputs of the
    commands of the run, on the hours of the dates and on the name of the
    directory end alike.  When they write the report, the two documents
    have the same eight sections in the same order and differ at most in
    the [generatedAt] text of the metadata, which is the clock reading of
    each run, so that runs that read the same time there write
    byte-identical documents.  The rows of the [authors] section are the
    first ten of a ranking of the author map in descending order of
    commits in which authors of equal commits stand in the order of
    [Object.entries]. *)
Theorem report_determined_up_to_clock
    (execCommand1 execCommand2 : string -> string)
    (getHours1 getHours2 : string -> JS.num)
    (repoName : string) (clock1 clock2 : nat -> string) (args : list string) :
  (forall cmd, In cmd (runCommands (sinceOf args)) -> execCommand1 cmd = execCommand2 cmd) ->
  (forall date, getHours1 date = getHours2 date) ->
  let run1 := main execCommand1 getHours1 repoName clock1 args in
  let run2 := main execCommand2 getHours2 repoName clock2 args in
  let document :=
    fun generatedAt totalCommits rows patternsV timeV filesV wordsV phrasesV branchesV =>
      JSON.stringify
        (JSON.Obj [("metadata",
                    JSON.Obj [("repository", JSON.Str repoName);
                              ("generatedAt", JSON.Str generatedAt);
                              ("commitsAnalyzed", JSON.Num (Z.of_nat totalCommits))]);
                   ("authors", JSON.Arr rows);
                   ("commitPatterns", patternsV);
                   ("timeDistribution", timeV);
                   ("mostChangedFiles", filesV);
                   ("commonKeywords", wordsV);
                   ("commonPhrases", phrasesV);
                   ("branchInsights", branchesV)]) in
  (clock1 1 = clock2 1 -> run1 = run2)
  /\ (run1 = Exited 1 /\ run2 = Exited 1
      \/ run1 = Threw /\ run2 = Threw
      \/ exists totalCommits ag ranking patternsV timeV filesV wordsV phrasesV branchesV,
           let rows := map (authorRow totalCommits) (firstn 10 ranking) in
           run1 = Wrote "tribal-knowledge-report.json"
                        (document (clock1 1) totalCommits rows patternsV timeV filesV
                                  wordsV phrasesV branchesV)
           /\ run2 = Wrote "tribal-knowledge-report.json"
                           (document (clock2 1) totalCommits rows patternsV timeV filesV
                                     wordsV phrasesV branchesV)
           /\ aggregates (getCommitStats execCommand1 getHours1 (sinceOf args)) = Some ag
           /\ Permutation ranking (authors ag)
           /\ descending (fun e => a_commits (snd e)) ranking
           /\ forall c, filter (fun e => a_commits (snd e) =? c) ranking
                        = filter (fun e => a_commits (snd e) =? c)
                                 (JS.entries (authors ag))).
Proof.
  intros He Hg run1 run2 document. subst run1 run2.
  rewrite <- (main_ext execCommand1 execCommand2 getHours1 getHours2
                       repoName clock2 args He Hg).
  unfold main, generateReport.
  destruct (String.eqb (execCommand1 "git rev-parse --git-dir 2>/dev/null") "").
  { split; [reflexivity|]. left. split; reflexivity. }
  destruct (aggregates (getCommitStats execCommand1 getHours1 (sinceOf args)))
    as [ag|] eqn:Eag.
  - split.
    + intro H. unfold reportData. rewrite H. reflexivity.
    + right. right.
      exists (total (getCommitStats execCommand1 getHours1 (sinceOf args))), ag,
             (JS.sort (fun a b => a_commits (snd b) <? a_commits (snd a))
                      (JS.entries (authors ag))).
      do 6 eexists. cbn zeta.
      split; [subst document; reflexivity|].
      split; [subst document; reflexivity|].
      split; [reflexivity|].
      split.
      { rewrite JSFacts.sort_perm. apply JSFacts.entries_perm. }
      split; [apply (JSFacts.sort_desc (fun e : string * AuthorEntry => a_commits (snd e)))|].
      intro c.
      apply (RankingFacts.sort_stable (fun e : string * AuthorEntry => a_commits (snd e))).
  - split; [reflexivity|]. right. left. split; reflexivity.
Qed.

(** The two-commit world and a world that answers one more command, for
    two clocks that agree on the second reading. *)
Lemma report_determined_up_to_clock_witness :
  main Samples.smallWorld Samples.isoHours "repo" Samples.clockA []
  = main (fun cmd => if String.eqb cmd "git status" then "clean"
                     else Samples.smallWorld cmd)
         Samples.isoHours "repo"
         (fun n => if n =? 0 then "2025-12-31T23:59:59.999Z" else Samples.clockA n) [].
Proof.
  destruct (report_determined_up_to_clock
              Samples.smallWorld
              (fun cmd => if String.eqb cmd "git status" then "clean"
                          else Samples.smallWorld cmd)
              Samples.isoHours Samples.isoHours "repo"
              Samples.clockA
              (fun n => if n =? 0 then "2025-12-31T23:59:59.999Z" else Samples.clockA n)
              []) as [H _].
  - intros cmd H. simpl in H.
    decompose [or] H; try contradiction; subst cmd; reflexivity.
  - reflexivity.
  - apply H. reflexivity.
Defined.

(** The same history, read a second later, gives a different document. *)
Lemma report_clock_counterexample :
  main Samples.smallWorld Samples.isoHours "repo" Samples.clockA []
  <> main Samples.smallWorld Samples.isoHours "repo" Samples.clockB [].
Proof.
  intro H.
  assert (E : forall r1 r2, r1 = r2 ->
            match r1, r2 with
            | Wrote _ c1, Wrote _ c2 => String.length c1 = String.length c2 -> c1 = c2
            | _, _ => True
            end) by (intros r1 r2 ->; destruct r2; auto).
  specialize (E _ _ H). vm_compute in E.
  specialize (E eq_refl). discriminate E.
Qed.

End ReportProps.

(** ** Working hours and the file lists *)

Module AnalysisProps.

Import ExtractKnowledge AuthorPatterns AuthorAnalysis.

Lemma workingHours_sum (hs : list JS.num) : forall t,
  periodSum (fold_left (fun periods hour => bumpPeriod (period hour) periods) hs t)
  = periodSum t + List.length hs.
Proof.
  induction hs as [|h hs IH]; intro t; simpl; [lia|].
  rewrite IH, CommitStatsProps.periodSum_bump. lia.
Qed.

(** X17.  For a non-empty list of hours the four counters of
    [analyzeWorkingHours] add up to the number of hours, and [mostActive]
    names a period whose counter is the largest; when several periods
    share the largest counter it names the first of them in the order
    morning, afternoon, evening, night.  For no hours it is [N/A]. *)
Theorem most_active_period (commitHours : list JS.num) :
  let t := analyzeWorkingHours commitHours in
  periodSum t = List.length commitHours
  /\ (commitHours = [] -> mostActive commitHours = "N/A")
  /\ (commitHours <> [] ->
      exists q,
        mostActive commitHours = periodName q
        /\ (forall q', periodCount q' t <= periodCount q t)
        /\ (forall q', periodIndex q' < periodIndex q ->
                       periodCount q' t < periodCount q t)).
Proof.
  cbn zeta. split; [|split].
  - unfold analyzeWorkingHours. destruct commitHours as [|h hs]; [reflexivity|].
    rewrite workingHours_sum. reflexivity.
  - intros ->. reflexivity.
  - destruct commitHours as [|h hs]; [congruence|]. intros _.
    unfold mostActive.
    set (t := analyzeWorkingHours (h :: hs)). clearbody t.
    destruct t as [m a e n]. unfold periodEntries, JS.sort.
    repeat (cbn -[periodName Nat.ltb];
            match goal with
            | |- context [?x <? ?y] => destruct (Nat.ltb_spec x y)
            end);
      cbn -[periodName Nat.ltb];
      (eexists; split; [reflexivity|];
       split; intros q'; destruct q'; cbn; lia).
Qed.

(** Two evening hours, two morning hours and an invalid date: the tie goes
    to the morning. *)
Lemma most_active_period_witness :
  mostActive [Some 18; Some 7; None; Some 19; Some 8]%Z = "morning".
Proof.
  destruct (proj2 (proj2 (most_active_period [Some 18; Some 7; None; Some 19; Some 8]%Z)))
    as (q & Hq & _).
  - discriminate.
  - reflexivity.
Defined.

Lemma blank_line_file line :
  (0 <? String.length (JS.trim line)) = false ->
  f_file (parseFileLine line) = "".
Proof.
  intro H. apply Nat.ltb_ge in H. unfold parseFileLine.
  destruct (JS.trim line); [reflexivity|simpl in H; lia].
Qed.

Lemma blank_filter_redundant lines :
  filter (fun item => 0 <? String.length (f_file item))
         (map parseFileLine
              (filter (fun line => 0 <? String.length (JS.trim line)) lines))
  = filter (fun item => 0 <? String.length (f_file item)) (map parseFileLine lines).
Proof.
  induction lines as [|line lines IH]; [reflexivity|]. cbn [filter map].
  destruct (0 <? String.length (JS.trim line)) eqn:E; cbn [filter map].
  - now rewrite IH.
  - rewrite (blank_line_file line E). exact IH.
Qed.

(** X18.  [getAuthorFiles] and [getMostChangedFiles] read a command output
    alike: on the same output they return the same list, so the filter for
    blank lines that only [getAuthorFiles] has changes nothing; every item
    of either list has a non-empty file name. *)
Theorem file_lists_parse_alike
    (world1 world2 : string -> string) (authorName : string) (limit : nat) :
  world1 (authorFilesCommand authorName)
  = world2 ("git log --all --name-only --pretty=format: | sort | uniq -c | sort -rn | head -n "
              ++ NilZero.string_of_uint (Nat.to_uint limit))%string ->
  getAuthorFiles world1 authorName = getMostChangedFiles world2 limit
  /\ forall item, In item (getAuthorFiles world1 authorName) -> f_file item <> "".
Proof.
  intro H. unfold getAuthorFiles, getMostChangedFiles. rewrite <- H.
  destruct (String.eqb (world1 (authorFilesCommand authorName)) "").
  - split; [reflexivity|intros ? []].
  - rewrite blank_filter_redundant. split; [reflexivity|].
    intros item Hin. apply filter_In in Hin. destruct Hin as [_ Hf].
    apply Nat.ltb_lt in Hf. intros E. rewrite E in Hf. simpl in Hf. lia.
Qed.

(** An output with a blank line and a line that has a count only. *)
Lemma file_lists_parse_alike_witness :
  let out := ("      3 src/a b.js" ++ Samples.nl ++ "   " ++ Samples.nl ++ "      7"
              ++ Samples.nl ++ "      x README.md")%string in
  getAuthorFiles (fun _ => out) "Ann"
  = [mkFileChange 3 "src/a b.js"; mkFileChange 0 "README.md"]
  /\ getAuthorFiles (fun _ => out) "Ann" = getMostChangedFiles (fun _ => out) 20.
Proof.
  cbn zeta. split; [reflexivity|].
  apply (file_lists_parse_alike
           (fun _ => ("      3 src/a b.js" ++ Samples.nl ++ "   " ++ Samples.nl ++ "      7"
                      ++ Samples.nl ++ "      x README.md")%string)
           (fun _ => ("      3 src/a b.js" ++ Samples.nl ++ "   " ++ Samples.nl ++ "      7"
                      ++ Samples.nl ++ "      x README.md")%string)
           "Ann" 20).
  reflexivity.
Defined.

End AnalysisProps.
